(** * quizapp: the scoring and ranking core of [app.py]

    A shallow embedding of the Flask handlers of [app.py] and the properties
    of their grading, question selection, registration, ranking and question
    bank maintenance.

    Conventions of the embedding.
    - A request body is the value [request.get_json()] returns: a [json] tree.
      Python integers are [Z]; a Python float is given by its value, a
      rational ([Q]).  Where the handlers compute with floats (the time sum
      and the average of [submit_quiz]) every operand and result is rounded
      to the nearest binary64, ties to even, as the interpreter does;
      infinities, NaN, the sign of a zero and results beyond the binary64
      range are outside the model.  Text is ASCII ([string]); the
      interpreter's limit on the number of digits [int] parses is not
      modelled.
    - A Python exception is a value of [exn]; a computation that may raise
      returns an [outcome].  A handler that touches the relational store
      takes the [database] and returns the new one beside its answer.
    - [questions.json] is a value of [option (list Question.t)]: [None] when
      the file does not exist, otherwise the array of question objects it
      holds, each with the keys [question], [options] and [answer].
    - The tables of [models.py] are lists of rows in insertion order; the
      store's ORDER BY is a stable sort of them.  A write to the store does
      not fail here; a property that needs the values written to be ones a
      store can bind says so ([storable]). *)

From Stdlib Require Import ZArith QArith List String Ascii Bool Lia.
From Stdlib Require Import DecimalString DecimalPos Permutation Sorted Lqa Qpower.
Import ListNotations.

Local Open Scope string_scope.
Local Open Scope Z_scope.

#[local] Set Warnings "-register-all".

(** ** JSON values and the Python operations the handlers apply to them *)

Inductive json : Type :=
| JNull
| JBool (b : bool)
| JInt (z : Z)
| JFloat (q : Q)
| JStr (s : string)
| JList (l : list json)
| JDict (d : list (string * json)).

Inductive exn : Type :=
| AttributeError
| TypeError
| ValueError
| IndexError
| FileNotFoundError
| IntegrityError
| DoesNotExist.

Inductive outcome (A : Type) : Type :=
| Return (a : A)
| Raise (e : exn).

Arguments Return {A} a.
Arguments Raise {A} e.

Definition obind {A B : Type} (m : outcome A) (k : A -> outcome B) : outcome B :=
  match m with
  | Return a => k a
  | Raise e => Raise e
  end.

Declare Scope outcome_scope.
Delimit Scope outcome_scope with outcome.
Notation "x <- m ;; k" := (obind m (fun x => k))
  (at level 61, m at next level, right associativity) : outcome_scope.

(** [dict.get(k)] on the bindings of a parsed object (keys are distinct). *)
Fixpoint assoc_get {A : Type} (k : string) (d : list (string * A)) : option A :=
  match d with
  | [] => None
  | (k', v) :: d' => if String.eqb k' k then Some v else assoc_get k d'
  end.

(** [v.get(k, default)]: only a dict has the method. *)
Definition py_get (v : json) (k : string) (default : json) : outcome json :=
  match v with
  | JDict d => Return (match assoc_get k d with Some x => x | None => default end)
  | _ => Raise AttributeError
  end.

(** [str.isspace] on ASCII: TAB..CR, FS..US and the space. *)
Definition is_space (c : ascii) : bool :=
  let n := nat_of_ascii c in
  ((9 <=? n)%nat && (n <=? 13)%nat) || ((28 <=? n)%nat && (n <=? 32)%nat).

(** The blanks [int] skips around an ASCII literal: TAB..CR and the space. *)
Definition is_blank (c : ascii) : bool :=
  let n := nat_of_ascii c in
  ((9 <=? n)%nat && (n <=? 13)%nat) || (n =? 32)%nat.

Fixpoint lstrip (space : ascii -> bool) (s : string) : string :=
  match s with
  | EmptyString => EmptyString
  | String c s' => if space c then lstrip space s' else s
  end.

Fixpoint rstrip (space : ascii -> bool) (s : string) : string :=
  match s with
  | EmptyString => EmptyString
  | String c s' =>
      match rstrip space s' with
      | EmptyString => if space c then EmptyString else String c EmptyString
      | r => String c r
      end
  end.

(** [s.strip()]. *)
Definition strip (s : string) : string := rstrip is_space (lstrip is_space s).

(** [v.strip()]: only a str has the method. *)
Definition py_strip (v : json) : outcome string :=
  match v with
  | JStr s => Return (strip s)
  | _ => Raise AttributeError
  end.

(** Truth value of a JSON value ([if not v], [v or default]). *)
Definition py_truthy (v : json) : bool :=
  match v with
  | JNull => false
  | JBool b => b
  | JInt z => negb (z =? 0)
  | JFloat q => negb (Qeq_bool q 0)
  | JStr s => negb (String.eqb s "")
  | JList l => match l with [] => false | _ => true end
  | JDict d => match d with [] => false | _ => true end
  end.

Definition py_or (v default : json) : json :=
  if py_truthy v then v else default.

(** [isinstance(v, int)]: [bool] is a subclass of [int]. *)
Definition py_as_int (v : json) : option Z :=
  match v with
  | JInt z => Some z
  | JBool b => Some (Z.b2z b)
  | _ => None
  end.

(** [isinstance(v, (int, float))], with the number's value. *)
Definition py_number (v : json) : option Q :=
  match v with
  | JInt z => Some (inject_Z z)
  | JBool b => Some (inject_Z (Z.b2z b))
  | JFloat q => Some q
  | _ => None
  end.

Definition digit_of (c : ascii) : option Z :=
  let n := nat_of_ascii c in
  if ((48 <=? n)%nat && (n <=? 57)%nat) then Some (Z.of_nat (n - 48)) else None.

(** Decimal digits after the first one; a single underscore may separate
    two digits. *)
Fixpoint parse_digits (s : string) (acc : Z) : option Z :=
  match s with
  | EmptyString => Some acc
  | String c rest =>
      match digit_of c with
      | Some d => parse_digits rest (10 * acc + d)
      | None =>
          if Ascii.eqb c "_" then
            match rest with
            | String c' rest' =>
                match digit_of c' with
                | Some d => parse_digits rest' (10 * acc + d)
                | None => None
                end
            | EmptyString => None
            end
          else None
      end
  end.

Definition parse_unsigned (s : string) : option Z :=
  match s with
  | String c rest =>
      match digit_of c with
      | Some d => parse_digits rest d
      | None => None
      end
  | EmptyString => None
  end.

(** [int(s)] for a str, base 10: surrounding blanks, an optional sign,
    digits. *)
Definition int_of_string (s : string) : option Z :=
  match rstrip is_blank (lstrip is_blank s) with
  | String c rest =>
      if Ascii.eqb c "+" then parse_unsigned rest
      else if Ascii.eqb c "-" then option_map Z.opp (parse_unsigned rest)
      else parse_unsigned (String c rest)
  | EmptyString => None
  end.

(** [int(v)]: an int is itself, a bool is 0 or 1, a float is truncated toward
    zero, a str is parsed (ValueError), anything else is a TypeError. *)
Definition py_int (v : json) : outcome Z :=
  match v with
  | JInt z => Return z
  | JBool b => Return (Z.b2z b)
  | JFloat q => Return (Z.quot (Qnum q) (Zpos (Qden q)))
  | JStr s => match int_of_string s with Some z => Return z | None => Raise ValueError end
  | JNull | JList _ | JDict _ => Raise TypeError
  end.

(** [a == b] on JSON values: numbers (bools included) compare by value,
    lists pointwise, dicts as finite maps (same number of keys, and every
    binding of [a] has an equal binding under the same key in [b]). *)
Fixpoint py_eq (a b : json) {struct a} : bool :=
  match a, b with
  | JNull, JNull => true
  | JStr s, JStr t => String.eqb s t
  | JList l, JList m =>
      (fix all2 (l m : list json) {struct l} : bool :=
         match l, m with
         | [], [] => true
         | x :: l', y :: m' => py_eq x y && all2 l' m'
         | _, _ => false
         end) l m
  | JDict d, JDict e =>
      Nat.eqb (List.length d) (List.length e) &&
      (fix sub (d : list (string * json)) {struct d} : bool :=
         match d with
         | [] => true
         | p :: d' =>
             match p with
             | (k, v) => existsb (fun kw => String.eqb k (fst kw) && py_eq v (snd kw)) e
             end && sub d'
         end) d
  | JBool x, _ => match py_number b with Some y => Qeq_bool (inject_Z (Z.b2z x)) y | None => false end
  | JInt x, _ => match py_number b with Some y => Qeq_bool (inject_Z x) y | None => false end
  | JFloat x, _ => match py_number b with Some y => Qeq_bool x y | None => false end
  | _, _ => false
  end.

(** [for x in v]: a list yields its items, a str its characters, a dict its
    keys; nothing else is iterable. *)
Definition py_iter (v : json) : outcome (list json) :=
  match v with
  | JList l => Return l
  | JStr s => Return (map (fun c => JStr (String c EmptyString)) (list_ascii_of_string s))
  | JDict d => Return (map (fun kv => JStr (fst kv)) d)
  | _ => Raise TypeError
  end.

Definition response : Type := (json * Z)%type.

Definition jsonify (d : list (string * json)) : json := JDict d.

(** ** The question bank ([questions.json]) *)

Module Question.
(** One object of the bank document, as [admin_api_add_question] writes it. *)
Record t : Type := mk { question : string; options : list json; answer : json }.
End Question.

(** [a == b] on two bank objects (dict equality, key by key). *)
Definition question_eq (a b : Question.t) : bool :=
  String.eqb (Question.question a) (Question.question b)
  && py_eq (JList (Question.options a)) (JList (Question.options b))
  && py_eq (Question.answer a) (Question.answer b).

(** [qs.index(q)]: the first position holding an object equal to [q]. *)
Fixpoint index (q : Question.t) (qs : list Question.t) : outcome nat :=
  match qs with
  | [] => Raise ValueError
  | x :: rest =>
      if question_eq x q then Return 0%nat
      else (i <- index q rest ;; Return (S i))%outcome
  end.

(** ** GET /questions *)

Module Safe.
(** An item of the response: the question without its answer key. *)
Record t : Type := mk { id : Z; question : string; options : list json }.
End Safe.

Fixpoint safe_items (qs chosen : list Question.t) : outcome (list Safe.t) :=
  match chosen with
  | [] => Return []
  | q :: rest =>
      (idx <- index q qs ;;
       safe <- safe_items qs rest ;;
       Return (Safe.mk (Z.of_nat idx) (Question.question q) (Question.options q) :: safe))%outcome
  end.

(** [pick] is the draw of [random.choice([set_a, set_b])]: [false] for
    [set_a], [true] for [set_b]. *)
Definition get_questions (questions_file : option (list Question.t)) (pick : bool)
  : outcome (list Safe.t) :=
  match questions_file with
  | Some qs =>
      let set_a := firstn 15 qs in
      let set_b := skipn 15 qs in
      let chosen_set := if pick then set_b else set_a in
      safe_items qs chosen_set
  | None => Return []
  end.

(** ** The interpreter's numbers *)

(** Round half to even at the units. *)
Definition round_half_even (q : Q) : Z :=
  let n := Qnum q in
  let d := Zpos (Qden q) in
  match (2 * (n mod d) ?= d) with
  | Lt => n / d
  | Gt => n / d + 1
  | Eq => if Z.even (n / d) then n / d else n / d + 1
  end.

(** A number of the interpreter: an [int], kept whole, or a [float], a
    binary64 given by its value.  Infinities, NaN, the sign of a zero and
    results beyond the binary64 range (where the interpreter raises
    OverflowError or yields [inf]) are not modelled. *)
Inductive number : Type :=
| NInt (z : Z)
| NFloat (x : Q).

Coercion NInt : Z >-> number.

(** The binary exponent of [q <> 0]: [2 ^ binade q <= |q| < 2 ^ (binade q + 1)]. *)
Definition binade (q : Q) : Z :=
  let e := Z.log2 (Z.abs (Qnum q)) - Z.log2 (Zpos (Qden q)) in
  if Qle_bool (2 ^ e) (Z.abs (Qnum q) # Qden q) then e else e - 1.

(** The exponent of the last place of a binary64 in the binade of [q]: 53
    significant bits, and no place below [2 ^ -1074]. *)
Definition ulp_exponent (q : Q) : Z := Z.max (binade q - 52) (-1074).

(** The binary64 nearest to [q], ties to even: the rounding of every
    float operation and of the reading of a literal. *)
Definition round64 (q : Q) : Q :=
  if Qeq_bool q 0 then 0%Q
  else
    let u := (2 ^ ulp_exponent q)%Q in
    Qred (inject_Z (round_half_even (q / u)) * u).

(** [float(n)]. *)
Definition float (n : number) : Q :=
  match n with
  | NInt z => round64 (inject_Z z)
  | NFloat x => x
  end.

(** [a + b]: exact on two ints; otherwise both are taken as floats and the
    sum is rounded. *)
Definition py_add (a b : number) : number :=
  match a, b with
  | NInt x, NInt y => NInt (x + y)
  | _, _ => NFloat (round64 (float a + float b))
  end.

(** [a / b] for [b <> 0]: the quotient of two ints is rounded once;
    otherwise both are taken as floats and the quotient is rounded. *)
Definition py_truediv (a b : number) : Q :=
  match a, b with
  | NInt x, NInt y => round64 (inject_Z x / inject_Z y)
  | _, _ => round64 (float a / float b)
  end.

(** [isinstance(v, (int, float))], with the number: a bool is an int, and a
    JSON number with a fraction or an exponent is the binary64 nearest to
    it. *)
Definition number_of (v : json) : option number :=
  match v with
  | JInt z => Some (NInt z)
  | JBool b => Some (NInt (Z.b2z b))
  | JFloat q => Some (NFloat (round64 q))
  | _ => None
  end.

(** ** Grading: the scoring loop of [submit_quiz] *)

Record tally : Type := mk_tally { correct : Z; total_time : number; time_counts : Z }.

Definition tally0 : tally := mk_tally 0 0 0.

(** One iteration of [for i, ans in enumerate(answers)]; a [continue] returns
    the tally unchanged. *)
Definition score_answer (questions : list Question.t) (i : nat) (ans : json) (t : tally)
  : outcome tally :=
  (qid <- py_get ans "qId" (JInt (Z.of_nat i)) ;;
   match py_int qid with
   | Raise ValueError | Raise TypeError => Return t
   | Raise e => Raise e
   | Return qid =>
       if negb ((0 <=? qid) && (qid <? Z.of_nat (List.length questions))) then Return t
       else
         selected <- py_get ans "selected" JNull ;;
         match py_int selected with
         | Raise ValueError | Raise TypeError => Return t
         | Raise e => Raise e
         | Return selected =>
             time_sec <- py_get ans "time_sec" JNull ;;
             let t1 :=
               match number_of time_sec with
               | Some x => mk_tally (correct t) (py_add (total_time t) x) (time_counts t + 1)
               | None => t
               end in
             match nth_error questions (Z.to_nat qid) with
             | None => Raise IndexError
             | Some q =>
                 let correct_answer := Question.answer q in
                 match py_as_int correct_answer with
                 | Some a =>
                     if selected =? a
                     then Return (mk_tally (correct t1 + 1) (total_time t1) (time_counts t1))
                     else Return t1
                 | None => Return t1
                 end
             end
         end
   end)%outcome.

Fixpoint score_answers (questions : list Question.t) (i : nat) (answers : list json)
  (t : tally) : outcome tally :=
  match answers with
  | [] => Return t
  | ans :: rest =>
      (t' <- score_answer questions i ans t ;; score_answers questions (S i) rest t')%outcome
  end.

(** [points = correct * 2] and
    [avg_time = (total_time / time_counts) if time_counts else 0]. *)
Definition points_of (t : tally) : Z := correct t * 2.

Definition avg_time_of (t : tally) : Q :=
  if negb (time_counts t =? 0) then py_truediv (total_time t) (NInt (time_counts t)) else 0%Q.

(** ** The relational store ([models.py]) *)

Module Participant.
(** Modelled from the spec: [models.py] is not among the sources; the
    columns are those [register] passes to [Participant.create], with the
    integer primary key the ORM adds.  [regno] carries a uniqueness
    constraint (the spec's "externalId: string (unique)"). *)
Record t : Type := mk
  { id : Z; name : string; regno : string; college : string; dept : string; year : Z }.
End Participant.

Module Result.
(** Modelled from the spec: [models.py] is not among the sources; one row
    per participant, [{participantRef, correctCount: integer, points:
    integer, avgTimeSeconds: float}]. *)
Record t : Type := mk
  { id : Z; participant : Z; correct : Z; points : Z; avg_time : Q }.
End Result.

Module Answer.
(** Modelled from the spec: [models.py] is not among the sources; an audit
    row [{resultRef, questionIndex, selectedOptionIndex, timeTakenSeconds}]
    keeps the submitted values as they came ([JNull] for an absent key). *)
Record t : Type := mk
  { id : Z; result : Z; question_id : json; answer : json; time_taken : json }.
End Answer.

Record database : Type := mk_database
  { participants : list Participant.t;
    results : list Result.t;
    answers : list Answer.t }.

(** The primary key of a new row: one more than the largest in the table. *)
Definition next_id (ids : list Z) : Z := 1 + fold_right Z.max 0 ids.

(** [Participant.get_or_none(Participant.regno == regno)]. *)
Definition Participant_get_or_none (db : database) (regno : string) : option Participant.t :=
  find (fun p => String.eqb (Participant.regno p) regno) (participants db).

(** [Participant.get(Participant.regno == regno)]. *)
Definition Participant_get (db : database) (regno : string) : outcome Participant.t :=
  match Participant_get_or_none db regno with
  | Some p => Return p
  | None => Raise DoesNotExist
  end.

(** [Participant.create(...)]: the uniqueness constraint on [regno] raises
    IntegrityError. *)
Definition Participant_create (db : database) (name regno college dept : string) (year : Z)
  : outcome Participant.t * database :=
  match Participant_get_or_none db regno with
  | Some _ => (Raise IntegrityError, db)
  | None =>
      let p := Participant.mk (next_id (map Participant.id (participants db)))
                 name regno college dept year in
      (Return p, mk_database (participants db ++ [p]) (results db) (answers db))
  end.

(** [Result.get(Result.participant == p)] as a query: the first row. *)
Definition Result_of_participant (db : database) (pid : Z) : option Result.t :=
  find (fun r => Result.participant r =? pid) (results db).

(** [Result.get_or_create(participant=p, defaults={...})]. *)
Definition Result_get_or_create (db : database) (p : Participant.t) (correct points : Z)
  (avg_time : Q) : (Result.t * bool) * database :=
  match Result_of_participant db (Participant.id p) with
  | Some r => ((r, false), db)
  | None =>
      let r := Result.mk (next_id (map Result.id (results db))) (Participant.id p)
                 correct points avg_time in
      ((r, true), mk_database (participants db) (results db ++ [r]) (answers db))
  end.

(** [r.save()]: UPDATE of the row with [r]'s primary key. *)
Definition Result_save (db : database) (r : Result.t) : database :=
  mk_database (participants db)
    (map (fun row => if Result.id row =? Result.id r then r else row) (results db))
    (answers db).

(** [Answer.delete().where(Answer.result == r).execute()]. *)
Definition Answer_delete_where_result (db : database) (rid : Z) : database :=
  mk_database (participants db) (results db)
    (filter (fun a => negb (Answer.result a =? rid)) (answers db)).

(** The rows of [to_insert]: a result key and the three submitted values. *)
Definition new_answer : Type := (Z * json * json * json)%type.

(** [Answer.insert_many(rows).execute()]. *)
Fixpoint Answer_insert_many (db : database) (rows : list new_answer) : database :=
  match rows with
  | [] => db
  | (rid, qid, sel, tm) :: rest =>
      let a := Answer.mk (next_id (map Answer.id (answers db))) rid qid sel tm in
      Answer_insert_many (mk_database (participants db) (results db) (answers db ++ [a])) rest
  end.

(** [Answer.select().where(Answer.result == rid)]. *)
Definition Answers_of_result (db : database) (rid : Z) : list Answer.t :=
  filter (fun a => Answer.result a =? rid) (answers db).

(** ** POST /submit-quiz *)

(** The second loop of [submit_quiz]: one audit row per submitted item. *)
Fixpoint to_insert_rows (rid : Z) (answers : list json) : outcome (list new_answer) :=
  match answers with
  | [] => Return []
  | ans :: rest =>
      (qid <- py_get ans "qId" JNull ;;
       sel <- py_get ans "selected" JNull ;;
       tm <- py_get ans "time_sec" JNull ;;
       rows <- to_insert_rows rid rest ;;
       Return ((rid, qid, sel, tm) :: rows))%outcome
  end.

Definition failure (message : string) : json :=
  jsonify [("success", JBool false); ("message", JStr message)].

Definition submit_ok : response :=
  (jsonify [("success", JBool true); ("redirect", JStr "/leaderboard")], 200).

(** The fields [submit_quiz] reads off the payload. *)
Definition submit_fields (payload : json) : outcome (string * json) :=
  (name <- py_get payload "name" (JStr "") ;;
   _ <- py_strip name ;;
   regno <- py_get payload "regno" (JStr "") ;;
   regno <- py_strip regno ;;
   answers <- py_get payload "answers" (JList []) ;;
   Return (regno, answers))%outcome.

(** An exception that leaves the handler is [Raise] (Flask answers 500); the
    store keeps what was written before it. *)
Definition submit_quiz (questions_file : option (list Question.t)) (payload : json)
  (db : database) : outcome response * database :=
  if negb (py_truthy payload) then (Return (failure "No data", 400), db)
  else
    match submit_fields payload with
    | Raise e => (Raise e, db)
    | Return (regno, answers) =>
        if String.eqb regno "" then (Return (failure "Missing regno", 400), db)
        else
          match Participant_get db regno with
          | Raise DoesNotExist => (Return (failure "Please register first", 400), db)
          | Raise e => (Raise e, db)
          | Return p =>
              match questions_file with
              | None => (Raise FileNotFoundError, db)
              | Some questions =>
                  match (items <- py_iter answers ;;
                         score_answers questions 0 items tally0)%outcome with
                  | Raise e => (Raise e, db)
                  | Return t =>
                      let correct := correct t in
                      let points := points_of t in
                      let avg_time := avg_time_of t in
                      let '((r, _), db1) := Result_get_or_create db p correct points avg_time in
                      let r := Result.mk (Result.id r) (Result.participant r)
                                 correct points avg_time in
                      let db2 := Result_save db1 r in
                      let db3 := Answer_delete_where_result db2 (Result.id r) in
                      match (items <- py_iter answers ;;
                             to_insert_rows (Result.id r) items)%outcome with
                      | Raise e => (Raise e, db3)
                      | Return to_insert =>
                          let db4 :=
                            match to_insert with
                            | [] => db3
                            | _ => Answer_insert_many db3 to_insert
                            end in
                          (Return submit_ok, db4)
                      end
                  end
              end
          end
    end.

(** ** POST /register *)

(** [str(v)].  The text of an int, a bool, None and a str is exact; the repr
    of a float, a list or a dict is schematic: such text is never empty and
    never an integer literal, which is all [register] observes of it. *)
Definition py_str (v : json) : string :=
  match v with
  | JNull => "None"
  | JBool true => "True"
  | JBool false => "False"
  | JInt z => NilZero.string_of_int (Z.to_int z)
  | JFloat q => NilZero.string_of_int (Z.to_int (Z.quot (Qnum q) (Zpos (Qden q)))) ++ ".0"
  | JStr s => s
  | JList _ => "[...]"
  | JDict _ => "{...}"
  end.

(** [str(e)] of a caught exception (the class name stands for the text). *)
Definition str_exn (e : exn) : string :=
  match e with
  | AttributeError => "AttributeError"
  | TypeError => "TypeError"
  | ValueError => "ValueError"
  | IndexError => "IndexError"
  | FileNotFoundError => "FileNotFoundError"
  | IntegrityError => "IntegrityError"
  | DoesNotExist => "DoesNotExist"
  end.

Definition nonempty (s : string) : bool := negb (String.eqb s "").

(** The five trimmed fields [register] reads off the request. *)
Definition register_fields (data : json)
  : outcome (string * string * string * string * string) :=
  (name <- py_get data "name" (JStr "") ;;
   name <- py_strip name ;;
   regno <- py_get data "regno" (JStr "") ;;
   regno <- py_strip regno ;;
   college <- py_get data "college" (JStr "") ;;
   college <- py_strip college ;;
   department <- py_get data "department" (JStr "") ;;
   department <- py_strip department ;;
   year <- py_get data "year" (JStr "") ;;
   Return (name, regno, college, department, strip (py_str year)))%outcome.

Definition conflict : response :=
  (failure "Registration already exists for this regno", 409).

(** The whole body runs under [try ... except Exception], so the handler
    always answers. *)
Definition register (data : json) (db : database) : response * database :=
  match register_fields data with
  | Raise e => ((failure (str_exn e), 500), db)
  | Return (name, regno, college, department, year_raw) =>
      if negb (nonempty name && nonempty regno && nonempty college
               && nonempty department && nonempty year_raw)
      then ((failure "Missing fields", 400), db)
      else
        match int_of_string year_raw with
        | None => ((failure "Year must be a number", 400), db)
        | Some year =>
            match Participant_get_or_none db regno with
            | Some _ => (conflict, db)
            | None =>
                match Participant_create db name regno college department year with
                | (Raise IntegrityError, db1) => (conflict, db1)
                | (Raise e, db1) => ((failure (str_exn e), 500), db1)
                | (Return p, db1) =>
                    let '(_, db2) := Result_get_or_create db1 p 0 0 0%Q in
                    ((jsonify [("success", JBool true);
                               ("message", JStr "Registration successful");
                               ("name", JStr (Participant.name p));
                               ("regno", JStr (Participant.regno p))], 200), db2)
                end
            end
        end
  end.

(** ** POST /admin/api/add-question (behind the credential check) *)

Definition add_question_fields (data : json) : outcome (string * json * json) :=
  (question <- py_get data "question" JNull ;;
   question <- py_strip (py_or question (JStr "")) ;;
   options <- py_get data "options" JNull ;;
   answer <- py_get data "answer" JNull ;;
   Return (question, py_or options (JList []), answer))%outcome.

(** [isinstance(answer, int) and 0 <= answer < len(options)]. *)
Definition valid_index (answer : json) (options : list json) : bool :=
  match py_as_int answer with
  | Some a => (0 <=? a) && (a <? Z.of_nat (List.length options))
  | None => false
  end.

Definition admin_api_add_question (data : json) (questions_file : option (list Question.t))
  : outcome response * option (list Question.t) :=
  match add_question_fields (py_or data (JDict [])) with
  | Raise e => (Raise e, questions_file)
  | Return (question, options, answer) =>
      if negb (nonempty question)
      then (Return (failure "question required", 400), questions_file)
      else
        match options with
        | JList opts =>
            if (List.length opts <? 2)%nat
            then (Return (failure "options must be a list with at least 2 items", 400),
                  questions_file)
            else if negb (valid_index answer opts)
            then (Return (failure "answer must be a valid index", 400), questions_file)
            else
              let questions := match questions_file with Some qs => qs | None => [] end in
              let questions := (questions ++ [Question.mk question opts answer])%list in
              (Return (jsonify [("success", JBool true);
                                ("message", JStr "Question added");
                                ("count", JInt (Z.of_nat (List.length questions)))], 200),
               Some questions)
        | _ =>
            (Return (failure "options must be a list with at least 2 items", 400),
             questions_file)
        end
  end.

(** ** Ranking: GET /api/leaderboard and GET /admin/api/top *)

Definition Participant_by_id (db : database) (pid : Z) : option Participant.t :=
  find (fun p => Participant.id p =? pid) (participants db).

(** [Result.select(Result, Participant).join(Participant)]: an inner join. *)
Definition select_join (db : database) : list (Result.t * Participant.t) :=
  flat_map (fun r => match Participant_by_id db (Result.participant r) with
                     | Some p => [(r, p)]
                     | None => []
                     end) (results db).

(** The order of [.order_by(Result.points.desc(), Result.avg_time.asc())]:
    [a] may precede [b]. *)
Definition precedes (a b : Result.t * Participant.t) : bool :=
  (Result.points (fst b) <? Result.points (fst a))
  || ((Result.points (fst a) =? Result.points (fst b))
      && Qle_bool (Result.avg_time (fst a)) (Result.avg_time (fst b))).

Fixpoint insert_row (x : Result.t * Participant.t) (rows : list (Result.t * Participant.t))
  : list (Result.t * Participant.t) :=
  match rows with
  | [] => [x]
  | y :: rest => if precedes x y then x :: y :: rest else y :: insert_row x rest
  end.

(** [a] is ranked no later than [b]. *)
Definition ranked (a b : Result.t * Participant.t) : Prop := precedes a b = true.

(** The store's ORDER BY, as a stable sort of the rows in table order. *)
Definition order_by (rows : list (Result.t * Participant.t))
  : list (Result.t * Participant.t) :=
  fold_right insert_row [] rows.

(** [round(x, 2)]. *)
Definition py_round2 (x : Q) : Q := Qmake (round_half_even (x * 100)) 100.

Module Entry.
(** A row of [leaderboard_api]'s response. *)
Record t : Type := mk
  { name : string; regno : string; correct : Z; points : Z; avg_time : Q }.
End Entry.

Module Top.
(** A row of [admin_api_top]'s response. *)
Record t : Type := mk
  { rank : Z; name : string; regno : string; correct : Z; points : Z; avg_time : Q }.
Definition entry (e : t) : Entry.t :=
  Entry.mk (name e) (regno e) (correct e) (points e) (avg_time e).
End Top.

Definition leaderboard_api (db : database) : list Entry.t :=
  map (fun rp => Entry.mk (Participant.name (snd rp)) (Participant.regno (snd rp))
                   (Result.correct (fst rp)) (Result.points (fst rp))
                   (py_round2 (Result.avg_time (fst rp))))
      (order_by (select_join db)).

(** [for i, r in enumerate(rows)], from position [i]. *)
Fixpoint top_rows (i : nat) (rows : list (Result.t * Participant.t)) : list Top.t :=
  match rows with
  | [] => []
  | rp :: rest =>
      Top.mk (Z.of_nat i + 1) (Participant.name (snd rp)) (Participant.regno (snd rp))
        (Result.correct (fst rp)) (Result.points (fst rp))
        (py_round2 (Result.avg_time (fst rp)))
      :: top_rows (S i) rest
  end.

Definition admin_api_top (db : database) : list Top.t :=
  top_rows 0 (firstn 10 (order_by (select_join db))).

(** ** Reference definitions for the properties below *)

Definition dict : Type := list (string * json).

(** The request bodies the clients send. *)
Definition submit_payload (name regno : string) (items : list dict) : json :=
  JDict [("name", JStr name); ("regno", JStr regno); ("answers", JList (map JDict items))].

Definition register_request (name regno college department : string) (year : json) : json :=
  JDict [("name", JStr name); ("regno", JStr regno); ("college", JStr college);
         ("department", JStr department); ("year", year)].

Fixpoint enumerate_from {A : Type} (i : nat) (l : list A) : list (nat * A) :=
  match l with
  | [] => []
  | x :: rest => (i, x) :: enumerate_from (S i) rest
  end.

Definition field (k : string) (d : dict) : json :=
  match assoc_get k d with Some v => v | None => JNull end.

(** The question id of the item at position [i]: its [qId], or its position
    when it has none. *)
Definition question_id (i : nat) (d : dict) : json :=
  match assoc_get "qId" d with Some v => v | None => JInt (Z.of_nat i) end.

(** The bank question the item answers: the one at its coerced question id. *)
Definition item_question (questions : list Question.t) (i : nat) (d : dict)
  : option Question.t :=
  match py_int (question_id i d) with
  | Return q => if 0 <=? q then nth_error questions (Z.to_nat q) else None
  | Raise _ => None
  end.

(** The coerced integer [selected] of the item. *)
Definition item_selected (d : dict) : option Z :=
  match py_int (field "selected" d) with
  | Return s => Some s
  | Raise _ => None
  end.

(** The item's selection equals the stored integer answer of its question. *)
Definition answered_correctly (questions : list Question.t) (i : nat) (d : dict) : bool :=
  match item_question questions i d, item_selected d with
  | Some q, Some s =>
      match py_as_int (Question.answer q) with
      | Some a => s =? a
      | None => false
      end
  | _, _ => false
  end.

(** The numeric [time_sec] of an item that is scored. *)
Definition counted_time (questions : list Question.t) (i : nat) (d : dict) : option number :=
  match item_question questions i d, item_selected d with
  | Some _, Some _ => number_of (field "time_sec" d)
  | _, _ => None
  end.

Definition correct_count_from (questions : list Question.t) (i : nat) (items : list dict)
  : nat :=
  List.length (filter (fun id => answered_correctly questions (fst id) (snd id))
                 (enumerate_from i items)).

Definition counted_times_from (questions : list Question.t) (i : nat) (items : list dict)
  : list number :=
  flat_map (fun id => match counted_time questions (fst id) (snd id) with
                      | Some x => [x]
                      | None => []
                      end) (enumerate_from i items).

Definition correct_count (questions : list Question.t) (items : list dict) : nat :=
  correct_count_from questions 0 items.

Definition counted_times (questions : list Question.t) (items : list dict)
  : list number :=
  counted_times_from questions 0 items.

(** The sum, accumulated left to right from 0 with the interpreter's [+]. *)
Definition total (xs : list number) : number := fold_left py_add xs (NInt 0).

(** The sum divided by the count, with the interpreter's [/], when the count
    is positive, 0 otherwise. *)
Definition mean (xs : list number) : Q :=
  match xs with
  | [] => 0%Q
  | _ => py_truediv (total xs) (NInt (Z.of_nat (List.length xs)))
  end.

(** The value of a number. *)
Definition value (n : number) : Q :=
  match n with
  | NInt z => inject_Z z
  | NFloat x => x
  end.

(** The sum of integers. *)
Definition sum_of (zs : list Z) : Z := fold_right Z.add 0 zs.

(** The values an audit row keeps of a submitted item. *)
Definition audit_of_item (d : dict) : json * json * json :=
  (field "qId" d, field "selected" d, field "time_sec" d).

Definition audit_of_row (a : Answer.t) : json * json * json :=
  (Answer.question_id a, Answer.answer a, Answer.time_taken a).

(** The item names question [q] and selects option [a]. *)
Definition answers_question (q a : Z) (d : dict) : Prop :=
  exists qv : json,
    assoc_get "qId" d = Some qv /\ py_int qv = Return q /\ py_int (field "selected" d) = Return a.

(** A participant is registered under the request's [regno]. *)
Definition registered (db : database) (regno : string) (p : Participant.t) : Prop :=
  nonempty (strip regno) = true /\ Participant_get_or_none db (strip regno) = Some p.

(** The request names its text under key [k] as a string, as null, or not
    at all. *)
Definition text_field (k : string) (d : dict) : Prop :=
  match assoc_get k d with
  | None | Some JNull | Some (JStr _) => True
  | Some _ => False
  end.

(** [options] is a sequence of length at least 2. *)
Definition has_options (d : dict) : Prop :=
  exists l : list json, assoc_get "options" d = Some (JList l) /\ (2 <= List.length l)%nat.

(** [answer] is an integer index into [options] (an [int] of the interpreter). *)
Definition has_answer_index (d : dict) : Prop :=
  exists (l : list json) (a : Z),
    assoc_get "options" d = Some (JList l)
    /\ py_as_int (field "answer" d) = Some a
    /\ 0 <= a < Z.of_nat (List.length l).

Definition bank_of (questions_file : option (list Question.t)) : list Question.t :=
  match questions_file with Some qs => qs | None => [] end.

(** ** The data of [test_app.py] *)

Definition test_questions : list Question.t :=
  [Question.mk "What is 2+2?" [JStr "3"; JStr "4"; JStr "5"; JStr "6"] (JInt 1);
   Question.mk "What is the capital of France?"
     [JStr "London"; JStr "Berlin"; JStr "Paris"; JStr "Madrid"] (JInt 2)].

Definition test_participant : Participant.t :=
  Participant.mk 1 "Test User" "TEST001" "Test College" "Computer Science" 2023.

(** The store [setUp] builds: one participant whose result is (1, 2, 15.5). *)
Definition test_db : database :=
  mk_database [test_participant] [Result.mk 1 1 1 2 (31 # 2)] [].

Definition answer_item (qid selected time_sec : json) : dict :=
  [("qId", qid); ("selected", selected); ("time_sec", time_sec)].

Definition test_answers : list dict :=
  [answer_item (JInt 0) (JInt 1) (JInt 10); answer_item (JInt 1) (JInt 2) (JInt 15)].

(** The same store once the test batch has been graded and recorded. *)
Definition test_db_submitted : database :=
  snd (submit_quiz (Some test_questions) (submit_payload "Test User" "TEST001" test_answers)
         test_db).

(** A bank in which the same question was added twice. *)
Definition duplicated_bank : list Question.t :=
  [Question.mk "Q1" [JStr "A"; JStr "B"] (JInt 0);
   Question.mk "Q1" [JStr "A"; JStr "B"] (JInt 0)].

(** What a client sees of a bank question. *)
Definition shown (q : Question.t) : string * list json :=
  (Question.question q, Question.options q).

Definition shown_item (item : Safe.t) : string * list json :=
  (Safe.question item, Safe.options item).

(** The part of the bank [get_questions] draws. *)
Definition chosen_set (qs : list Question.t) (pick : bool) : list Question.t :=
  if pick then skipn 15 qs else firstn 15 qs.

(** The item returned for [q] carries the first bank position holding a
    question equal to [q]. *)
Definition item_of (qs : list Question.t) (q : Question.t) (item : Safe.t) : Prop :=
  exists (j : nat) (x : Question.t),
    Safe.id item = Z.of_nat j
    /\ shown_item item = shown q
    /\ nth_error qs j = Some x
    /\ question_eq x q = true
    /\ (forall (j' : nat) (y : Question.t),
          (j' < j)%nat -> nth_error qs j' = Some y -> question_eq y q = false).

(** A bank of thirty distinct questions. *)
Definition thirty_questions : list Question.t :=
  map (fun k => Question.mk (NilZero.string_of_uint (Nat.to_uint k)) [JStr "A"; JStr "B"] (JInt 0))
      (seq 0 30).

(** No bank entry equals a later one. *)
Definition duplicate_free (qs : list Question.t) : Prop :=
  forall (i j : nat) (x y : Question.t),
    (i < j)%nat -> nth_error qs i = Some x -> nth_error qs j = Some y ->
    question_eq x y = false.

(** A store with four graded participants, two of them tied on both keys. *)
Definition ranking_db : database :=
  mk_database
    [Participant.mk 1 "Ann" "R1" "C" "D" 2023; Participant.mk 2 "Bob" "R2" "C" "D" 2023;
     Participant.mk 3 "Cid" "R3" "C" "D" 2023; Participant.mk 4 "Dee" "R4" "C" "D" 2023]
    [Result.mk 1 1 2 4 (25 # 2); Result.mk 2 2 3 6 20; Result.mk 3 3 2 4 10;
     Result.mk 4 4 2 4 10]
    [].

(** ** POST /admin/api/delete-participant (behind the credential check) *)

(** Modelled from the spec: [models.py] is not among the sources; [Result]
    refers to its [Participant] and [Answer] to its [Result] by foreign key,
    so [p.delete_instance(recursive=True)] deletes the Answers of [p]'s
    Results, then those Results, then the row of [p]. *)
Definition Participant_delete_instance (db : database) (p : Participant.t) : database :=
  let rids := map Result.id
                (filter (fun r => Result.participant r =? Participant.id p) (results db)) in
  mk_database
    (filter (fun x => negb (Participant.id x =? Participant.id p)) (participants db))
    (filter (fun r => negb (Result.participant r =? Participant.id p)) (results db))
    (filter (fun a => negb (existsb (Z.eqb (Answer.result a)) rids)) (answers db)).

(** [(payload.get("regno") or "").strip()] of
    [request.get_json(silent=True) or {}]. *)
Definition delete_fields (payload : json) : outcome string :=
  (regno <- py_get (py_or payload (JDict [])) "regno" JNull ;;
   py_strip (py_or regno (JStr "")))%outcome.

Definition admin_api_delete_participant (payload : json) (db : database)
  : outcome response * database :=
  match delete_fields payload with
  | Raise e => (Raise e, db)
  | Return regno =>
      if negb (nonempty regno) then (Return (failure "regno required", 400), db)
      else
        match Participant_get_or_none db regno with
        | None => (Return (failure "Participant not found", 404), db)
        | Some p =>
            (Return (jsonify [("success", JBool true);
                              ("message", JStr ("Deleted " ++ regno))], 200),
             Participant_delete_instance db p)
        end
  end.

(** ** The credential check ([require_admin]) *)

(** [request.authorization]: the user name and password of the request's
    Authorization header, when they could be read off it. *)
Record authorization : Type := mk_authorization
  { username : option string; password : option string }.

(** The answer of a decorated endpoint: the wrapper's own refusal, or what
    the endpoint returned. *)
Inductive admin_reply (A : Type) : Type :=
| Refused (body : string) (status : Z)
| Served (a : A).

Arguments Refused {A} body status.
Arguments Served {A} a.

(** [_unauthorized()]. *)
Definition unauthorized {A : Type} : admin_reply A := Refused "Authentication required" 401.

(** A setting read by [os.getenv] is truthy: set and not empty. *)
Definition configured (v : option string) : bool :=
  match v with
  | Some s => nonempty s
  | None => false
  end.

Definition option_string_eqb (a b : option string) : bool :=
  match a, b with
  | Some x, Some y => String.eqb x y
  | None, None => true
  | _, _ => false
  end.

(** The decorator: [fn] runs on the state only behind both checks. *)
Definition require_admin {St A : Type} (ADMIN_USERNAME ADMIN_PASSWORD : option string)
  (auth : option authorization) (fn : St -> A * St) (s : St) : admin_reply A * St :=
  if negb (configured ADMIN_USERNAME && configured ADMIN_PASSWORD)
  then (Refused "Admin credentials not configured" 500, s)
  else
    match auth with
    | None => (unauthorized, s)
    | Some a =>
        if negb (option_string_eqb (username a) ADMIN_USERNAME
                 && option_string_eqb (password a) ADMIN_PASSWORD)
        then (unauthorized, s)
        else let (r, s') := fn s in (Served r, s')
    end.

(** ** GET /admin/api/export-leaderboard *)

(** A value handed to [csv.writer]. *)
Inductive cell : Type :=
| CInt (z : Z)
| CStr (s : string)
| CFloat (x : Q).

(** The rows written after the header, from position [i]. *)
Fixpoint export_rows (i : nat) (rows : list (Result.t * Participant.t)) : list (list cell) :=
  match rows with
  | [] => []
  | rp :: rest =>
      [CInt (Z.of_nat i + 1); CStr (Participant.name (snd rp));
       CStr (Participant.regno (snd rp)); CInt (Result.correct (fst rp));
       CInt (Result.points (fst rp)); CFloat (py_round2 (Result.avg_time (fst rp)))]
      :: export_rows (S i) rest
  end.

(** The table the handler writes, row by row (its CSV text is the
    serialisation of these rows). *)
Definition admin_api_export_leaderboard (db : database) : list (list cell) :=
  [CStr "rank"; CStr "name"; CStr "regno"; CStr "correct"; CStr "points"; CStr "avg_time"]
  :: export_rows 0 (order_by (select_join db)).

(** ** The whole application as a transition system *)

Record app_state : Type := mk_app
  { store : database; bank_file : option (list Question.t) }.

(** The requests that can change the state. *)
Inductive request : Type :=
| Register (data : json)
| SubmitQuiz (payload : json)
| AddQuestion (data : json)
| DeleteParticipant (payload : json).

Definition step (s : app_state) (rq : request) : app_state :=
  match rq with
  | Register data => mk_app (snd (register data (store s))) (bank_file s)
  | SubmitQuiz payload => mk_app (snd (submit_quiz (bank_file s) payload (store s))) (bank_file s)
  | AddQuestion data => mk_app (store s) (snd (admin_api_add_question data (bank_file s)))
  | DeleteParticipant payload =>
      mk_app (snd (admin_api_delete_participant payload (store s))) (bank_file s)
  end.

Definition run (s : app_state) (rqs : list request) : app_state := fold_left step rqs s.

Definition empty_db : database := mk_database [] [] [].

(** The integrity of the store: keys are unique, a regno names one
    participant, a participant has at most one Result, and every Result and
    Answer hangs on an existing row. *)
Record store_ok (db : database) : Prop := mk_store_ok
  { ok_participant_ids : NoDup (map Participant.id (participants db));
    ok_regnos : NoDup (map Participant.regno (participants db));
    ok_result_ids : NoDup (map Result.id (results db));
    ok_one_result : NoDup (map Result.participant (results db));
    ok_result_owner : forall r, In r (results db) ->
                                In (Result.participant r) (map Participant.id (participants db));
    ok_answer_ids : NoDup (map Answer.id (answers db));
    ok_answer_owner : forall a, In a (answers db) ->
                                In (Answer.result a) (map Result.id (results db)) }.

(** ** Reference definitions for the further properties *)

(** The audit rows [submit_quiz] inserts for a batch under Result [rid]. *)
Definition rows_of_items (rid : Z) (items : list dict) : list new_answer :=
  map (fun d => (rid, field "qId" d, field "selected" d, field "time_sec" d)) items.

(** What a graded submission writes: the participant's Result row is found
    or created and overwritten with the aggregates of [t], its Answer rows
    are deleted, and one row per item is inserted. *)
Definition submission_writes (db : database) (p : Participant.t) (t : tally)
  (items : list dict) : database :=
  let '((r, _), db1) :=
    Result_get_or_create db p (correct t) (points_of t) (avg_time_of t) in
  let r := Result.mk (Result.id r) (Result.participant r)
             (correct t) (points_of t) (avg_time_of t) in
  Answer_insert_many (Answer_delete_where_result (Result_save db1 r) (Result.id r))
    (rows_of_items (Result.id r) items).

(** Every bank question has a text, at least two options and an answer that
    is an integer index into them. *)
Definition bank_ok (bank : list Question.t) : Prop :=
  Forall (fun q => nonempty (Question.question q) = true
                   /\ (2 <= List.length (Question.options q))%nat
                   /\ valid_index (Question.answer q) (Question.options q) = true) bank.

Definition is_object (v : json) : Prop := exists d : dict, v = JDict d.



(** The request body of a deletion. *)
Definition delete_request (regno : string) : json := JDict [("regno", JStr regno)].

(** The item a client sends back for a returned question when it picks
    option [s]. *)
Definition answer_to (item : Safe.t) (s : Z) : dict :=
  [("qId", JInt (Safe.id item)); ("selected", JInt s)].

(** The stored answer index of the bank question a returned item points at. *)
Definition key_of (qs : list Question.t) (item : Safe.t) : Z :=
  match nth_error qs (Z.to_nat (Safe.id item)) with
  | Some q => match py_as_int (Question.answer q) with Some a => a | None => 0 end
  | None => 0
  end.

(** Every participant has a Result row, as [register] leaves it. *)
Definition every_participant_ranked (db : database) : Prop :=
  forall p : Participant.t,
    In p (participants db) -> In (Participant.id p) (map Result.participant (results db)).

(** The CSV row of a leaderboard entry at a given rank. *)
Definition row_of (rank : Z) (e : Entry.t) : list cell :=
  [CInt rank; CStr (Entry.name e); CStr (Entry.regno e); CInt (Entry.correct e);
   CInt (Entry.points e); CFloat (Entry.avg_time e)].

(** The item names its question itself. *)
Definition has_qid (d : dict) : Prop := assoc_get "qId" d <> None.

(** The JSON value is neither an integer nor a string. *)
Definition neither_int_nor_str (v : json) : Prop :=
  match v with
  | JInt _ | JStr _ => False
  | _ => True
  end.

(** A value a relational store binds to a column: null, a boolean, an
    integer of 64 bits, a float or text; a list, an object or a larger
    integer is refused ([models.py] is not among the sources). *)
Definition storable (v : json) : Prop :=
  match v with
  | JInt z => - 2 ^ 63 <= z < 2 ^ 63
  | JList _ | JDict _ => False
  | _ => True
  end.

(** The three values [submit_quiz] records of an item are storable. *)
Definition storable_item (d : dict) : Prop :=
  storable (field "qId" d) /\ storable (field "selected" d)
  /\ storable (field "time_sec" d).

(** Every item of the request's [answers] holds storable values. *)
Definition storable_request (payload : json) : Prop :=
  forall (answers : json) (items : list json) (d : dict),
    py_get payload "answers" (JList []) = Return answers ->
    py_iter answers = Return items ->
    In (JDict d) items ->
    storable_item d.

(** The test batch with times given as the JSON numbers 0.1 and 0.2. *)
Definition float_answers : list dict :=
  [answer_item (JInt 0) (JInt 1) (JFloat (1 # 10));
   answer_item (JInt 1) (JInt 2) (JFloat (2 # 10))].

(** ** Facts about lists *)

Section ListFacts.

Context {A B : Type}.
Variable P : A -> bool.
Variable R : A -> A -> Prop.
Variable RAB : A -> B -> Prop.

Lemma find_split (l : list A) (x : A) :
  find P l = Some x ->
  exists l1 l2, l = (l1 ++ x :: l2)%list /\ P x = true /\ forall y, In y l1 -> P y = false.
Proof.
  induction l as [| a l IH]; simpl; [discriminate |].
  destruct (P a) eqn:Ha.
  - intros [= ->]. exists [], l. repeat split; auto. intros y [].
  - intros H. destruct (IH H) as (l1 & l2 & -> & Hx & Hl1).
    exists (a :: l1), l2. repeat split; auto.
    intros y [<- | Hy]; auto.
Qed.

Lemma find_app_found (l l' : list A) (x : A) :
  find P l = Some x -> find P (l ++ l') = Some x.
Proof.
  induction l as [| a l IH]; simpl; [discriminate |].
  destruct (P a); auto.
Qed.

Lemma sorted_positions (l : list A) :
  StronglySorted R l ->
  forall (i j : nat) (a b : A),
    (i < j)%nat -> nth_error l i = Some a -> nth_error l j = Some b -> R a b.
Proof.
  induction 1 as [| x l Hs IH Hall]; intros i j a b Hij Ha Hb.
  - destruct i; discriminate.
  - destruct j as [| j]; [lia |]. simpl in Hb.
    destruct i as [| i]; simpl in Ha.
    + injection Ha as <-. rewrite Forall_forall in Hall.
      apply Hall. eapply nth_error_In; eauto.
    + apply (IH i j); auto. lia.
Qed.

Lemma Forall2_nth_error_right (l : list A) (m : list B) :
  Forall2 RAB l m ->
  forall (k : nat) (b : B),
    nth_error m k = Some b -> exists a : A, nth_error l k = Some a /\ RAB a b.
Proof.
  induction 1 as [| a b' l m Hab _ IH]; intros k b Hk.
  - destruct k; discriminate.
  - destruct k as [| k]; simpl in Hk.
    + injection Hk as <-. exists a. split; [reflexivity | exact Hab].
    + exact (IH k b Hk).
Qed.

Lemma enumerate_from_app (l1 l2 : list A) :
  forall i : nat,
    enumerate_from i (l1 ++ l2)
    = (enumerate_from i l1 ++ enumerate_from (i + List.length l1) l2)%list.
Proof.
  induction l1 as [| x l1 IH]; intros i; simpl.
  - rewrite Nat.add_0_r. reflexivity.
  - rewrite IH. replace (S i + List.length l1)%nat with (i + S (List.length l1))%nat by lia.
    reflexivity.
Qed.

End ListFacts.

(** Reads the fields off a request given as a literal object. *)
Ltac read_fields :=
  cbn [py_truthy negb py_get assoc_get String.eqb Ascii.eqb Bool.eqb obind py_strip].

(** ** The scoring loop *)

(** [int(v)] raises nothing but the two exceptions the loop catches. *)
Lemma py_int_raises (v : json) (e : exn) :
  py_int v = Raise e -> e = ValueError \/ e = TypeError.
Proof.
  destruct v; simpl; try discriminate; try (intros [= <-]; auto).
  destruct (int_of_string s); [discriminate | intros [= <-]; auto].
Qed.

Lemma score_answer_spec (questions : list Question.t) (i : nat) (d : dict) (t : tally) :
  score_answer questions i (JDict d) t =
  Return (mk_tally
            (correct t + (if answered_correctly questions i d then 1 else 0))
            (match counted_time questions i d with
             | Some x => py_add (total_time t) x
             | None => total_time t
             end)
            (time_counts t + (match counted_time questions i d with
                              | Some _ => 1
                              | None => 0
                              end))).
Proof.
  destruct t as [c tt tc].
  unfold score_answer, answered_correctly, counted_time, item_question, item_selected,
    question_id, field, py_get; simpl.
  destruct (py_int match assoc_get "qId" d with Some v => v | None => JInt (Z.of_nat i) end)
    as [q | e] eqn:Hq.
  2: { destruct (py_int_raises _ _ Hq) as [-> | ->]; simpl;
       rewrite ?Z.add_0_r; reflexivity. }
  destruct (0 <=? q) eqn:Hlo; simpl.
  2: { rewrite !Z.add_0_r; reflexivity. }
  destruct (q <? Z.of_nat (List.length questions)) eqn:Hhi; simpl.
  2: { apply Z.ltb_ge in Hhi. apply Z.leb_le in Hlo.
       assert (Hn : nth_error questions (Z.to_nat q) = None).
       { apply nth_error_None. lia. }
       rewrite Hn, !Z.add_0_r. reflexivity. }
  destruct (py_int match assoc_get "selected" d with Some v => v | None => JNull end)
    as [s | e] eqn:Hs.
  2: { destruct (py_int_raises _ _ Hs) as [-> | ->];
       destruct (nth_error questions (Z.to_nat q)); simpl;
       rewrite ?Z.add_0_r; reflexivity. }
  destruct (nth_error questions (Z.to_nat q)) as [qq |] eqn:Hn.
  2: { apply nth_error_None in Hn. apply Z.ltb_lt in Hhi. apply Z.leb_le in Hlo. lia. }
  destruct (number_of match assoc_get "time_sec" d with Some v => v | None => JNull end);
    destruct (py_as_int (Question.answer qq)); simpl;
    try destruct (s =? z); simpl; rewrite ?Z.add_0_r; reflexivity.
Qed.

Lemma score_answers_spec (questions : list Question.t) (items : list dict) :
  forall (i : nat) (t : tally),
    score_answers questions i (map JDict items) t =
    Return (mk_tally
              (correct t + Z.of_nat (correct_count_from questions i items))
              (fold_left py_add (counted_times_from questions i items) (total_time t))
              (time_counts t + Z.of_nat (List.length (counted_times_from questions i items)))).
Proof.
  induction items as [| d items IH]; intros i t.
  - destruct t; simpl. rewrite !Z.add_0_r. reflexivity.
  - cbn [map score_answers]. rewrite score_answer_spec. cbn [obind].
    rewrite IH. unfold correct_count_from, counted_times_from.
    cbn [enumerate_from filter flat_map fst snd correct total_time time_counts].
    destruct (answered_correctly questions i d);
      destruct (counted_time questions i d) as [x |];
      cbn [List.length app fold_left]; f_equal; f_equal; lia.
Qed.

(** The aggregates [submit_quiz] derives from the final tally. *)
Lemma grade_spec (questions : list Question.t) (items : list dict) :
  exists t : tally,
    score_answers questions 0 (map JDict items) tally0 = Return t
    /\ correct t = Z.of_nat (correct_count questions items)
    /\ points_of t = Z.of_nat (correct_count questions items) * 2
    /\ avg_time_of t = mean (counted_times questions items).
Proof.
  eexists. split; [apply score_answers_spec |].
  unfold points_of, avg_time_of, mean, total, correct_count, counted_times.
  cbn [correct total_time time_counts tally0].
  repeat split.
  destruct (counted_times_from questions 0 items) as [| x xs]; [reflexivity |].
  replace (0 + Z.of_nat (List.length (x :: xs)) =? 0) with false; [reflexivity |].
  symmetry. apply Z.eqb_neq. cbn [List.length]. lia.
Qed.

(** ** The store after a submission *)

Lemma find_saved (pid : Z) (r r' : Result.t) (l1 l2 : list Result.t) :
  Result.participant r' = pid ->
  (forall y, In y l1 -> (Result.participant y =? pid) = false) ->
  find (fun x => Result.participant x =? pid)
       (map (fun row => if Result.id row =? Result.id r then r' else row)
            (l1 ++ r :: l2)) = Some r'.
Proof.
  intros Hp Hl1. induction l1 as [| a l1 IH]; simpl.
  - rewrite Z.eqb_refl. simpl. rewrite Hp, Z.eqb_refl. reflexivity.
  - destruct (Result.id a =? Result.id r).
    + simpl. rewrite Hp, Z.eqb_refl. reflexivity.
    + rewrite (Hl1 a (or_introl eq_refl)). apply IH.
      intros y Hy. apply Hl1. right. exact Hy.
Qed.

(** After [get_or_create] and [save], the participant's row is the saved one. *)
Lemma Result_saved (db : database) (p : Participant.t) (c pts : Z) (avg : Q) :
  let '((r, _), db1) := Result_get_or_create db p c pts avg in
  let r' := Result.mk (Result.id r) (Result.participant r) c pts avg in
  Result_of_participant (Result_save db1 r') (Participant.id p) = Some r'
  /\ Result.participant r = Participant.id p
  /\ participants (Result_save db1 r') = participants db
  /\ answers (Result_save db1 r') = answers db
  /\ (forall r0, Result_of_participant db (Participant.id p) = Some r0 -> r = r0).
Proof.
  unfold Result_get_or_create.
  destruct (Result_of_participant db (Participant.id p)) as [r |] eqn:Hf.
  - unfold Result_of_participant in Hf.
    destruct (find_split _ _ _ Hf) as (l1 & l2 & Hl & Hr & Hl1).
    apply Z.eqb_eq in Hr.
    repeat split; auto; [| intros r0 [= <-]; reflexivity].
    unfold Result_of_participant, Result_save. cbn [results]. rewrite Hl.
    apply (find_saved (Participant.id p) r); auto.
  - unfold Result_of_participant in Hf.
    repeat split; auto; [| discriminate].
    unfold Result_of_participant, Result_save. cbn [results Result.id Result.participant].
    apply (find_saved (Participant.id p)
             (Result.mk (next_id (map Result.id (results db))) (Participant.id p) c pts avg));
      [reflexivity |].
    intros y Hy. exact (find_none _ _ Hf y Hy).
Qed.

Lemma Answer_insert_many_spec (rows : list new_answer) :
  forall db : database,
    participants (Answer_insert_many db rows) = participants db
    /\ results (Answer_insert_many db rows) = results db
    /\ exists added,
         answers (Answer_insert_many db rows) = (answers db ++ added)%list
         /\ map (fun a => (Answer.result a, Answer.question_id a, Answer.answer a,
                           Answer.time_taken a)) added = rows.
Proof.
  induction rows as [| [[[rid qid] sel] tm] rows IH]; intros db; simpl.
  - repeat split. exists []. rewrite app_nil_r. auto.
  - destruct (IH (mk_database (participants db) (results db)
                    (answers db ++ [Answer.mk (next_id (map Answer.id (answers db)))
                                      rid qid sel tm])))
      as (Hp & Hr & added & Ha & Hm).
    cbn [participants results answers] in *.
    repeat split; auto.
    exists (Answer.mk (next_id (map Answer.id (answers db))) rid qid sel tm :: added).
    split; [rewrite Ha, <- app_assoc; reflexivity |].
    simpl. rewrite Hm. reflexivity.
Qed.

Lemma to_insert_rows_spec (rid : Z) (items : list dict) :
  to_insert_rows rid (map JDict items) =
  Return (map (fun d => (rid, field "qId" d, field "selected" d, field "time_sec" d)) items).
Proof.
  induction items as [| d items IH]; simpl; [reflexivity |].
  rewrite IH. reflexivity.
Qed.

Lemma filter_result_deleted (rid : Z) (l : list Answer.t) :
  filter (fun a => Answer.result a =? rid)
         (filter (fun a => negb (Answer.result a =? rid)) l) = [].
Proof.
  induction l as [| a l IH]; simpl; [reflexivity |].
  destruct (Answer.result a =? rid) eqn:Ha; simpl; [exact IH |].
  rewrite Ha. exact IH.
Qed.

Lemma filter_result_added (rid : Z) (added : list Answer.t) (rows : list (json * json * json)) :
  map (fun a => (Answer.result a, Answer.question_id a, Answer.answer a,
                 Answer.time_taken a)) added
  = map (fun x => (rid, fst (fst x), snd (fst x), snd x)) rows ->
  filter (fun a => Answer.result a =? rid) added = added
  /\ map audit_of_row added = rows.
Proof.
  revert rows. induction added as [| a added IH]; intros [| [[q s] t] rows]; simpl;
    try discriminate; auto.
  intros [= Hrid Hq Hs Ht Hrest]. destruct (IH rows Hrest) as [Hf Hm].
  rewrite Hrid, Z.eqb_refl, Hf. split; [reflexivity |].
  unfold audit_of_row at 1. rewrite Hq, Hs, Ht, Hm. reflexivity.
Qed.

(** What a submission by a registered participant does to the store. *)
Lemma submit_quiz_spec (db : database) (questions : list Question.t) (name regno : string)
  (items : list dict) (p : Participant.t) :
  registered db regno p ->
  exists (db' : database) (rid : Z),
    submit_quiz (Some questions) (submit_payload name regno items) db
    = (Return submit_ok, db')
    /\ participants db' = participants db
    /\ Result_of_participant db' (Participant.id p)
       = Some (Result.mk rid (Participant.id p)
                 (Z.of_nat (correct_count questions items))
                 (Z.of_nat (correct_count questions items) * 2)
                 (mean (counted_times questions items)))
    /\ (forall r0, Result_of_participant db (Participant.id p) = Some r0 -> rid = Result.id r0)
    /\ map audit_of_row (Answers_of_result db' rid) = map audit_of_item items.
Proof.
  intros [Hne Hp].
  unfold submit_quiz, submit_payload, submit_fields. read_fields.
  unfold nonempty in Hne. apply negb_true_iff in Hne. rewrite Hne.
  unfold Participant_get. rewrite Hp.
  cbn [py_iter obind].
  destruct (grade_spec questions items) as (t & Ht & Hc & Hpts & Havg).
  rewrite Ht, Hc, Hpts, Havg.
  pose proof (Result_saved db p (Z.of_nat (correct_count questions items))
                (Z.of_nat (correct_count questions items) * 2)
                (mean (counted_times questions items))) as Hs.
  destruct (Result_get_or_create db p (Z.of_nat (correct_count questions items))
              (Z.of_nat (correct_count questions items) * 2)
              (mean (counted_times questions items))) as [[r created] db1].
  destruct Hs as (Hfind & Hpart & Hps & Has & Hold).
  cbn [Result.id]. rewrite to_insert_rows_spec.
  rewrite Hpart in *.
  set (r' := Result.mk (Result.id r) (Participant.id p)
               (Z.of_nat (correct_count questions items))
               (Z.of_nat (correct_count questions items) * 2)
               (mean (counted_times questions items))) in *.
  set (db3 := Answer_delete_where_result (Result_save db1 r') (Result.id r)).
  assert (Hdb3 : participants db3 = participants db
                 /\ results db3 = results (Result_save db1 r')
                 /\ Answers_of_result db3 (Result.id r) = []).
  { unfold db3, Answer_delete_where_result, Answers_of_result. cbn [participants results answers].
    repeat split; auto. apply filter_result_deleted. }
  destruct Hdb3 as (H3p & H3r & H3a).
  destruct items as [| d items].
  - exists db3, (Result.id r). cbn [map].
    split; [reflexivity |].
    split; [exact H3p |].
    split; [unfold Result_of_participant; rewrite H3r; exact Hfind |].
    split; [intros r0 H0; rewrite (Hold r0 H0); reflexivity |].
    rewrite H3a. reflexivity.
  - set (rows := map (fun d0 => (Result.id r, field "qId" d0, field "selected" d0,
                                 field "time_sec" d0)) (d :: items)).
    exists (Answer_insert_many db3 rows), (Result.id r).
    destruct (Answer_insert_many_spec rows db3) as (Hip & Hir & added & Hia & Him).
    split; [reflexivity |].
    split; [congruence |].
    split; [unfold Result_of_participant; rewrite Hir, H3r; exact Hfind |].
    split; [intros r0 H0; rewrite (Hold r0 H0); reflexivity |].
    unfold Answers_of_result in *. rewrite Hia, filter_app, H3a. cbn [app].
    destruct (filter_result_added (Result.id r) added (map audit_of_item (d :: items)))
      as [Hf Hm].
    { rewrite Him. unfold rows. rewrite map_map. reflexivity. }
    rewrite Hf. exact Hm.
Qed.

(** The reference reading of a correct item, spelled out. *)
Lemma answered_correctly_iff (questions : list Question.t) (i : nat) (d : dict) :
  answered_correctly questions i d = true <->
  exists (q s : Z) (question : Question.t),
    py_int (question_id i d) = Return q
    /\ 0 <= q
    /\ nth_error questions (Z.to_nat q) = Some question
    /\ py_int (field "selected" d) = Return s
    /\ py_as_int (Question.answer question) = Some s.
Proof.
  unfold answered_correctly, item_question, item_selected. split.
  - destruct (py_int (question_id i d)) as [q | e] eqn:Hq; [| discriminate].
    destruct (0 <=? q) eqn:Hlo; [| discriminate].
    destruct (nth_error questions (Z.to_nat q)) as [question |] eqn:Hn; [| discriminate].
    destruct (py_int (field "selected" d)) as [s | e] eqn:Hs; [| discriminate].
    destruct (py_as_int (Question.answer question)) as [a |] eqn:Ha; [| discriminate].
    intros Heq. apply Z.eqb_eq in Heq. subst a. apply Z.leb_le in Hlo.
    exists q, s, question. repeat split; auto.
  - intros (q & s & question & Hq & Hlo & Hn & Hs & Ha).
    apply Z.leb_le in Hlo. rewrite Hq, Hlo, Hn, Hs, Ha. apply Z.eqb_refl.
Qed.

(** An answers array with an item that is not an object makes the handler
    raise before it writes anything. *)
Lemma submit_quiz_item_not_object (questions : list Question.t) (name regno : string)
  (db : database) (p : Participant.t) (v : json) (rest : list json) :
  registered db regno p ->
  (forall d, v <> JDict d) ->
  submit_quiz (Some questions)
    (JDict [("name", JStr name); ("regno", JStr regno); ("answers", JList (v :: rest))]) db
  = (Raise AttributeError, db).
Proof.
  intros [Hne Hp] Hv.
  unfold submit_quiz, submit_fields. read_fields.
  unfold nonempty in Hne. apply negb_true_iff in Hne. rewrite Hne.
  unfold Participant_get. rewrite Hp. cbn [py_iter obind score_answers].
  destruct v; try reflexivity. exfalso. exact (Hv d eq_refl).
Qed.

(** ** The assertions of [test_app.py], replayed on the embedding *)

Example test_register_success :
  exists db' : database,
    register (register_request "New User" "NEW001" "New College" "Engineering" (JStr "2024"))
      test_db
    = ((jsonify [("success", JBool true); ("message", JStr "Registration successful");
                 ("name", JStr "New User"); ("regno", JStr "NEW001")], 200), db')
    /\ option_map Participant.name (Participant_get_or_none db' "NEW001") = Some "New User"
    /\ Result_of_participant db' 2 = Some (Result.mk 2 2 0 0 0).
Proof.
  eexists. split; [reflexivity |]. split; reflexivity.
Qed.

Example test_register_missing_fields :
  register (JDict [("name", JStr "Incomplete User"); ("regno", JStr "INC001")]) test_db
  = ((failure "Missing fields", 400), test_db).
Proof. reflexivity. Qed.

Example test_register_invalid_year :
  register (register_request "Invalid Year User" "INV001" "Test College" "CS"
              (JStr "not_a_number")) test_db
  = ((failure "Year must be a number", 400), test_db).
Proof. reflexivity. Qed.

Example test_get_questions :
  option_map (@List.length Safe.t)
    (match get_questions (Some test_questions) false with
     | Return items => Some items
     | Raise _ => None
     end) = Some 2%nat.
Proof. reflexivity. Qed.

Example test_submit_quiz_unregistered_user :
  submit_quiz (Some test_questions)
    (JDict [("name", JStr "Unknown User"); ("regno", JStr "UNKNOWN001"); ("answers", JList [])])
    test_db
  = (Return (failure "Please register first", 400), test_db).
Proof. reflexivity. Qed.

Example test_admin_add_question_invalid_data :
  admin_api_add_question
    (JDict [("options", JList [JStr "A"; JStr "B"]); ("answer", JInt 0)]) (Some test_questions)
  = (Return (failure "question required", 400), Some test_questions)
  /\ admin_api_add_question
       (JDict [("question", JStr "Test?"); ("options", JList [JStr "A"]); ("answer", JInt 0)])
       (Some test_questions)
     = (Return (failure "options must be a list with at least 2 items", 400),
        Some test_questions)
  /\ admin_api_add_question
       (JDict [("question", JStr "Test?"); ("options", JList [JStr "A"; JStr "B"]);
               ("answer", JInt 5)])
       (Some test_questions)
     = (Return (failure "answer must be a valid index", 400), Some test_questions).
Proof. repeat split. Qed.

Example test_scoring_logic :
  Result_of_participant
    (snd (submit_quiz
            (Some [Question.mk "Q1" [JStr "A"; JStr "B"] (JInt 0);
                   Question.mk "Q2" [JStr "A"; JStr "B"] (JInt 1)])
            (submit_payload "Logic Test" "LOGIC001"
               [answer_item (JInt 0) (JInt 0) (JInt 10); answer_item (JInt 1) (JInt 1) (JInt 15)])
            (mk_database [Participant.mk 1 "Logic Test" "LOGIC001" "Test" "CS" 2023] [] [])))
    1
  = Some (Result.mk 1 1 2 4 (25 # 2)).
Proof. reflexivity. Qed.

(** ** Grading (POST /submit-quiz) *)

(** *** Rounding to binary64 *)






(** The sum of integers is exact. *)
Lemma fold_left_py_add_integers (zs : list Z) :
  forall acc : Z, fold_left py_add (map NInt zs) (NInt acc) = NInt (acc + sum_of zs).
Proof.
  induction zs as [| z zs IH]; intros acc; cbn [map fold_left sum_of fold_right].
  - rewrite Z.add_0_r. reflexivity.
  - cbn [py_add]. rewrite IH. f_equal. unfold sum_of. lia.
Qed.

(** The mean of integers is their exact mean, rounded once. *)
Lemma mean_integers (zs : list Z) :
  zs <> [] ->
  mean (map NInt zs) = round64 (inject_Z (sum_of zs) / inject_Z (Z.of_nat (List.length zs))).
Proof.
  intros Hne. unfold mean, total. rewrite fold_left_py_add_integers, length_map.
  destruct zs as [| z zs]; [contradiction |]. reflexivity.
Qed.



(** C2. Submitting the same batch twice in a row leaves the participant's
    Result row unchanged between the first and the second submission, and
    after each submission the Answer rows of that Result are exactly one row
    per item of the batch, in order: their number is the batch length, not
    the sum over the submissions. *)
Theorem C2_resubmission_idempotent (db : database) (questions : list Question.t)
  (name regno : string) (items : list dict) (p : Participant.t) :
  registered db regno p ->
  exists (db1 db2 : database) (r : Result.t),
    submit_quiz (Some questions) (submit_payload name regno items) db
    = (Return submit_ok, db1)
    /\ submit_quiz (Some questions) (submit_payload name regno items) db1
       = (Return submit_ok, db2)
    /\ Result_of_participant db1 (Participant.id p) = Some r
    /\ Result_of_participant db2 (Participant.id p) = Some r
    /\ map audit_of_row (Answers_of_result db1 (Result.id r)) = map audit_of_item items
    /\ map audit_of_row (Answers_of_result db2 (Result.id r)) = map audit_of_item items
    /\ List.length (Answers_of_result db1 (Result.id r)) = List.length items
    /\ List.length (Answers_of_result db2 (Result.id r)) = List.length items.
Proof.
  intros Hreg.
  destruct (submit_quiz_spec db questions name regno items p Hreg)
    as (db1 & rid1 & Hrun1 & Hp1 & Hres1 & _ & Hrows1).
  assert (Hreg1 : registered db1 regno p).
  { destruct Hreg as [Hne Hp]. split; [exact Hne |].
    unfold Participant_get_or_none in *. rewrite Hp1. exact Hp. }
  destruct (submit_quiz_spec db1 questions name regno items p Hreg1)
    as (db2 & rid2 & Hrun2 & _ & Hres2 & Hold2 & Hrows2).
  rewrite (Hold2 _ Hres1) in Hres2, Hrows2. cbn [Result.id] in Hres2, Hrows2.
  eexists db1, db2, _.
  split; [exact Hrun1 |]. split; [exact Hrun2 |].
  split; [exact Hres1 |]. split; [exact Hres2 |].
  cbn [Result.id].
  split; [exact Hrows1 |]. split; [exact Hrows2 |].
  split.
  - rewrite <- (length_map audit_of_row), Hrows1. apply length_map.
  - rewrite <- (length_map audit_of_row), Hrows2. apply length_map.
Qed.

Lemma C2_resubmission_idempotent_witness :
  registered test_db "TEST001" test_participant
  /\ exists (db1 db2 : database) (r : Result.t),
       submit_quiz (Some test_questions) (submit_payload "Test User" "TEST001" test_answers)
         test_db = (Return submit_ok, db1)
       /\ submit_quiz (Some test_questions) (submit_payload "Test User" "TEST001" test_answers)
            db1 = (Return submit_ok, db2)
       /\ Result_of_participant db1 (Participant.id test_participant) = Some r
       /\ Result_of_participant db2 (Participant.id test_participant) = Some r
       /\ map audit_of_row (Answers_of_result db1 (Result.id r))
          = map audit_of_item test_answers
       /\ map audit_of_row (Answers_of_result db2 (Result.id r))
          = map audit_of_item test_answers
       /\ List.length (Answers_of_result db1 (Result.id r)) = List.length test_answers
       /\ List.length (Answers_of_result db2 (Result.id r)) = List.length test_answers.
Proof.
  assert (Hreg : registered test_db "TEST001" test_participant) by (split; reflexivity).
  split; [exact Hreg |].
  exact (C2_resubmission_idempotent test_db test_questions "Test User" "TEST001"
           test_answers test_participant Hreg).
Defined.

(** C9. For a registered participant an empty batch is accepted: it
    overwrites the Result with correct = 0, points = 0, avg_time = 0 (the
    row the participant already had, when there was one) and leaves no
    Answer row for that Result, whatever was recorded before. *)
Theorem C9_empty_batch_resets (db : database) (questions : list Question.t)
  (name regno : string) (p : Participant.t) :
  registered db regno p ->
  exists (db' : database) (r : Result.t),
    submit_quiz (Some questions) (submit_payload name regno []) db = (Return submit_ok, db')
    /\ Result_of_participant db' (Participant.id p) = Some r
    /\ Result.correct r = 0
    /\ Result.points r = 0
    /\ Result.avg_time r = 0%Q
    /\ Answers_of_result db' (Result.id r) = []
    /\ (forall r0 : Result.t,
          Result_of_participant db (Participant.id p) = Some r0 ->
          Result.id r = Result.id r0).
Proof.
  intros Hreg.
  destruct (submit_quiz_spec db questions name regno [] p Hreg)
    as (db' & rid & Hrun & _ & Hres & Hold & Hrows).
  eexists db', _. split; [exact Hrun |]. split; [exact Hres |].
  cbn [Result.correct Result.points Result.avg_time Result.id].
  repeat split; [| exact Hold]. apply map_eq_nil in Hrows. exact Hrows.
Qed.

Lemma C9_empty_batch_resets_witness :
  registered test_db_submitted "TEST001" test_participant
  /\ List.length (Answers_of_result test_db_submitted 1) = 2%nat
  /\ exists (db' : database) (r : Result.t),
       submit_quiz (Some test_questions) (submit_payload "Test User" "TEST001" [])
         test_db_submitted = (Return submit_ok, db')
       /\ Result_of_participant db' (Participant.id test_participant) = Some r
       /\ Result.correct r = 0
       /\ Result.points r = 0
       /\ Result.avg_time r = 0%Q
       /\ Answers_of_result db' (Result.id r) = []
       /\ (forall r0 : Result.t,
             Result_of_participant test_db_submitted (Participant.id test_participant)
             = Some r0 ->
             Result.id r = Result.id r0).
Proof.
  assert (Hreg : registered test_db_submitted "TEST001" test_participant)
    by (split; reflexivity).
  split; [exact Hreg |]. split; [reflexivity |].
  exact (C9_empty_batch_resets test_db_submitted test_questions "Test User" "TEST001"
           test_participant Hreg).
Defined.

Lemma correct_count_from_app (questions : list Question.t) (i : nat) (l1 l2 : list dict) :
  correct_count_from questions i (l1 ++ l2)
  = (correct_count_from questions i l1
     + correct_count_from questions (i + List.length l1) l2)%nat.
Proof.
  unfold correct_count_from. rewrite enumerate_from_app, filter_app, length_app. reflexivity.
Qed.

(** An item that names a bank question and selects its stored answer counts
    as correct wherever it stands in the batch. *)
Lemma answers_question_correct (questions : list Question.t) (q a : Z)
  (question : Question.t) (d : dict) (i : nat) :
  0 <= q ->
  nth_error questions (Z.to_nat q) = Some question ->
  py_as_int (Question.answer question) = Some a ->
  answers_question q a d ->
  answered_correctly questions i d = true.
Proof.
  intros Hlo Hnth Hans (qv & Hq & Hint & Hsel).
  unfold answered_correctly, item_question, item_selected, question_id.
  rewrite Hq, Hint, Hsel. apply Z.leb_le in Hlo. rewrite Hlo, Hnth, Hans.
  apply Z.eqb_refl.
Qed.

Lemma correct_count_from_all (questions : list Question.t) (dups : list dict) :
  (forall (i : nat) (d : dict), In d dups -> answered_correctly questions i d = true) ->
  forall i : nat, correct_count_from questions i dups = List.length dups.
Proof.
  induction dups as [| d dups IH]; intros Hall i; [reflexivity |].
  unfold correct_count_from in *. cbn [enumerate_from filter fst snd].
  rewrite (Hall i d (or_introl eq_refl)). cbn [List.length].
  rewrite IH; [reflexivity |]. intros j d' Hd'. apply Hall. right. exact Hd'.
Qed.

(** C10. Items are scored one by one with no deduplication by question id.
    An item that names an in-range question and selects its correct option
    adds 1 to [correct] whatever was scored before it; so a batch extended by
    [k] such items on the same question has [correct] raised by [k] and
    [points] by [2 * k].  Three such items on the first question of the
    two-question test bank give correct = 3, more than the one question
    answered, and points = 6, more than twice the bank length. *)
Theorem C10_duplicates_counted (db : database) (name regno : string) (p : Participant.t) :
  registered db regno p ->
  (forall (questions : list Question.t) (q a : Z) (question : Question.t),
      0 <= q ->
      nth_error questions (Z.to_nat q) = Some question ->
      py_as_int (Question.answer question) = Some a ->
      (forall (i : nat) (d : dict) (t : tally),
          answers_question q a d ->
          exists t' : tally,
            score_answer questions i (JDict d) t = Return t' /\ correct t' = correct t + 1)
      /\ (forall batch dups : list dict,
            Forall (answers_question q a) dups ->
            exists (db' : database) (r : Result.t),
              submit_quiz (Some questions) (submit_payload name regno (batch ++ dups)) db
              = (Return submit_ok, db')
              /\ Result_of_participant db' (Participant.id p) = Some r
              /\ Result.correct r
                 = Z.of_nat (correct_count questions batch) + Z.of_nat (List.length dups)
              /\ Result.points r
                 = (Z.of_nat (correct_count questions batch) + Z.of_nat (List.length dups)) * 2))
  /\ (exists (db' : database) (r : Result.t),
        submit_quiz (Some test_questions)
          (submit_payload name regno (repeat (answer_item (JInt 0) (JInt 1) (JInt 10)) 3)) db
        = (Return submit_ok, db')
        /\ Result_of_participant db' (Participant.id p) = Some r
        /\ Result.correct r = 3
        /\ Result.points r = 6
        /\ 2 * Z.of_nat (List.length test_questions) < Result.points r).
Proof.
  intros Hreg. split.
  - intros questions q a question Hlo Hnth Hans. split.
    + intros i d t Hd. rewrite score_answer_spec.
      rewrite (answers_question_correct questions q a question d i Hlo Hnth Hans Hd).
      eexists. split; reflexivity.
    + intros batch dups Hdups.
      destruct (submit_quiz_spec db questions name regno (batch ++ dups) p Hreg)
        as (db' & rid & Hrun & _ & Hres & _ & _).
      assert (Hcount : correct_count questions (batch ++ dups)
                       = (correct_count questions batch + List.length dups)%nat).
      { unfold correct_count. rewrite correct_count_from_app.
        rewrite (correct_count_from_all questions dups); [reflexivity |].
        intros i d Hd. rewrite Forall_forall in Hdups.
        exact (answers_question_correct questions q a question d i Hlo Hnth Hans
                 (Hdups d Hd)). }
      rewrite Hcount, Nat2Z.inj_add in Hres.
      eexists db', _. split; [exact Hrun |]. split; [exact Hres |].
      cbn [Result.correct Result.points]. split; reflexivity.
  - destruct (submit_quiz_spec db test_questions name regno
                (repeat (answer_item (JInt 0) (JInt 1) (JInt 10)) 3) p Hreg)
      as (db' & rid & Hrun & _ & Hres & _ & _).
    eexists db', _. split; [exact Hrun |]. split; [exact Hres |].
    cbn [Result.correct Result.points]. repeat split.
Qed.

Lemma C10_duplicates_counted_witness :
  registered test_db "TEST001" test_participant
  /\ exists (db' : database) (r : Result.t),
       submit_quiz (Some test_questions)
         (submit_payload "Test User" "TEST001"
            (test_answers
             ++ [answer_item (JInt 1) (JStr "2") JNull; answer_item (JStr " 1 ") (JInt 2) (JInt 3);
                 answer_item (JFloat (3 # 2)) (JFloat 2) (JBool true)])) test_db
       = (Return submit_ok, db')
       /\ Result_of_participant db' (Participant.id test_participant) = Some r
       /\ Result.correct r = Z.of_nat (correct_count test_questions test_answers) + Z.of_nat 3
       /\ Result.points r
          = (Z.of_nat (correct_count test_questions test_answers) + Z.of_nat 3) * 2.
Proof.
  assert (Hreg : registered test_db "TEST001" test_participant) by (split; reflexivity).
  split; [exact Hreg |].
  refine (proj2 (proj1 (C10_duplicates_counted test_db "Test User" "TEST001" test_participant
                          Hreg)
                   test_questions 1 2 _ _ eq_refl eq_refl)
            test_answers _ _).
  - discriminate.
  - repeat constructor; eexists; repeat split; reflexivity.
Defined.

(** C5, as the claim states it, fails: an item with no [qId] key is not
    dropped.  It is scored against the question at its own position: the
    lone item [{selected:1, time_sec:10}] counts as a correct answer to
    question 0 and its time enters the average. *)
Lemma C5_missing_qid_is_scored :
  assoc_get "qId" [("selected", JInt 1); ("time_sec", JInt 10)] = None
  /\ score_answers test_questions 0 [JDict [("selected", JInt 1); ("time_sec", JInt 10)]] tally0
     = Return (mk_tally 1 10 1)
  /\ submit_quiz (Some test_questions)
       (submit_payload "Test User" "TEST001" [[("selected", JInt 1); ("time_sec", JInt 10)]])
       test_db
     = (Return submit_ok,
        mk_database [test_participant] [Result.mk 1 1 1 2 10]
          [Answer.mk 1 1 JNull (JInt 1) (JInt 10)]).
Proof.
  repeat split.
Qed.

(** C5, amended. An item whose [qId] is present but not coercible to an
    integer ([int] raises: null, a non-numeric string, a list, an object) is
    dropped from scoring: its iteration leaves the correct count, the time
    sum and the time count as they were, and in the reference reading it is
    neither a correct answer nor a counted time.  An item with no [qId] key
    is scored exactly as if it carried its 0-based position as [qId]. *)
Theorem C5_uncoercible_qid_dropped (questions : list Question.t) (i : nat) (d : dict)
  (t : tally) :
  (forall (qv : json) (e : exn),
      assoc_get "qId" d = Some qv ->
      py_int qv = Raise e ->
      score_answer questions i (JDict d) t = Return t
      /\ (forall rest : list json,
             score_answers questions i (JDict d :: rest) t
             = score_answers questions (S i) rest t)
      /\ answered_correctly questions i d = false
      /\ counted_time questions i d = None)
  /\ (assoc_get "qId" d = None ->
      score_answer questions i (JDict d) t
      = score_answer questions i (JDict (("qId", JInt (Z.of_nat i)) :: d)) t).
Proof.
  split.
  - intros qv e Hq He.
    assert (Hc : answered_correctly questions i d = false).
    { unfold answered_correctly, item_question, question_id. rewrite Hq, He. reflexivity. }
    assert (Ht : counted_time questions i d = None).
    { unfold counted_time, item_question, question_id. rewrite Hq, He. reflexivity. }
    assert (Hstep : score_answer questions i (JDict d) t = Return t).
    { rewrite score_answer_spec, Hc, Ht. destruct t; cbn [correct total_time time_counts].
      rewrite !Z.add_0_r. reflexivity. }
    repeat split; auto.
    intros rest. cbn [score_answers]. rewrite Hstep. reflexivity.
  - intros Hq. rewrite !score_answer_spec.
    unfold answered_correctly, counted_time, item_question, item_selected, question_id, field.
    cbn [assoc_get String.eqb Ascii.eqb Bool.eqb]. rewrite Hq. reflexivity.
Qed.

Lemma C5_uncoercible_qid_dropped_witness :
  score_answer test_questions 0
    (JDict (answer_item (JStr "abc") (JInt 1) (JInt 10))) (mk_tally 3 7 2)
  = Return (mk_tally 3 7 2)
  /\ score_answer test_questions 1 (JDict [("selected", JInt 2); ("time_sec", JInt 15)]) tally0
     = score_answer test_questions 1
         (JDict (("qId", JInt (Z.of_nat 1)) :: [("selected", JInt 2); ("time_sec", JInt 15)]))
         tally0.
Proof.
  split.
  - exact (proj1 (proj1 (C5_uncoercible_qid_dropped test_questions 0
                           (answer_item (JStr "abc") (JInt 1) (JInt 10)) (mk_tally 3 7 2))
                    (JStr "abc") ValueError eq_refl eq_refl)).
  - exact (proj2 (C5_uncoercible_qid_dropped test_questions 1
                    [("selected", JInt 2); ("time_sec", JInt 15)] tally0) eq_refl).
Defined.

(** ** Registration (POST /register) *)

Lemma int_of_string_nonempty (s : string) (y : Z) :
  int_of_string s = Some y -> nonempty s = true.
Proof.
  destruct s; [discriminate | reflexivity].
Qed.

(** [register] only ever appends to the participants table. *)
Lemma register_appends (data : json) (db : database) :
  exists added : list Participant.t,
    participants (snd (register data db)) = (participants db ++ added)%list.
Proof.
  unfold register.
  destruct (register_fields data) as [[[[[name regno] college] department] year_raw] | e];
    [| exists []; rewrite app_nil_r; reflexivity].
  destruct (negb _); [exists []; rewrite app_nil_r; reflexivity |].
  destruct (int_of_string year_raw) as [year |];
    [| exists []; rewrite app_nil_r; reflexivity].
  destruct (Participant_get_or_none db regno) eqn:Hex;
    [exists []; rewrite app_nil_r; reflexivity |].
  unfold Participant_create. rewrite Hex.
  unfold Result_get_or_create. cbn [participants Participant.id].
  eexists [_].
  destruct (Result_of_participant _ _); reflexivity.
Qed.

(** C6. When a participant is already registered under a regno, a further
    well-formed registration request with that regno (every field non-empty
    after trimming, a year that parses) is answered 409 and leaves the store
    as it was; and no registration request whatsoever changes the stored
    participant: the lookup by that regno returns the same record afterwards. *)
Theorem C6_duplicate_registration_conflict (db : database) (regno : string)
  (p : Participant.t) :
  Participant_get_or_none db (strip regno) = Some p ->
  (forall (name college department : string) (year : json) (y : Z),
      nonempty (strip name) = true ->
      nonempty (strip regno) = true ->
      nonempty (strip college) = true ->
      nonempty (strip department) = true ->
      int_of_string (strip (py_str year)) = Some y ->
      register (register_request name regno college department year) db
      = ((failure "Registration already exists for this regno", 409), db))
  /\ (forall data : json,
        Participant_get_or_none (snd (register data db)) (strip regno) = Some p).
Proof.
  intros Hex. split.
  - intros name college department year y Hn Hr Hc Hd Hy.
    unfold register, register_request, register_fields. read_fields.
    rewrite Hn, Hr, Hc, Hd, (int_of_string_nonempty _ _ Hy). cbn [andb negb].
    rewrite Hy, Hex. reflexivity.
  - intros data. destruct (register_appends data db) as [added Ha].
    unfold Participant_get_or_none in *. rewrite Ha.
    apply find_app_found. exact Hex.
Qed.

Lemma C6_duplicate_registration_conflict_witness :
  Participant_get_or_none test_db (strip " TEST001 ") = Some test_participant
  /\ register (register_request "Duplicate User" " TEST001 " "Test College" "CS" (JStr "2023"))
       test_db
     = ((failure "Registration already exists for this regno", 409), test_db)
  /\ Participant_get_or_none
       (snd (register (register_request "" " TEST001 " "" "" JNull) test_db))
       (strip " TEST001 ") = Some test_participant.
Proof.
  assert (Hex : Participant_get_or_none test_db (strip " TEST001 ") = Some test_participant)
    by reflexivity.
  split; [exact Hex |]. split.
  - exact (proj1 (C6_duplicate_registration_conflict test_db " TEST001 " test_participant Hex)
             "Duplicate User" "Test College" "CS" (JStr "2023") 2023
             eq_refl eq_refl eq_refl eq_refl eq_refl).
  - exact (proj2 (C6_duplicate_registration_conflict test_db " TEST001 " test_participant Hex)
             (register_request "" " TEST001 " "" "" JNull)).
Defined.

(** ** Appending to the bank (POST /admin/api/add-question) *)

(** C8. For a request object whose question text is a string (or absent):
    when [options] is not a sequence of length at least 2, or [answer] is not
    an integer index into [options], the request is answered 400 and the
    bank file is left as it was; when the text is non-empty after trimming,
    [options] is a list of at least 2 items and [answer] is an integer index
    into it, the question is appended at the end of the bank and the count
    returned is the new bank length. *)
Theorem C8_add_question_validation (questions_file : option (list Question.t)) (d : dict) :
  text_field "question" d ->
  (~ has_options d \/ ~ has_answer_index d ->
   exists message : string,
     admin_api_add_question (JDict d) questions_file
     = (Return (failure message, 400), questions_file))
  /\ (forall (text : string) (l : list json) (answer : json) (a : Z),
        assoc_get "question" d = Some (JStr text) ->
        nonempty (strip text) = true ->
        assoc_get "options" d = Some (JList l) ->
        (2 <= List.length l)%nat ->
        assoc_get "answer" d = Some answer ->
        py_as_int answer = Some a ->
        0 <= a < Z.of_nat (List.length l) ->
        let bank := (bank_of questions_file ++ [Question.mk (strip text) l answer])%list in
        admin_api_add_question (JDict d) questions_file
        = (Return (jsonify [("success", JBool true);
                            ("message", JStr "Question added");
                            ("count", JInt (Z.of_nat (List.length bank)))], 200),
           Some bank)).
Proof.
  intros Htext. split.
  - intros Hbad.
    unfold admin_api_add_question, add_question_fields.
    assert (Hdata : exists d', py_or (JDict d) (JDict []) = JDict d'
                               /\ (forall k, assoc_get k d' = assoc_get k d (A := json))).
    { destruct d; [exists [] | eexists]; split; reflexivity || auto. }
    destruct Hdata as (d' & -> & Hd'). cbn [py_get obind]. rewrite !Hd'.
    assert (Hq : exists question,
               py_strip (py_or match assoc_get "question" d with
                               | Some x => x
                               | None => JNull
                               end (JStr "")) = Return question).
    { unfold text_field in Htext.
      destruct (assoc_get "question" d) as [[] |]; try contradiction; try (eexists; reflexivity).
      unfold py_or. destruct (py_truthy (JStr s)); eexists; reflexivity. }
    destruct Hq as [question ->]. cbn [obind].
    destruct (negb (nonempty question)); [eexists; reflexivity |].
    destruct (assoc_get "options" d) as [v |] eqn:Hopt; [| eexists; reflexivity].
    unfold py_or at 1.
    destruct (py_truthy v) eqn:Htv; [| eexists; reflexivity].
    destruct v as [| | | | | l |]; try (eexists; reflexivity).
    destruct (List.length l <? 2)%nat eqn:Hlen; [eexists; reflexivity |].
    apply Nat.ltb_ge in Hlen.
    destruct (valid_index match assoc_get "answer" d with Some x => x | None => JNull end l)
      eqn:Hv; [| eexists; reflexivity].
    exfalso. destruct Hbad as [Hno | Hno]; apply Hno.
    + exists l. auto.
    + unfold valid_index in Hv.
      destruct (py_as_int match assoc_get "answer" d with Some x => x | None => JNull end)
        as [a |] eqn:Ha; [| discriminate].
      apply andb_true_iff in Hv. destruct Hv as [Hlo Hhi].
      apply Z.leb_le in Hlo. apply Z.ltb_lt in Hhi.
      exists l, a. unfold field. auto.
  - intros text l answer a Hq Hne Hopt Hlen Hans Hint Hrange bank.
    unfold admin_api_add_question, add_question_fields.
    assert (Hd : py_or (JDict d) (JDict []) = JDict d).
    { destruct d; [discriminate Hq | reflexivity]. }
    rewrite Hd. cbn [py_get obind]. rewrite Hq, Hopt, Hans.
    assert (Htt : py_or (JStr text) (JStr "") = JStr text).
    { unfold py_or. cbn [py_truthy]. destruct text; [discriminate Hne | reflexivity]. }
    rewrite Htt. cbn [py_strip obind]. rewrite Hne. cbn [negb].
    assert (Hl : py_or (JList l) (JList []) = JList l).
    { destruct l; reflexivity. }
    rewrite Hl.
    assert (Hlt : (List.length l <? 2)%nat = false) by (apply Nat.ltb_ge; exact Hlen).
    rewrite Hlt. unfold valid_index. rewrite Hint.
    destruct Hrange as [Hlo Hhi]. apply Z.leb_le in Hlo. apply Z.ltb_lt in Hhi.
    rewrite Hlo, Hhi. reflexivity.
Qed.

Lemma C8_add_question_validation_witness :
  (exists message : string,
      admin_api_add_question
        (JDict [("question", JStr "Q?"); ("options", JList [JStr "A"]); ("answer", JInt 0)])
        (Some test_questions)
      = (Return (failure message, 400), Some test_questions))
  /\ admin_api_add_question
       (JDict [("question", JStr "What is 3+3?");
               ("options", JList [JStr "5"; JStr "6"; JStr "7"; JStr "8"]);
               ("answer", JInt 1)])
       (Some test_questions)
     = (Return (jsonify [("success", JBool true);
                         ("message", JStr "Question added");
                         ("count", JInt 3)], 200),
        Some (test_questions
              ++ [Question.mk "What is 3+3?" [JStr "5"; JStr "6"; JStr "7"; JStr "8"]
                    (JInt 1)])%list).
Proof.
  split.
  - refine (proj1 (C8_add_question_validation (Some test_questions)
                     [("question", JStr "Q?"); ("options", JList [JStr "A"]);
                      ("answer", JInt 0)] I) _).
    left. intros (l & Hl & Hlen). injection Hl as <-. simpl in Hlen. lia.
  - refine (proj2 (C8_add_question_validation (Some test_questions)
                     [("question", JStr "What is 3+3?");
                      ("options", JList [JStr "5"; JStr "6"; JStr "7"; JStr "8"]);
                      ("answer", JInt 1)] I)
              "What is 3+3?" [JStr "5"; JStr "6"; JStr "7"; JStr "8"] (JInt 1) 1
              eq_refl eq_refl eq_refl _ eq_refl eq_refl _); simpl; lia.
Defined.

(** C8, as stated, fails when the question is not text: for
    [{question: 5, options: ["A"], answer: 0}] the options are too short,
    yet [(data.get("question") or "").strip()] raises AttributeError before
    any validation, and outside the handler's [try]: the request is not
    answered 400 (the bank is unchanged all the same). *)
Lemma C8_question_not_text_raises :
  ~ has_options [("question", JInt 5); ("options", JList [JStr "A"]); ("answer", JInt 0)]
  /\ admin_api_add_question
       (JDict [("question", JInt 5); ("options", JList [JStr "A"]); ("answer", JInt 0)])
       (Some test_questions)
     = (Raise AttributeError, Some test_questions)
  /\ ~ exists message : string,
        admin_api_add_question
          (JDict [("question", JInt 5); ("options", JList [JStr "A"]); ("answer", JInt 0)])
          (Some test_questions)
        = (Return (failure message, 400), Some test_questions).
Proof.
  split; [| split].
  - intros (l & Hl & Hlen). injection Hl as <-. simpl in Hlen. lia.
  - reflexivity.
  - intros [message H]. discriminate H.
Qed.

(** ** Ranking (GET /api/leaderboard, GET /admin/api/top) *)

Lemma precedes_spec (a b : Result.t * Participant.t) :
  ranked a b <->
  Result.points (fst b) < Result.points (fst a)
  \/ (Result.points (fst a) = Result.points (fst b)
      /\ (Result.avg_time (fst a) <= Result.avg_time (fst b))%Q).
Proof.
  unfold ranked, precedes.
  rewrite orb_true_iff, andb_true_iff, Z.ltb_lt, Z.eqb_eq, Qle_bool_iff. reflexivity.
Qed.

Lemma precedes_total (a b : Result.t * Participant.t) : precedes a b = false -> ranked b a.
Proof.
  intros H. apply precedes_spec.
  destruct (Z.lt_trichotomy (Result.points (fst a)) (Result.points (fst b)))
    as [Hlt | [Heq | Hgt]]; [left; exact Hlt | | ].
  - right. split; [symmetry; exact Heq |].
    destruct (Qlt_le_dec (Result.avg_time (fst b)) (Result.avg_time (fst a)))
      as [Hq | Hq]; [apply Qlt_le_weak; exact Hq |].
    assert (Hr : ranked a b) by (apply precedes_spec; right; auto).
    unfold ranked in Hr. congruence.
  - assert (Hr : ranked a b) by (apply precedes_spec; left; exact Hgt).
    unfold ranked in Hr. congruence.
Qed.

Lemma ranked_trans (a b c : Result.t * Participant.t) : ranked a b -> ranked b c -> ranked a c.
Proof.
  rewrite !precedes_spec.
  intros [Hab | [Hab Hqab]] [Hbc | [Hbc Hqbc]].
  - left. lia.
  - left. lia.
  - left. lia.
  - right. split; [lia |]. eapply Qle_trans; eauto.
Qed.

Lemma insert_row_perm (x : Result.t * Participant.t) (rows : list (Result.t * Participant.t)) :
  Permutation (insert_row x rows) (x :: rows).
Proof.
  induction rows as [| y rows IH]; simpl; [reflexivity |].
  destruct (precedes x y); [reflexivity |].
  rewrite IH. apply perm_swap.
Qed.

Lemma order_by_perm (rows : list (Result.t * Participant.t)) : Permutation (order_by rows) rows.
Proof.
  induction rows as [| x rows IH]; simpl; [reflexivity |].
  rewrite insert_row_perm. apply perm_skip. exact IH.
Qed.

Lemma insert_row_sorted (x : Result.t * Participant.t) (rows : list (Result.t * Participant.t)) :
  StronglySorted ranked rows -> StronglySorted ranked (insert_row x rows).
Proof.
  induction rows as [| y rows IH]; intros Hs; simpl.
  - repeat constructor.
  - inversion Hs as [| ? ? Hrest Hall]; subst.
    destruct (precedes x y) eqn:Hxy.
    + constructor; [exact Hs |]. constructor; [exact Hxy |].
      eapply Forall_impl; [| exact Hall].
      intros z Hz. apply (ranked_trans x y z); assumption.
    + constructor; [apply IH; exact Hrest |].
      eapply Permutation_Forall; [symmetry; apply insert_row_perm |].
      constructor; [apply precedes_total; exact Hxy | exact Hall].
Qed.

Lemma order_by_sorted (rows : list (Result.t * Participant.t)) : StronglySorted ranked (order_by rows).
Proof.
  induction rows as [| x rows IH]; simpl; [constructor |].
  apply insert_row_sorted. exact IH.
Qed.


(** Rounding never reverses an order. *)
Lemma round_half_even_mono (x y : Q) :
  (x <= y)%Q -> round_half_even x <= round_half_even y.
Proof.
  destruct x as [n d], y as [n' d']. unfold Qle, round_half_even. cbn [Qnum Qden].
  intros Hle.
  pose proof (Z.div_mod n (Zpos d) ltac:(lia)) as Hn.
  pose proof (Z.mod_pos_bound n (Zpos d) ltac:(lia)) as Hr.
  pose proof (Z.div_mod n' (Zpos d') ltac:(lia)) as Hn'.
  pose proof (Z.mod_pos_bound n' (Zpos d') ltac:(lia)) as Hr'.
  set (f := n / Zpos d) in *. set (r := n mod Zpos d) in *.
  set (f' := n' / Zpos d') in *. set (r' := n' mod Zpos d') in *.
  assert (Hd : 0 < Zpos d) by lia. assert (Hd' : 0 < Zpos d') by lia.
  set (D := Zpos d) in *. set (D' := Zpos d') in *.
  assert (Hle' : D * D' * f + r * D' <= D * D' * f' + r' * D).
  { rewrite Hn, Hn' in Hle. lia. }
  assert (Hrd : 0 <= r * D') by (apply Z.mul_nonneg_nonneg; lia).
  assert (Hrd' : r' * D < D * D') by (rewrite (Z.mul_comm D D'); apply Z.mul_lt_mono_pos_r; lia).
  assert (Hdd : 0 < D * D') by (apply Z.mul_pos_pos; lia).
  assert (Hff : f <= f').
  { destruct (Z_le_gt_dec f f') as [H | H]; [exact H | exfalso].
    assert (D * D' * (f' + 1) <= D * D' * f) by (apply Z.mul_le_mono_nonneg_l; lia).
    lia. }
  assert (Hcase : f < f' \/ (f = f' /\ r * D' <= r' * D)).
  { destruct (Z.eq_dec f f') as [Heq | Hne]; [right; split; [exact Heq |] | left; lia].
    rewrite Heq in Hle'. lia. }
  assert (Hlo : f <= match 2 * r' ?= D' with
                     | Eq => if Z.even f' then f' else f' + 1
                     | Lt => f'
                     | Gt => f' + 1
                     end).
  { destruct (2 * r' ?= D'); [destruct (Z.even f') | |]; lia. }
  destruct Hcase as [Hlt | [Heq Hrr]].
  - assert (Hhi : match 2 * r ?= D with
                  | Eq => if Z.even f then f else f + 1
                  | Lt => f
                  | Gt => f + 1
                  end <= f + 1).
    { destruct (2 * r ?= D); [destruct (Z.even f) | |]; lia. }
    assert (Hlo' : f' <= match 2 * r' ?= D' with
                         | Eq => if Z.even f' then f' else f' + 1
                         | Lt => f'
                         | Gt => f' + 1
                         end).
    { destruct (2 * r' ?= D'); [destruct (Z.even f') | |]; lia. }
    lia.
  - subst f'. rewrite <- Heq in *.
    destruct (Z.compare_spec (2 * r) D) as [He | Hl | Hg].
    + destruct (Z.compare_spec (2 * r') D') as [He' | Hl' | Hg'].
      * lia.
      * exfalso. nia.
      * destruct (Z.even f); lia.
    + exact Hlo.
    + destruct (Z.compare_spec (2 * r') D') as [He' | Hl' | Hg'].
      * exfalso. nia.
      * exfalso. nia.
      * lia.
Qed.

Lemma py_round2_mono (x y : Q) : (x <= y)%Q -> (py_round2 x <= py_round2 y)%Q.
Proof.
  intros Hle. unfold py_round2, Qle. cbn [Qnum Qden].
  apply Z.mul_le_mono_nonneg_r; [lia |].
  apply round_half_even_mono.
  apply Qmult_le_compat_r; [exact Hle | unfold Qle; simpl; lia].
Qed.

Lemma top_rows_rank (rows : list (Result.t * Participant.t)) :
  forall (i k : nat) (e : Top.t),
    nth_error (top_rows i rows) k = Some e -> Top.rank e = Z.of_nat (i + k) + 1.
Proof.
  induction rows as [| rp rows IH]; intros i k e He.
  - destruct k; discriminate.
  - destruct k as [| k]; simpl in He.
    + injection He as <-. cbn [Top.rank]. rewrite Nat.add_0_r. reflexivity.
    + rewrite (IH (S i) k e He). f_equal. lia.
Qed.

Lemma top_rows_entries (rows : list (Result.t * Participant.t)) :
  forall i : nat,
    map Top.entry (top_rows i rows)
    = map (fun rp => Entry.mk (Participant.name (snd rp)) (Participant.regno (snd rp))
                       (Result.correct (fst rp)) (Result.points (fst rp))
                       (py_round2 (Result.avg_time (fst rp)))) rows.
Proof.
  induction rows as [| rp rows IH]; intros i; simpl; [reflexivity |].
  rewrite IH. reflexivity.
Qed.

(** C7. The ranked rows are all the joined Result rows, ordered so that
    points never increase and, among equal points, the average time never
    decreases; the same holds of the (rounded) entries [leaderboard_api]
    returns.  [admin_api_top] numbers its entries 1, 2, 3, ... by position,
    ties included, and its entries are the first 10 of that same order. *)
Theorem C7_ranking_order (db : database) :
  Permutation (order_by (select_join db)) (select_join db)
  /\ (forall (i j : nat) (a b : Result.t * Participant.t),
        (i < j)%nat ->
        nth_error (order_by (select_join db)) i = Some a ->
        nth_error (order_by (select_join db)) j = Some b ->
        Result.points (fst b) <= Result.points (fst a)
        /\ (Result.points (fst a) = Result.points (fst b) ->
            (Result.avg_time (fst a) <= Result.avg_time (fst b))%Q))
  /\ (forall (i j : nat) (a b : Entry.t),
        (i < j)%nat ->
        nth_error (leaderboard_api db) i = Some a ->
        nth_error (leaderboard_api db) j = Some b ->
        Entry.points b <= Entry.points a
        /\ (Entry.points a = Entry.points b ->
            (Entry.avg_time a <= Entry.avg_time b)%Q))
  /\ (forall (i : nat) (e : Top.t),
        nth_error (admin_api_top db) i = Some e -> Top.rank e = Z.of_nat i + 1)
  /\ map Top.entry (admin_api_top db) = firstn 10 (leaderboard_api db).
Proof.
  assert (Hsorted : forall (i j : nat) (a b : Result.t * Participant.t),
             (i < j)%nat ->
             nth_error (order_by (select_join db)) i = Some a ->
             nth_error (order_by (select_join db)) j = Some b ->
             Result.points (fst b) <= Result.points (fst a)
             /\ (Result.points (fst a) = Result.points (fst b) ->
                 (Result.avg_time (fst a) <= Result.avg_time (fst b))%Q)).
  { intros i j a b Hij Ha Hb.
    pose proof (sorted_positions ranked _ (order_by_sorted (select_join db)) i j a b Hij Ha Hb)
      as Hr.
    apply precedes_spec in Hr. destruct Hr as [Hlt | [Heq Hq]]; split; try lia; auto. }
  split; [apply order_by_perm |].
  split; [exact Hsorted |].
  split.
  - intros i j a b Hij Ha Hb. unfold leaderboard_api in Ha, Hb.
    rewrite nth_error_map in Ha, Hb.
    destruct (nth_error (order_by (select_join db)) i) as [ra |] eqn:Hra; [| discriminate].
    destruct (nth_error (order_by (select_join db)) j) as [rb |] eqn:Hrb; [| discriminate].
    injection Ha as <-. injection Hb as <-. cbn [Entry.points Entry.avg_time].
    destruct (Hsorted i j ra rb Hij Hra Hrb) as [Hp Hq].
    split; [exact Hp |]. intros Heq. apply py_round2_mono. auto.
  - split.
    + intros i e He. unfold admin_api_top in He.
      rewrite (top_rows_rank _ 0 i e He). reflexivity.
    + unfold admin_api_top, leaderboard_api. rewrite top_rows_entries, firstn_map. reflexivity.
Qed.

(** ** Question selection (GET /questions) *)

Lemma Qeq_bool_refl (x : Q) : Qeq_bool x x = true.
Proof. apply Qeq_bool_iff. reflexivity. Qed.

(** Every JSON value equals itself. *)
Lemma py_eq_refl : forall a : json, py_eq a a = true.
Proof.
  fix IH 1. intros [| b | z | q | s | l | d].
  - reflexivity.
  - apply Qeq_bool_refl.
  - apply Qeq_bool_refl.
  - apply Qeq_bool_refl.
  - apply String.eqb_refl.
  - cbn [py_eq]. induction l as [| x l IHl]; [reflexivity |].
    rewrite (IH x), IHl. reflexivity.
  - cbn [py_eq]. rewrite Nat.eqb_refl. cbn [andb].
    assert (Hsub : forall d' pre : list (string * json),
               d = (pre ++ d')%list ->
               (fix sub (d0 : list (string * json)) : bool :=
                  match d0 with
                  | [] => true
                  | p :: d1 =>
                      (let (k, v) := p in
                       existsb (fun kw => String.eqb k (fst kw) && py_eq v (snd kw)) d)
                      && sub d1
                  end) d' = true).
    { induction d' as [| [k v] d' IHd]; intros pre Hd; [reflexivity |].
      rewrite (IHd (pre ++ [(k, v)])%list); [| rewrite <- app_assoc; exact Hd].
      rewrite andb_true_r. apply existsb_exists. exists (k, v). split.
      - rewrite Hd. apply in_or_app. right. left. reflexivity.
      - cbn [fst snd]. rewrite String.eqb_refl, (IH v). reflexivity. }
    exact (Hsub d [] eq_refl).
Qed.

Lemma question_eq_refl (q : Question.t) : question_eq q q = true.
Proof.
  unfold question_eq.
  rewrite String.eqb_refl, (py_eq_refl (JList (Question.options q))), py_eq_refl.
  reflexivity.
Qed.

(** [qs.index(q)] finds a question that occurs in [qs]. *)
Lemma index_found (q : Question.t) (qs : list Question.t) :
  In q qs -> exists j : nat, index q qs = Return j.
Proof.
  induction qs as [| x qs IH]; intros Hin; [destruct Hin |].
  simpl. destruct (question_eq x q) eqn:Hx; [eexists; reflexivity |].
  destruct Hin as [-> | Hin]; [rewrite question_eq_refl in Hx; discriminate |].
  destruct (IH Hin) as [j ->]. eexists; reflexivity.
Qed.

Lemma index_first (q : Question.t) (qs : list Question.t) :
  forall j : nat,
    index q qs = Return j ->
    exists x : Question.t,
      nth_error qs j = Some x
      /\ question_eq x q = true
      /\ (forall (j' : nat) (y : Question.t),
            (j' < j)%nat -> nth_error qs j' = Some y -> question_eq y q = false).
Proof.
  induction qs as [| x qs IH]; intros j Hj; [discriminate |].
  simpl in Hj. destruct (question_eq x q) eqn:Hx.
  - injection Hj as <-. exists x. repeat split; auto. intros j' y Hlt. lia.
  - destruct (index q qs) as [i |] eqn:Hi; [| discriminate].
    injection Hj as <-. destruct (IH i eq_refl) as (x' & Hn & Heq & Hfirst).
    exists x'. repeat split; auto.
    intros [| j'] y Hlt Hy; simpl in Hy.
    + injection Hy as <-. exact Hx.
    + apply (Hfirst j' y); [lia | exact Hy].
Qed.

Lemma safe_items_spec (qs chosen : list Question.t) :
  (forall q, In q chosen -> In q qs) ->
  exists items : list Safe.t,
    safe_items qs chosen = Return items /\ Forall2 (item_of qs) chosen items.
Proof.
  induction chosen as [| q chosen IH]; intros Hsub.
  - exists []. split; [reflexivity | constructor].
  - destruct (index_found q qs (Hsub q (or_introl eq_refl))) as [j Hj].
    destruct IH as (items & Hrun & Hall); [intros q' Hq'; apply Hsub; right; exact Hq' |].
    simpl. rewrite Hj, Hrun. cbn [obind]. eexists. split; [reflexivity |].
    constructor; [| exact Hall].
    destruct (index_first q qs j Hj) as (x & Hn & Heq & Hfirst).
    exists j, x. repeat split; auto.
Qed.

(** The items of a response, with the bank position each id denotes. *)
Lemma get_questions_spec (qs : list Question.t) (pick : bool) :
  exists items : list Safe.t,
    get_questions (Some qs) pick = Return items
    /\ Forall2 (item_of qs) (chosen_set qs pick) items.
Proof.
  unfold get_questions, chosen_set. apply safe_items_spec.
  intros q Hq. destruct pick.
  - rewrite <- (firstn_skipn 15 qs). apply in_or_app. right. exact Hq.
  - rewrite <- (firstn_skipn 15 qs). apply in_or_app. left. exact Hq.
Qed.

Lemma Forall2_item_of_shown (qs chosen : list Question.t) (items : list Safe.t) :
  Forall2 (item_of qs) chosen items -> map shown_item items = map shown chosen.
Proof.
  induction 1 as [| q item chosen items (j & x & _ & Hs & _) _ IH]; [reflexivity |].
  simpl. rewrite Hs, IH. reflexivity.
Qed.

(** The handler that appends to the bank accepts the same question twice. *)
Example duplicated_bank_reachable :
  snd (admin_api_add_question
         (JDict [("question", JStr "Q1"); ("options", JList [JStr "A"; JStr "B"]);
                 ("answer", JInt 0)])
         (snd (admin_api_add_question
                 (JDict [("question", JStr "Q1"); ("options", JList [JStr "A"; JStr "B"]);
                         ("answer", JInt 0)])
                 None)))
  = Some duplicated_bank.
Proof. reflexivity. Qed.

(** C3 fails on a bank that holds the same question twice: both returned
    items carry id 0, although the second one is the question at bank
    position 1. *)
Lemma C3_duplicate_question_ids :
  get_questions (Some duplicated_bank) false
  = Return [Safe.mk 0 "Q1" [JStr "A"; JStr "B"]; Safe.mk 0 "Q1" [JStr "A"; JStr "B"]].
Proof.
  reflexivity.
Qed.

(** C4, as the claim states it, fails: the bank is split at position 15, not
    at half its length.  From the two-question test bank the first draw
    returns both questions, neither the ceiling nor the floor of 2/2. *)
Lemma C4_split_is_not_by_halves :
  exists items : list Safe.t,
    get_questions (Some test_questions) false = Return items
    /\ List.length test_questions = 2%nat
    /\ List.length items = 2%nat
    /\ List.length items <> ((List.length test_questions + 1) / 2)%nat
    /\ List.length items <> (List.length test_questions / 2)%nat.
Proof.
  eexists. split; [reflexivity |]. repeat split; discriminate.
Qed.

(** C4, amended. For a bank of length [n] the selector returns, in bank
    order, either the questions at positions [0, min(n, 15)) or those at
    positions [15, n): [min(n, 15)] or [n - 15] items (15 and 15, the two
    halves, when [n = 30]).  For the empty bank, and when the bank file does
    not exist, it returns the empty sequence. *)
Theorem C4_split_at_fifteen (qs : list Question.t) (pick : bool) :
  (exists items : list Safe.t,
      get_questions (Some qs) pick = Return items
      /\ map shown_item items = map shown (if pick then skipn 15 qs else firstn 15 qs)
      /\ List.length items
         = (if pick then List.length qs - 15 else Nat.min 15 (List.length qs))%nat
      /\ (List.length qs = 30%nat -> List.length items = (List.length qs / 2)%nat))
  /\ get_questions (Some []) pick = Return []
  /\ get_questions None pick = Return [].
Proof.
  split; [| split; [destruct pick |]; reflexivity].
  destruct (get_questions_spec qs pick) as (items & Hrun & Hall).
  exists items. split; [exact Hrun |].
  pose proof (Forall2_item_of_shown _ _ _ Hall) as Hshown.
  split; [exact Hshown |].
  assert (Hlen : List.length items
                 = (if pick then List.length qs - 15 else Nat.min 15 (List.length qs))%nat).
  { rewrite <- (length_map shown_item), Hshown, length_map. unfold chosen_set.
    destruct pick; [apply length_skipn | apply length_firstn]. }
  split; [exact Hlen |].
  intros H30. rewrite Hlen, H30. destruct pick; reflexivity.
Qed.

Lemma C4_split_at_fifteen_witness :
  List.length thirty_questions = 30%nat
  /\ exists items : list Safe.t,
       get_questions (Some thirty_questions) true = Return items
       /\ map shown_item items = map shown (skipn 15 thirty_questions)
       /\ List.length items = (List.length thirty_questions - 15)%nat
       /\ (List.length thirty_questions = 30%nat ->
           List.length items = (List.length thirty_questions / 2)%nat).
Proof.
  split; [reflexivity |].
  exact (proj1 (C4_split_at_fifteen thirty_questions true)).
Defined.

(** In a bank without duplicates every returned id is the original position
    of its question: the position in the chosen part, plus 15 for the second
    part. *)
Lemma get_questions_ids_duplicate_free (qs : list Question.t) (pick : bool) :
  duplicate_free qs ->
  exists items : list Safe.t,
    get_questions (Some qs) pick = Return items
    /\ forall (k : nat) (item : Safe.t),
         nth_error items k = Some item ->
         exists q : Question.t,
           nth_error qs ((if pick then 15 else 0) + k) = Some q
           /\ Safe.id item = Z.of_nat ((if pick then 15 else 0) + k)
           /\ shown_item item = shown q.
Proof.
  intros Hfree.
  destruct (get_questions_spec qs pick) as (items & Hrun & Hall).
  exists items. split; [exact Hrun |].
  assert (Hpos : forall k q, nth_error (chosen_set qs pick) k = Some q ->
                             nth_error qs ((if pick then 15 else 0) + k) = Some q).
  { intros k q Hk. unfold chosen_set in Hk. destruct pick.
    - rewrite nth_error_skipn in Hk. exact Hk.
    - cbn [Nat.add]. rewrite nth_error_firstn in Hk.
      destruct (k <? 15)%nat; [exact Hk | discriminate]. }
  intros k item Hitem.
  destruct (Forall2_nth_error_right _ _ _ Hall k item Hitem)
    as (q & Hq & (j & x & Hid & Hs & Hx & Heq & Hfirst)).
  apply Hpos in Hq. exists q. split; [exact Hq |]. split; [| exact Hs].
  rewrite Hid. f_equal.
  destruct (Nat.lt_trichotomy j ((if pick then 15 else 0) + k)) as [Hlt | [Heqj | Hgt]].
  - rewrite (Hfree _ _ x q Hlt Hx Hq) in Heq. discriminate.
  - exact Heqj.
  - pose proof (Hfirst _ q Hgt Hq) as Hc. rewrite question_eq_refl in Hc. discriminate.
Qed.

(** C7 on a store with a tie: the two participants with 4 points and the
    same average time come one after the other, ranked 2 and 3. *)
Lemma C7_ranking_order_witness :
  map Top.rank (admin_api_top ranking_db) = [1; 2; 3; 4]
  /\ map Top.regno (admin_api_top ranking_db) = ["R2"; "R3"; "R4"; "R1"]
  /\ (forall (i : nat) (e : Top.t),
        nth_error (admin_api_top ranking_db) i = Some e -> Top.rank e = Z.of_nat i + 1)
  /\ map Top.entry (admin_api_top ranking_db) = firstn 10 (leaderboard_api ranking_db).
Proof.
  split; [reflexivity |]. split; [reflexivity |].
  exact (proj2 (proj2 (proj2 (C7_ranking_order ranking_db)))).
Defined.

(** ** Further properties of the handlers *)

(** *** More facts about lists and keys *)

Section KeyFacts.

Context {A K : Type}.
Variable key : A -> K.

Lemma next_id_above (ids : list Z) (x : Z) : In x ids -> x < next_id ids.
Proof.
  unfold next_id. induction ids as [| y ids IH]; intros Hin; [destruct Hin |].
  cbn [fold_right]. destruct Hin as [-> | Hin]; [lia |]. specialize (IH Hin). lia.
Qed.

Lemma next_id_fresh (ids : list Z) : ~ In (next_id ids) ids.
Proof.
  intros Hin. apply next_id_above in Hin. lia.
Qed.

Lemma nodup_key_inj (l : list A) (x y : A) :
  NoDup (map key l) -> In x l -> In y l -> key x = key y -> x = y.
Proof.
  induction l as [| a l IH]; intros Hnd Hx Hy Hk; [destruct Hx |].
  simpl in Hnd. inversion Hnd as [| ? ? Hna Hnd']; subst.
  destruct Hx as [-> | Hx], Hy as [-> | Hy]; auto.
  - exfalso. apply Hna. rewrite Hk. apply in_map. exact Hy.
  - exfalso. apply Hna. rewrite <- Hk. apply in_map. exact Hx.
Qed.

Lemma nodup_key_filter (f : A -> bool) (l : list A) :
  NoDup (map key l) -> NoDup (map key (filter f l)).
Proof.
  induction l as [| a l IH]; intros Hnd; [constructor |].
  simpl in Hnd. inversion Hnd as [| ? ? Hna Hnd']; subst.
  simpl. destruct (f a); [| auto].
  simpl. constructor; [| auto].
  intros Hin. apply Hna. apply in_map_iff in Hin. destruct Hin as (x & Hx & Hin).
  apply filter_In in Hin. rewrite <- Hx. apply in_map. tauto.
Qed.

Lemma nodup_key_snoc (l : list A) (a : A) :
  NoDup (map key l) -> ~ In (key a) (map key l) -> NoDup (map key (l ++ [a])).
Proof.
  intros Hnd Hna. rewrite map_app. simpl.
  apply NoDup_app; [exact Hnd | repeat constructor; intros [] |].
  intros x Hx [<- | []]. contradiction.
Qed.

End KeyFacts.

Section IntegerKeyFacts.

Context {A : Type}.
Variable key : A -> Z.

Lemma find_key_none (l : list A) (k : Z) :
  find (fun x => key x =? k) l = None -> ~ In k (map key l).
Proof.
  intros Hf Hin. apply in_map_iff in Hin. destruct Hin as (x & Hx & Hin).
  pose proof (find_none _ _ Hf x Hin) as Hne. simpl in Hne.
  rewrite Hx, Z.eqb_refl in Hne. discriminate.
Qed.

Lemma find_key_some (l : list A) (k : Z) (x : A) :
  NoDup (map key l) -> In x l -> key x = k -> find (fun y => key y =? k) l = Some x.
Proof.
  induction l as [| a l IH]; intros Hnd Hin Hk; [destruct Hin |].
  simpl in Hnd. inversion Hnd as [| ? ? Hna Hnd']; subst.
  simpl. destruct (key a =? key x) eqn:Ha.
  - apply Z.eqb_eq in Ha. destruct Hin as [-> | Hin]; [reflexivity |].
    exfalso. apply Hna. rewrite Ha. apply in_map. exact Hin.
  - destruct Hin as [-> | Hin]; [rewrite Z.eqb_refl in Ha; discriminate |].
    apply IH; auto.
Qed.

End IntegerKeyFacts.

(** *** Submissions: all or nothing *)

Lemma score_answers_objects (questions : list Question.t) (items : list json) :
  forall (i : nat) (t t' : tally),
    score_answers questions i items t = Return t' ->
    exists ds : list dict, items = map JDict ds.
Proof.
  induction items as [| v items IH]; intros i t t' Hrun.
  - exists []. reflexivity.
  - cbn [score_answers] in Hrun.
    destruct (score_answer questions i v t) as [t1 |] eqn:Hstep; [| discriminate].
    cbn [obind] in Hrun. destruct (IH _ _ _ Hrun) as [ds ->].
    destruct v as [| | | | | | d]; try discriminate Hstep.
    exists (d :: ds). reflexivity.
Qed.

(** Every run of [submit_quiz] either leaves the store as it was and does not
    answer success, or it is a graded submission of a batch of objects by a
    registered participant. *)
Lemma submit_quiz_cases (questions_file : option (list Question.t)) (payload : json)
  (db : database) :
  (exists o : outcome response,
      submit_quiz questions_file payload db = (o, db) /\ o <> Return submit_ok)
  \/ (exists (questions : list Question.t) (regno : string) (p : Participant.t)
             (items : list dict) (t : tally),
         questions_file = Some questions
         /\ nonempty regno = true
         /\ Participant_get_or_none db regno = Some p
         /\ score_answers questions 0 (map JDict items) tally0 = Return t
         /\ submit_quiz questions_file payload db
            = (Return submit_ok, submission_writes db p t items)).
Proof.
  unfold submit_quiz.
  destruct (negb (py_truthy payload));
    [left; eexists; split; [reflexivity | discriminate] |].
  destruct (submit_fields payload) as [[regno answers] | e];
    [| left; eexists; split; [reflexivity | discriminate]].
  destruct (String.eqb regno "") eqn:Hregno;
    [left; eexists; split; [reflexivity | discriminate] |].
  unfold Participant_get.
  destruct (Participant_get_or_none db regno) as [p |] eqn:Hp;
    [| left; eexists; split; [reflexivity | discriminate]].
  destruct questions_file as [questions |];
    [| left; eexists; split; [reflexivity | discriminate]].
  destruct (py_iter answers) as [items | e];
    [| left; eexists; split; [reflexivity | discriminate]].
  cbn [obind].
  destruct (score_answers questions 0 items tally0) as [t | e] eqn:Hrun;
    [| left; eexists; split; [reflexivity | discriminate]].
  destruct (score_answers_objects _ _ _ _ _ Hrun) as [ds ->].
  right. exists questions, regno, p, ds, t.
  split; [reflexivity |].
  split; [unfold nonempty; rewrite Hregno; reflexivity |].
  split; [exact Hp |]. split; [exact Hrun |].
  unfold submission_writes.
  destruct (Result_get_or_create db p (correct t) (points_of t) (avg_time_of t))
    as [[r created] db1].
  cbn [Result.id]. rewrite to_insert_rows_spec. fold (rows_of_items (Result.id r) ds).
  destruct ds; reflexivity.
Qed.

(** X1. Whatever the state of the bank file and the request body, as long
    as the values the body asks to record ([qId], [selected] and [time_sec]
    of its items) are values the store can keep, [submit_quiz] either answers
    success or leaves the store exactly as it was: a 400 answer writes
    nothing, and a body that gets through the scoring loop cannot fail in
    the loop that builds the Answer rows.  (The handler opens no
    transaction: a value the store cannot bind fails the insert after the
    Result has been overwritten.)  In no case does it change the
    participants table. *)
Theorem submit_quiz_all_or_nothing (questions_file : option (list Question.t))
  (payload : json) (db : database) :
  storable_request payload ->
  (fst (submit_quiz questions_file payload db) = Return submit_ok
   \/ snd (submit_quiz questions_file payload db) = db)
  /\ participants (snd (submit_quiz questions_file payload db)) = participants db.
Proof.
  intros _.
  destruct (submit_quiz_cases questions_file payload db)
    as [(o & -> & _) | (questions & regno & p & items & t & _ & _ & _ & _ & ->)].
  - split; [right |]; reflexivity.
  - split; [left; reflexivity |]. cbn [snd]. unfold submission_writes.
    pose proof (Result_saved db p (correct t) (points_of t) (avg_time_of t)) as Hs.
    destruct (Result_get_or_create db p (correct t) (points_of t) (avg_time_of t))
      as [[r created] db1].
    destruct Hs as (_ & _ & Hps & _ & _).
    destruct (Answer_insert_many_spec
                (rows_of_items
                   (Result.id (Result.mk (Result.id r) (Result.participant r) (correct t)
                                 (points_of t) (avg_time_of t))) items)
                (Answer_delete_where_result
                   (Result_save db1 (Result.mk (Result.id r) (Result.participant r)
                                       (correct t) (points_of t) (avg_time_of t)))
                   (Result.id (Result.mk (Result.id r) (Result.participant r) (correct t)
                                 (points_of t) (avg_time_of t)))))
      as (Hip & _).
    rewrite Hip. exact Hps.
Qed.

(** *** The integrity of the store is kept by every write *)

Lemma find_regno_none (l : list Participant.t) (regno : string) :
  find (fun p => String.eqb (Participant.regno p) regno) l = None ->
  ~ In regno (map Participant.regno l).
Proof.
  intros Hf Hin. apply in_map_iff in Hin. destruct Hin as (x & Hx & Hin).
  pose proof (find_none _ _ Hf x Hin) as Hne. simpl in Hne.
  rewrite Hx, String.eqb_refl in Hne. discriminate.
Qed.

Lemma find_regno_some (l : list Participant.t) (regno : string) (p : Participant.t) :
  find (fun x => String.eqb (Participant.regno x) regno) l = Some p ->
  In p l /\ Participant.regno p = regno.
Proof.
  intros Hf. apply find_some in Hf. destruct Hf as [Hin Heq].
  apply String.eqb_eq in Heq. auto.
Qed.

Lemma store_ok_empty : store_ok empty_db.
Proof.
  constructor; simpl; try constructor; intros ? [].
Qed.

Lemma Participant_create_ok (db : database) (name regno college dept : string) (year : Z) :
  store_ok db ->
  forall (p : Participant.t) (db1 : database),
    Participant_create db name regno college dept year = (Return p, db1) ->
    store_ok db1
    /\ db1 = mk_database (participants db ++ [p]) (results db) (answers db)
    /\ ~ In (Participant.id p) (map Participant.id (participants db))
    /\ p = Participant.mk (next_id (map Participant.id (participants db)))
             name regno college dept year.
Proof.
  intros Hok p db1. unfold Participant_create.
  destruct (Participant_get_or_none db regno) eqn:Hnone; [discriminate |].
  intros [= <- <-]. destruct Hok.
  split; [| split; [reflexivity | split; [apply next_id_fresh | reflexivity]]].
  constructor; cbn [participants results answers]; auto.
  - apply nodup_key_snoc; [assumption | apply next_id_fresh].
  - apply nodup_key_snoc; [assumption |]. apply find_regno_none. exact Hnone.
  - intros r Hr. rewrite map_app. apply in_or_app. left. auto.
Qed.

Lemma Result_get_or_create_ok (db : database) (p : Participant.t) (c pts : Z) (avg : Q) :
  store_ok db ->
  In (Participant.id p) (map Participant.id (participants db)) ->
  forall (r : Result.t) (created : bool) (db1 : database),
    Result_get_or_create db p c pts avg = ((r, created), db1) ->
    store_ok db1
    /\ In r (results db1)
    /\ Result.participant r = Participant.id p
    /\ participants db1 = participants db
    /\ answers db1 = answers db
    /\ (created = false -> db1 = db)
    /\ (created = true ->
        results db1 = (results db ++ [r])%list
        /\ r = Result.mk (next_id (map Result.id (results db))) (Participant.id p) c pts avg
        /\ Result_of_participant db (Participant.id p) = None).
Proof.
  intros Hok Hp r created db1. unfold Result_get_or_create.
  destruct (Result_of_participant db (Participant.id p)) as [r0 |] eqn:Hfind.
  - intros [= <- <- <-]. unfold Result_of_participant in Hfind.
    apply find_some in Hfind. destruct Hfind as [Hin Heq]. apply Z.eqb_eq in Heq.
    split; [exact Hok |]. split; [exact Hin |]. split; [exact Heq |].
    split; [reflexivity |]. split; [reflexivity |]. split; [reflexivity | discriminate].
  - intros [= <- <- <-]. destruct Hok.
    split; [| cbn [results participants answers Result.participant];
              split; [apply in_or_app; right; left; reflexivity |];
              split; [reflexivity |]; split; [reflexivity |]; split; [reflexivity |];
              split; [discriminate | auto]].
    constructor; cbn [participants results answers]; auto.
    + apply nodup_key_snoc; [assumption | apply next_id_fresh].
    + apply nodup_key_snoc; [assumption |]. cbn [Result.participant].
      apply find_key_none. exact Hfind.
    + intros r Hr. apply in_app_or in Hr. destruct Hr as [Hr | [<- | []]]; auto.
    + intros a Ha. rewrite map_app. apply in_or_app. left. auto.
Qed.

Lemma Result_save_ok (db : database) (r r' : Result.t) :
  store_ok db ->
  In r (results db) ->
  Result.id r' = Result.id r ->
  Result.participant r' = Result.participant r ->
  store_ok (Result_save db r')
  /\ map Result.id (results (Result_save db r')) = map Result.id (results db)
  /\ forall x, In x (results (Result_save db r')) ->
               x = r' \/ (In x (results db) /\ Result.id x <> Result.id r).
Proof.
  intros Hok Hin Hid Hpart.
  assert (Hids : map Result.id (results (Result_save db r')) = map Result.id (results db)).
  { unfold Result_save. cbn [results]. rewrite map_map. apply map_ext_in.
    intros x _. destruct (Result.id x =? Result.id r') eqn:Hx; [| reflexivity].
    apply Z.eqb_eq in Hx. auto. }
  assert (Hparts : map Result.participant (results (Result_save db r'))
                   = map Result.participant (results db)).
  { unfold Result_save. cbn [results]. rewrite map_map. apply map_ext_in.
    intros x Hx. destruct (Result.id x =? Result.id r') eqn:Hxe; [| reflexivity].
    apply Z.eqb_eq in Hxe. rewrite Hid in Hxe.
    rewrite (nodup_key_inj Result.id (results db) x r (ok_result_ids db Hok) Hx Hin Hxe).
    exact Hpart. }
  destruct Hok. split; [| split; [exact Hids |]].
  - constructor; auto.
    + rewrite Hids. assumption.
    + rewrite Hparts. assumption.
    + intros x Hx. unfold Result_save in Hx. cbn [results] in Hx.
      apply in_map_iff in Hx. destruct Hx as (y & Hy & Hyin).
      cbn [participants Result_save].
      destruct (Result.id y =? Result.id r'); subst x; auto.
      rewrite Hpart. auto.
    + intros a Ha. rewrite Hids. auto.
  - intros x Hx. unfold Result_save in Hx. cbn [results] in Hx.
    apply in_map_iff in Hx. destruct Hx as (y & Hy & Hyin).
    destruct (Result.id y =? Result.id r') eqn:Hye; subst x; [left; reflexivity |].
    right. split; [exact Hyin |]. apply Z.eqb_neq in Hye. congruence.
Qed.

Lemma Answer_delete_where_result_ok (db : database) (rid : Z) :
  store_ok db -> store_ok (Answer_delete_where_result db rid).
Proof.
  intros Hok. destruct Hok. constructor; cbn [participants results answers
    Answer_delete_where_result]; auto.
  - apply nodup_key_filter. assumption.
  - intros a Ha. apply filter_In in Ha. destruct Ha. auto.
Qed.

Lemma Answer_insert_many_ok (rows : list new_answer) :
  forall db : database,
    store_ok db ->
    (forall row, In row rows ->
                 In (fst (fst (fst row))) (map Result.id (results db))) ->
    store_ok (Answer_insert_many db rows).
Proof.
  induction rows as [| [[[rid qid] sel] tm] rows IH]; intros db Hok Hrows; [exact Hok |].
  cbn [Answer_insert_many]. apply IH.
  - destruct Hok. constructor; cbn [participants results answers]; auto.
    + apply nodup_key_snoc; [assumption | apply next_id_fresh].
    + intros a Ha. apply in_app_or in Ha. destruct Ha as [Ha | [<- | []]]; auto.
      cbn [Answer.result]. apply (Hrows (rid, qid, sel, tm)). left. reflexivity.
  - intros row Hrow. cbn [results]. apply Hrows. right. exact Hrow.
Qed.

Lemma submission_writes_ok (db : database) (p : Participant.t) (t : tally)
  (items : list dict) :
  store_ok db -> In p (participants db) -> store_ok (submission_writes db p t items).
Proof.
  intros Hok Hp. unfold submission_writes.
  destruct (Result_get_or_create db p (correct t) (points_of t) (avg_time_of t))
    as [[r created] db1] eqn:Hgoc.
  destruct (Result_get_or_create_ok db p _ _ _ Hok (in_map _ _ _ Hp) r created db1 Hgoc)
    as (Hok1 & Hin & Hpart & _).
  destruct (Result_save_ok db1 r
              (Result.mk (Result.id r) (Result.participant r) (correct t) (points_of t)
                 (avg_time_of t)) Hok1 Hin eq_refl eq_refl) as (Hok2 & Hids & _).
  apply Answer_insert_many_ok.
  - apply Answer_delete_where_result_ok. exact Hok2.
  - intros row Hrow. unfold rows_of_items in Hrow. apply in_map_iff in Hrow.
    destruct Hrow as (d & <- & _). cbn [fst Result.id].
    cbn [Answer_delete_where_result results]. rewrite Hids. apply in_map. exact Hin.
Qed.

Lemma Participant_delete_instance_ok (db : database) (p : Participant.t) :
  store_ok db -> store_ok (Participant_delete_instance db p).
Proof.
  intros Hok. destruct Hok. unfold Participant_delete_instance.
  constructor; cbn [participants results answers]; try (apply nodup_key_filter; assumption).
  - intros r Hr. apply filter_In in Hr. destruct Hr as [Hr Hne].
    pose proof (ok_result_owner0 r Hr) as Hown. apply in_map_iff in Hown.
    destruct Hown as (x & Hx & Hxin). rewrite <- Hx. apply in_map.
    apply filter_In. split; [exact Hxin |]. rewrite Hx. exact Hne.
  - intros a Ha. apply filter_In in Ha. destruct Ha as [Ha Hne].
    pose proof (ok_answer_owner0 a Ha) as Hown. apply in_map_iff in Hown.
    destruct Hown as (r & Hr & Hrin). rewrite <- Hr. apply in_map.
    apply filter_In. split; [exact Hrin |].
    destruct (Result.participant r =? Participant.id p) eqn:Hrp; [| reflexivity].
    exfalso. apply negb_true_iff in Hne.
    assert (Hex : existsb (Z.eqb (Answer.result a))
                    (map Result.id
                       (filter (fun r0 => Result.participant r0 =? Participant.id p)
                          (results db))) = true).
    { apply existsb_exists. exists (Result.id r). split.
      - apply in_map. apply filter_In. auto.
      - rewrite Hr. apply Z.eqb_refl. }
    congruence.
Qed.

(** One request, whatever it is, keeps the store sound. *)
Lemma step_store_ok (s : app_state) (rq : request) :
  store_ok (store s) -> store_ok (store (step s rq)).
Proof.
  intros Hok. destruct rq as [data | payload | data | payload]; cbn [step store].
  - unfold register.
    destruct (register_fields data) as [[[[[name regno] college] department] year_raw] | e];
      [| exact Hok].
    destruct (negb _); [exact Hok |].
    destruct (int_of_string year_raw) as [year |]; [| exact Hok].
    destruct (Participant_get_or_none (store s) regno) eqn:Hex; [exact Hok |].
    destruct (Participant_create (store s) name regno college department year)
      as [[p | e] db1] eqn:Hcreate.
    + destruct (Participant_create_ok _ _ _ _ _ _ Hok p db1 Hcreate) as (Hok1 & Hdb1 & _).
      destruct (Result_get_or_create db1 p 0 0 0%Q) as [[r created] db2] eqn:Hgoc.
      cbn [snd].
      refine (proj1 (Result_get_or_create_ok db1 p _ _ _ Hok1 _ r created db2 Hgoc)).
      rewrite Hdb1. cbn [participants]. rewrite map_app. apply in_or_app. right. left.
      reflexivity.
    + unfold Participant_create in Hcreate. rewrite Hex in Hcreate. discriminate.
  - destruct (submit_quiz_cases (bank_file s) payload (store s))
      as [(o & -> & _) | (questions & regno & p & items & t & _ & _ & Hp & _ & ->)];
      [exact Hok |].
    cbn [snd]. apply submission_writes_ok; [exact Hok |].
    unfold Participant_get_or_none in Hp. apply find_regno_some in Hp. tauto.
  - exact Hok.
  - unfold admin_api_delete_participant.
    destruct (delete_fields payload) as [regno | e]; [| exact Hok].
    destruct (negb (nonempty regno)); [exact Hok |].
    destruct (Participant_get_or_none (store s) regno); [| exact Hok].
    cbn [snd]. apply Participant_delete_instance_ok. exact Hok.
Qed.

(** X2. The store stays sound under every request: primary keys are unique,
    a regno names at most one participant, a participant has at most one
    Result, and every Result and Answer belongs to an existing row.  This
    holds after any sequence of registrations, submissions, question
    additions and participant deletions, with any request bodies, from a
    sound store, and so from the empty one. *)
Theorem store_ok_preserved (s : app_state) (rqs : list request) :
  store_ok (store s) ->
  store_ok (store (run s rqs))
  /\ store_ok (store (run (mk_app empty_db (bank_file s)) rqs)).
Proof.
  assert (Hrun : forall rqs s, store_ok (store s) -> store_ok (store (run s rqs))).
  { clear. induction rqs as [| rq rqs IH]; intros s Hok; [exact Hok |].
    cbn [run fold_left]. apply (IH (step s rq)). apply step_store_ok. exact Hok. }
  intros Hok. split; [apply Hrun; exact Hok |].
  apply Hrun. exact store_ok_empty.
Qed.

(** *** What a graded submission changes, and what it leaves alone *)

Lemma find_app_none {A : Type} (P : A -> bool) (l l' : list A) :
  (forall x, In x l' -> P x = false) -> find P (l ++ l') = find P l.
Proof.
  intros Hl'. induction l as [| a l IH]; simpl.
  - destruct (find P l') eqn:Hf; [| reflexivity].
    apply find_some in Hf. destruct Hf as [Hin Hp]. rewrite (Hl' _ Hin) in Hp. discriminate.
  - destruct (P a); auto.
Qed.

Lemma find_map_same {A : Type} (P : A -> bool) (f : A -> A) (l : list A) :
  (forall x, In x l -> P (f x) = false /\ P x = false \/ f x = x) ->
  find P (map f l) = find P l.
Proof.
  induction l as [| a l IH]; intros Hf; [reflexivity |].
  simpl. destruct (Hf a (or_introl eq_refl)) as [[Hfa Ha] | Hfa].
  - rewrite Hfa, Ha. apply IH. intros x Hx. apply Hf. right. exact Hx.
  - rewrite Hfa. destruct (P a); [reflexivity |].
    apply IH. intros x Hx. apply Hf. right. exact Hx.
Qed.

Lemma filter_result_other (rid rid' : Z) (l : list Answer.t) :
  rid' <> rid ->
  filter (fun a => Answer.result a =? rid')
         (filter (fun a => negb (Answer.result a =? rid)) l)
  = filter (fun a => Answer.result a =? rid') l.
Proof.
  intros Hne. induction l as [| a l IH]; simpl; [reflexivity |].
  destruct (Answer.result a =? rid) eqn:Ha; simpl.
  - apply Z.eqb_eq in Ha. assert (Hb : (Answer.result a =? rid') = false)
      by (apply Z.eqb_neq; congruence). rewrite Hb. exact IH.
  - rewrite IH. reflexivity.
Qed.

Lemma filter_result_none (rid' : Z) (added : list Answer.t) (rid : Z)
  (rows : list new_answer) :
  rid' <> rid ->
  map (fun a => (Answer.result a, Answer.question_id a, Answer.answer a,
                 Answer.time_taken a)) added = rows ->
  (forall row, In row rows -> fst (fst (fst row)) = rid) ->
  filter (fun a => Answer.result a =? rid') added = [].
Proof.
  intros Hne <- Hrows. induction added as [| a added IH]; [reflexivity |].
  simpl. assert (Ha : Answer.result a = rid).
  { apply (Hrows (Answer.result a, Answer.question_id a, Answer.answer a,
                  Answer.time_taken a)). left. reflexivity. }
  assert (Hb : (Answer.result a =? rid') = false) by (apply Z.eqb_neq; congruence).
  rewrite Hb. apply IH. intros row Hrow. apply Hrows. right. exact Hrow.
Qed.

(** In a sound store a graded submission leaves every other participant's
    Result row and Answer rows untouched. *)
Lemma submission_writes_frame (db : database) (p : Participant.t) (t : tally)
  (items : list dict) :
  store_ok db ->
  In p (participants db) ->
  forall q : Z,
    q <> Participant.id p ->
    Result_of_participant (submission_writes db p t items) q = Result_of_participant db q
    /\ forall r : Result.t,
         Result_of_participant db q = Some r ->
         Answers_of_result (submission_writes db p t items) (Result.id r)
         = Answers_of_result db (Result.id r).
Proof.
  intros Hok Hp q Hq. unfold submission_writes.
  destruct (Result_get_or_create db p (correct t) (points_of t) (avg_time_of t))
    as [[r0 created] db1] eqn:Hgoc.
  destruct (Result_get_or_create_ok db p _ _ _ Hok (in_map _ _ _ Hp) r0 created db1 Hgoc)
    as (Hok1 & Hin0 & Hpart0 & Hps1 & Has1 & Hold & Hnew).
  set (r' := Result.mk (Result.id r0) (Result.participant r0) (correct t) (points_of t)
               (avg_time_of t)).
  set (rows := rows_of_items (Result.id r') items).
  set (db3 := Answer_delete_where_result (Result_save db1 r') (Result.id r')).
  destruct (Answer_insert_many_spec rows db3) as (_ & Hir & added & Hia & Him).
  assert (Hfind1 : Result_of_participant db1 q = Result_of_participant db q).
  { destruct created.
    - destruct (Hnew eq_refl) as (Hres & _ & _).
      unfold Result_of_participant. rewrite Hres. apply find_app_none.
      intros x [<- | []]. apply Z.eqb_neq. congruence.
    - rewrite (Hold eq_refl). reflexivity. }
  assert (Hfind : Result_of_participant (Answer_insert_many db3 rows) q
                  = Result_of_participant db q).
  { rewrite <- Hfind1. unfold Result_of_participant. rewrite Hir.
    unfold db3, Answer_delete_where_result, Result_save. cbn [results].
    apply find_map_same. intros x Hx.
    destruct (Result.id x =? Result.id r') eqn:Hxe; [left | right; reflexivity].
    apply Z.eqb_eq in Hxe. cbn [Result.id r'] in Hxe.
    rewrite (nodup_key_inj Result.id (results db1) x r0 (ok_result_ids db1 Hok1) Hx Hin0 Hxe).
    cbn [r' Result.participant]. rewrite Hpart0.
    split; apply Z.eqb_neq; congruence. }
  split; [exact Hfind |].
  intros r Hr. unfold Answers_of_result. rewrite Hia, filter_app.
  assert (Hne : Result.id r <> Result.id r').
  { cbn [r' Result.id]. intros Heq.
    unfold Result_of_participant in Hr, Hfind1. rewrite <- Hfind1 in Hr.
    apply find_some in Hr. destruct Hr as [Hrin Hrq]. apply Z.eqb_eq in Hrq.
    rewrite (nodup_key_inj Result.id (results db1) r r0 (ok_result_ids db1 Hok1) Hrin Hin0 Heq)
      in Hrq. congruence. }
  rewrite (filter_result_none (Result.id r) added (Result.id r') rows Hne Him).
  - rewrite app_nil_r. unfold db3, Answer_delete_where_result, Result_save.
    cbn [answers]. rewrite Has1. apply filter_result_other. exact Hne.
  - intros row Hrow. unfold rows, rows_of_items in Hrow. apply in_map_iff in Hrow.
    destruct Hrow as (d & <- & _). reflexivity.
Qed.

(** A submission by a registered participant is a graded submission. *)
Lemma submit_quiz_registered (db : database) (questions : list Question.t)
  (name regno : string) (items : list dict) (p : Participant.t) :
  registered db regno p ->
  exists t : tally,
    score_answers questions 0 (map JDict items) tally0 = Return t
    /\ correct t = Z.of_nat (correct_count questions items)
    /\ points_of t = Z.of_nat (correct_count questions items) * 2
    /\ avg_time_of t = mean (counted_times questions items)
    /\ submit_quiz (Some questions) (submit_payload name regno items) db
       = (Return submit_ok, submission_writes db p t items).
Proof.
  intros [Hne Hp].
  destruct (grade_spec questions items) as (t & Ht & Hc & Hpts & Havg).
  exists t. split; [exact Ht |]. split; [exact Hc |]. split; [exact Hpts |].
  split; [exact Havg |].
  unfold submit_quiz, submit_payload, submit_fields. read_fields.
  unfold nonempty in Hne. apply negb_true_iff in Hne. rewrite Hne.
  unfold Participant_get. rewrite Hp. cbn [py_iter obind]. rewrite Ht.
  unfold submission_writes.
  destruct (Result_get_or_create db p (correct t) (points_of t) (avg_time_of t))
    as [[r created] db1].
  cbn [Result.id]. rewrite to_insert_rows_spec. fold (rows_of_items (Result.id r) items).
  destruct items; reflexivity.
Qed.

Lemma registered_in (db : database) (regno : string) (p : Participant.t) :
  registered db regno p -> In p (participants db) /\ Participant.regno p = strip regno.
Proof.
  intros [_ Hp]. unfold Participant_get_or_none in Hp. apply find_regno_some in Hp. exact Hp.
Qed.

(** X3. In a sound store, a submission by one registered participant leaves
    every other participant's Result (present or absent) and the Answer rows
    of that Result exactly as they were. *)
Theorem submit_quiz_other_participants_untouched (db : database)
  (questions : list Question.t) (name regno : string) (items : list dict)
  (p : Participant.t) :
  store_ok db ->
  registered db regno p ->
  forall q : Z,
    q <> Participant.id p ->
    Result_of_participant
      (snd (submit_quiz (Some questions) (submit_payload name regno items) db)) q
    = Result_of_participant db q
    /\ forall r : Result.t,
         Result_of_participant db q = Some r ->
         Answers_of_result
           (snd (submit_quiz (Some questions) (submit_payload name regno items) db))
           (Result.id r)
         = Answers_of_result db (Result.id r).
Proof.
  intros Hok Hreg q Hq.
  destruct (submit_quiz_registered db questions name regno items p Hreg)
    as (t & _ & _ & _ & _ & ->).
  cbn [snd]. apply submission_writes_frame; auto.
  apply (registered_in db regno p Hreg).
Qed.

(** *** Resubmission, skipped items and the range of the aggregates *)








Lemma round_half_even_nonneg (q : Q) : (0 <= q)%Q -> 0 <= round_half_even q.
Proof.
  destruct q as [n d]. unfold Qle, round_half_even. cbn [Qnum Qden]. intros Hn.
  assert (H0 : 0 <= n / Z.pos d) by (apply Z.div_pos; lia).
  destruct (2 * (n mod Z.pos d) ?= Z.pos d); [destruct (Z.even (n / Z.pos d)) | |]; lia.
Qed.

Lemma round64_nonneg (q : Q) : (0 <= q)%Q -> (0 <= round64 q)%Q.
Proof.
  intros Hq. unfold round64. destruct (Qeq_bool q 0); [apply Qle_refl |].
  rewrite Qred_correct.
  assert (Hu : (0 < 2 ^ ulp_exponent q)%Q) by (apply Qpower_0_lt; reflexivity).
  apply Qmult_le_0_compat; [| apply Qlt_le_weak; exact Hu].
  rewrite <- (Zle_Qle 0). apply round_half_even_nonneg.
  apply Qmult_le_0_compat; [exact Hq |]. apply Qinv_le_0_compat, Qlt_le_weak, Hu.
Qed.

Lemma float_nonneg (a : number) : (0 <= value a)%Q -> (0 <= float a)%Q.
Proof.
  destruct a as [z | x]; cbn [value float]; [apply round64_nonneg | auto].
Qed.

Lemma py_add_nonneg (a b : number) :
  (0 <= value a)%Q -> (0 <= value b)%Q -> (0 <= value (py_add a b))%Q.
Proof.
  intros Ha Hb.
  assert (Hf : (0 <= round64 (float a + float b))%Q).
  { apply round64_nonneg. pose proof (float_nonneg a Ha). pose proof (float_nonneg b Hb).
    lra. }
  destruct a as [x | x], b as [y | y]; cbn [py_add value]; try exact Hf.
  cbn [value] in Ha, Hb. rewrite <- (Zle_Qle 0) in *. lia.
Qed.

Lemma fold_left_py_add_nonneg (xs : list number) :
  (forall x, In x xs -> (0 <= value x)%Q) ->
  forall acc : number, (0 <= value acc)%Q -> (0 <= value (fold_left py_add xs acc))%Q.
Proof.
  induction xs as [| x xs IH]; intros Hall acc Hacc; [exact Hacc |].
  cbn [fold_left]. apply IH.
  - intros y Hy. apply Hall. right. exact Hy.
  - apply py_add_nonneg; [exact Hacc | apply Hall; left; reflexivity].
Qed.

Lemma py_truediv_nonneg (a : number) (n : Z) :
  (0 <= value a)%Q -> 0 < n -> (0 <= py_truediv a (NInt n))%Q.
Proof.
  intros Ha Hn.
  assert (Hpos : (0 <= / inject_Z n)%Q).
  { apply Qinv_le_0_compat. rewrite <- (Zle_Qle 0). lia. }
  destruct a as [x | x]; cbn [py_truediv float value] in *; apply round64_nonneg.
  - apply Qmult_le_0_compat; assumption.
  - apply Qmult_le_0_compat; [exact Ha |]. apply Qinv_le_0_compat.
    apply round64_nonneg. rewrite <- (Zle_Qle 0). lia.
Qed.

Lemma mean_nonneg (xs : list number) :
  (forall x, In x xs -> (0 <= value x)%Q) -> (0 <= mean xs)%Q.
Proof.
  intros Hall. unfold mean. destruct xs as [| x xs]; [apply Qle_refl |].
  apply py_truediv_nonneg; [| cbn [List.length]; lia].
  unfold total. apply fold_left_py_add_nonneg; [exact Hall | apply Qle_refl].
Qed.

(** X7. The stored aggregates stay in range: [correct] is between 0 and the
    number of submitted items, [points] is twice [correct], and [avg_time]
    is 0 when no scored item carries a numeric time and is not negative
    unless a scored item carries a negative time (rounding to binary64
    never turns a sum or a quotient of non-negative numbers negative). *)
Theorem stored_aggregates_in_range (db : database) (questions : list Question.t)
  (name regno : string) (items : list dict) (p : Participant.t) :
  registered db regno p ->
  Forall storable_item items ->
  exists (db' : database) (r : Result.t),
    submit_quiz (Some questions) (submit_payload name regno items) db = (Return submit_ok, db')
    /\ Result_of_participant db' (Participant.id p) = Some r
    /\ 0 <= Result.correct r <= Z.of_nat (List.length items)
    /\ Result.points r = 2 * Result.correct r
    /\ (counted_times questions items = [] -> Result.avg_time r = 0%Q)
    /\ ((forall x, In x (counted_times questions items) -> (0 <= value x)%Q) ->
        (0 <= Result.avg_time r)%Q).
Proof.
  intros Hreg _.
  destruct (submit_quiz_spec db questions name regno items p Hreg)
    as (db' & rid & Hrun & _ & Hres & _ & _).
  eexists db', _. split; [exact Hrun |]. split; [exact Hres |].
  cbn [Result.correct Result.points Result.avg_time].
  assert (Hle : (correct_count questions items <= List.length items)%nat).
  { unfold correct_count, correct_count_from.
    etransitivity; [apply filter_length_le |].
    clear. generalize 0%nat. induction items as [| d items IH]; intros i; [apply le_n |].
    cbn [enumerate_from List.length]. apply le_n_S. apply IH. }
  split; [lia |]. split; [lia |]. split.
  - intros ->. reflexivity.
  - apply mean_nonneg.
Qed.

(** *** Registration *)

Section Strip.

Variable space : ascii -> bool.

Lemma lstrip_head (s : string) :
  match lstrip space s with
  | EmptyString => True
  | String c _ => space c = false
  end.
Proof.
  induction s as [| c s IH]; [exact I |].
  cbn [lstrip]. destruct (space c) eqn:Hc; [exact IH | exact Hc].
Qed.

Lemma lstrip_fixed (s : string) :
  match s with
  | EmptyString => True
  | String c _ => space c = false
  end ->
  lstrip space s = s.
Proof.
  destruct s as [| c s]; [reflexivity |]. cbn [lstrip]. intros ->. reflexivity.
Qed.

Lemma rstrip_head (s : string) :
  match s with
  | EmptyString => True
  | String c _ => space c = false
  end ->
  match rstrip space s with
  | EmptyString => True
  | String c _ => space c = false
  end.
Proof.
  destruct s as [| c s]; [intros _; exact I |].
  intros Hc. cbn [rstrip]. destruct (rstrip space s); [rewrite Hc |]; exact Hc.
Qed.

Lemma rstrip_idempotent (s : string) : rstrip space (rstrip space s) = rstrip space s.
Proof.
  induction s as [| c s IH]; [reflexivity |].
  cbn [rstrip]. destruct (rstrip space s) as [| c' r] eqn:Hr.
  - destruct (space c) eqn:Hc; [reflexivity |]. cbn [rstrip]. rewrite Hc. reflexivity.
  - cbn [rstrip]. cbn [rstrip] in IH. rewrite IH. reflexivity.
Qed.

End Strip.

(** Trimming a trimmed text changes nothing. *)
Lemma strip_idempotent (s : string) : strip (strip s) = strip s.
Proof.
  unfold strip.
  rewrite (lstrip_fixed is_space (rstrip is_space (lstrip is_space s))).
  - apply rstrip_idempotent.
  - apply rstrip_head. apply lstrip_head.
Qed.

Lemma register_existing (db : database) (name regno college department : string)
  (year : json) (y : Z) (p : Participant.t) :
  nonempty (strip name) = true ->
  nonempty (strip regno) = true ->
  nonempty (strip college) = true ->
  nonempty (strip department) = true ->
  int_of_string (strip (py_str year)) = Some y ->
  Participant_get_or_none db (strip regno) = Some p ->
  register (register_request name regno college department year) db = (conflict, db).
Proof.
  intros Hn Hr Hc Hd Hy Hex.
  unfold register, register_request, register_fields. read_fields.
  rewrite Hn, Hr, Hc, Hd, (int_of_string_nonempty _ _ Hy). cbn [andb negb].
  rewrite Hy, Hex. reflexivity.
Qed.

(** The store a first registration leaves. *)
Lemma register_new (db : database) (name regno college department : string)
  (year : json) (y : Z) :
  store_ok db ->
  nonempty (strip name) = true ->
  nonempty (strip regno) = true ->
  nonempty (strip college) = true ->
  nonempty (strip department) = true ->
  int_of_string (strip (py_str year)) = Some y ->
  Participant_get_or_none db (strip regno) = None ->
  let p := Participant.mk (next_id (map Participant.id (participants db)))
             (strip name) (strip regno) (strip college) (strip department) y in
  register (register_request name regno college department year) db
  = ((jsonify [("success", JBool true); ("message", JStr "Registration successful");
               ("name", JStr (strip name)); ("regno", JStr (strip regno))], 200),
     mk_database (participants db ++ [p])
       (results db ++ [Result.mk (next_id (map Result.id (results db))) (Participant.id p)
                         0 0 0])
       (answers db)).
Proof.
  intros Hok Hn Hr Hc Hd Hy Hnone p.
  unfold register, register_request, register_fields. read_fields.
  rewrite Hn, Hr, Hc, Hd, (int_of_string_nonempty _ _ Hy). cbn [andb negb].
  rewrite Hy, Hnone. unfold Participant_create. rewrite Hnone. fold p.
  unfold Result_get_or_create.
  assert (Hfresh : Result_of_participant
                     (mk_database (participants db ++ [p]) (results db) (answers db))
                     (Participant.id p) = None).
  { unfold Result_of_participant. cbn [results].
    destruct (find _ (results db)) as [r |] eqn:Hf; [| reflexivity].
    exfalso. apply find_some in Hf. destruct Hf as [Hin Heq]. apply Z.eqb_eq in Heq.
    pose proof (ok_result_owner db Hok r Hin) as Hown. rewrite Heq in Hown.
    exact (next_id_fresh _ Hown). }
  rewrite Hfresh. reflexivity.
Qed.

Lemma find_app_skip {A : Type} (P : A -> bool) (l l' : list A) :
  (forall x, In x l -> P x = false) -> find P (l ++ l') = find P l'.
Proof.
  induction l as [| a l IH]; intros Hl; [reflexivity |].
  simpl. rewrite (Hl a (or_introl eq_refl)). apply IH.
  intros x Hx. apply Hl. right. exact Hx.
Qed.

Lemma find_regno_snoc (l : list Participant.t) (p : Participant.t) :
  find (fun x => String.eqb (Participant.regno x) (Participant.regno p)) l = None ->
  find (fun x => String.eqb (Participant.regno x) (Participant.regno p)) (l ++ [p]) = Some p.
Proof.
  intros Hnone. induction l as [| a l IH]; simpl in *.
  - rewrite String.eqb_refl. reflexivity.
  - destruct (String.eqb (Participant.regno a) (Participant.regno p)); [discriminate |].
    apply IH. exact Hnone.
Qed.

(** X8. In a sound store, a well-formed registration under a regno not yet
    taken is answered 200 with the trimmed name and regno; it appends one
    participant holding the trimmed fields and the parsed year and one Result
    row with correct = 0, points = 0, avg_time = 0, and changes nothing
    else.  The participant is then registered under the regno as sent and
    under the regno as returned. *)
Theorem register_creates_participant_and_result (db : database)
  (name regno college department : string) (year : json) (y : Z) :
  store_ok db ->
  nonempty (strip name) = true ->
  nonempty (strip regno) = true ->
  nonempty (strip college) = true ->
  nonempty (strip department) = true ->
  int_of_string (strip (py_str year)) = Some y ->
  Participant_get_or_none db (strip regno) = None ->
  exists (p : Participant.t) (r : Result.t) (db' : database),
    register (register_request name regno college department year) db
    = ((jsonify [("success", JBool true); ("message", JStr "Registration successful");
                 ("name", JStr (strip name)); ("regno", JStr (strip regno))], 200), db')
    /\ p = Participant.mk (Participant.id p) (strip name) (strip regno) (strip college)
             (strip department) y
    /\ r = Result.mk (Result.id r) (Participant.id p) 0 0 0
    /\ participants db' = (participants db ++ [p])%list
    /\ results db' = (results db ++ [r])%list
    /\ answers db' = answers db
    /\ Result_of_participant db' (Participant.id p) = Some r
    /\ registered db' regno p
    /\ registered db' (Participant.regno p) p.
Proof.
  intros Hok Hn Hr Hc Hd Hy Hnone.
  pose proof (register_new db name regno college department year y Hok Hn Hr Hc Hd Hy Hnone)
    as Hrun. cbv zeta in Hrun.
  set (p := Participant.mk (next_id (map Participant.id (participants db)))
              (strip name) (strip regno) (strip college) (strip department) y) in *.
  set (r := Result.mk (next_id (map Result.id (results db))) (Participant.id p) 0 0 0) in *.
  exists p, r. eexists. split; [exact Hrun |].
  cbn [participants results answers].
  assert (Hlookup : Participant_get_or_none
                      (mk_database (participants db ++ [p]) (results db ++ [r]) (answers db))
                      (strip regno) = Some p).
  { unfold Participant_get_or_none. cbn [participants].
    apply (find_regno_snoc (participants db) p). exact Hnone. }
  repeat split; auto.
  - unfold Result_of_participant. cbn [results].
    rewrite find_app_skip; [cbn; rewrite Z.eqb_refl; reflexivity |].
    intros x Hx. apply Z.eqb_neq. intros Heq.
    pose proof (ok_result_owner db Hok x Hx) as Hown. rewrite Heq in Hown.
    exact (next_id_fresh _ Hown).
  - cbn [Participant.regno p]. rewrite strip_idempotent. exact Hr.
  - cbn [Participant.regno p]. rewrite strip_idempotent. exact Hlookup.
Qed.

(** X9. [register] always answers, with status 200, 400, 409 or 500, and
    whenever the status is not 200 the store is exactly as it was; with
    status 200 it has appended exactly one participant. *)
Theorem register_all_or_nothing (data : json) (db : database) :
  (snd (fst (register data db)) = 200
   /\ exists p : Participant.t,
        participants (snd (register data db)) = (participants db ++ [p])%list)
  \/ ((snd (fst (register data db)) = 400
       \/ snd (fst (register data db)) = 409
       \/ snd (fst (register data db)) = 500)
      /\ snd (register data db) = db).
Proof.
  unfold register.
  destruct (register_fields data) as [[[[[name regno] college] department] year_raw] | e];
    [| right; split; [right; right |]; reflexivity].
  destruct (negb _); [right; split; [left |]; reflexivity |].
  destruct (int_of_string year_raw) as [year |]; [| right; split; [left |]; reflexivity].
  destruct (Participant_get_or_none db regno) eqn:Hex;
    [right; split; [right; left |]; reflexivity |].
  unfold Participant_create. rewrite Hex.
  unfold Result_get_or_create. cbn [participants].
  left. destruct (Result_of_participant _ _); split; try reflexivity; eexists; reflexivity.
Qed.

(** A first registration, as the following requests see it. *)
Lemma register_new_registered (db : database) (name regno college department : string)
  (year : json) (y : Z) :
  store_ok db ->
  nonempty (strip name) = true ->
  nonempty (strip regno) = true ->
  nonempty (strip college) = true ->
  nonempty (strip department) = true ->
  int_of_string (strip (py_str year)) = Some y ->
  Participant_get_or_none db (strip regno) = None ->
  exists (p : Participant.t) (db1 : database),
    register (register_request name regno college department year) db
    = ((jsonify [("success", JBool true); ("message", JStr "Registration successful");
                 ("name", JStr (strip name)); ("regno", JStr (strip regno))], 200), db1)
    /\ store_ok db1
    /\ Participant.regno p = strip regno
    /\ registered db1 regno p
    /\ List.length (results db1) = S (List.length (results db))
    /\ Result_of_participant db1 (Participant.id p)
       = Some (Result.mk (next_id (map Result.id (results db))) (Participant.id p) 0 0 0).
Proof.
  intros Hok Hn Hr Hc Hd Hy Hnone.
  pose proof (register_new db name regno college department year y Hok Hn Hr Hc Hd Hy Hnone)
    as Hrun. cbv zeta in Hrun.
  set (p := Participant.mk (next_id (map Participant.id (participants db)))
              (strip name) (strip regno) (strip college) (strip department) y) in *.
  exists p. eexists. split; [exact Hrun |].
  split.
  { pose proof (step_store_ok (mk_app db None)
                  (Register (register_request name regno college department year)) Hok)
      as Hstep. cbn [step store] in Hstep. rewrite Hrun in Hstep. exact Hstep. }
  split; [reflexivity |].
  split.
  { split; [exact Hr |]. unfold Participant_get_or_none. cbn [participants].
    apply (find_regno_snoc (participants db) p). exact Hnone. }
  split; [cbn [results]; rewrite length_app; cbn [List.length]; lia |].
  unfold Result_of_participant. cbn [results].
  rewrite find_app_skip; [cbn; rewrite Z.eqb_refl; reflexivity |].
  intros x Hx. apply Z.eqb_neq. intros Heq.
  pose proof (ok_result_owner db Hok x Hx) as Hown. rewrite Heq in Hown.
  exact (next_id_fresh _ Hown).
Qed.

(** X10. One success, then a conflict: in a sound store, when a well-formed
    registration under a new regno has been accepted, sending the same
    request again is answered 409 and leaves the store as the first
    registration left it. *)
Theorem register_twice_conflicts (db : database) (name regno college department : string)
  (year : json) (y : Z) :
  store_ok db ->
  nonempty (strip name) = true ->
  nonempty (strip regno) = true ->
  nonempty (strip college) = true ->
  nonempty (strip department) = true ->
  int_of_string (strip (py_str year)) = Some y ->
  Participant_get_or_none db (strip regno) = None ->
  exists db1 : database,
    snd (fst (register (register_request name regno college department year) db)) = 200
    /\ snd (register (register_request name regno college department year) db) = db1
    /\ register (register_request name regno college department year) db1
       = ((failure "Registration already exists for this regno", 409), db1).
Proof.
  intros Hok Hn Hr Hc Hd Hy Hnone.
  destruct (register_new_registered db name regno college department year y
              Hok Hn Hr Hc Hd Hy Hnone) as (p & db1 & Hrun & _ & _ & [_ Hlookup] & _).
  exists db1. rewrite Hrun. split; [reflexivity |]. split; [reflexivity |].
  apply (register_existing db1 name regno college department year y p); assumption.
Qed.


(** *** Deleting a participant *)

Lemma find_filter_keep {A : Type} (P f : A -> bool) (l : list A) :
  (forall x, In x l -> P x = true -> f x = true) -> find P (filter f l) = find P l.
Proof.
  induction l as [| a l IH]; intros Hl; [reflexivity |].
  simpl. destruct (f a) eqn:Hfa; simpl.
  - destruct (P a); [reflexivity |]. apply IH. intros x Hx. apply Hl. right. exact Hx.
  - destruct (P a) eqn:Hpa.
    + rewrite (Hl a (or_introl eq_refl) Hpa) in Hfa. discriminate.
    + apply IH. intros x Hx. apply Hl. right. exact Hx.
Qed.

Lemma find_filter_drop {A : Type} (P f : A -> bool) (l : list A) :
  (forall x, In x l -> P x = true -> f x = false) -> find P (filter f l) = None.
Proof.
  intros Hl. destruct (find P (filter f l)) as [x |] eqn:Hf; [| reflexivity].
  apply find_some in Hf. destruct Hf as [Hin Hp]. apply filter_In in Hin.
  destruct Hin as [Hin Hfx]. rewrite (Hl x Hin Hp) in Hfx. discriminate.
Qed.

Lemma filter_all {A : Type} (f : A -> bool) (l : list A) :
  (forall x, In x l -> f x = true) -> filter f l = l.
Proof.
  induction l as [| a l IH]; intros Hl; [reflexivity |].
  simpl. rewrite (Hl a (or_introl eq_refl)). f_equal. apply IH.
  intros x Hx. apply Hl. right. exact Hx.
Qed.

Lemma filter_same {A : Type} (f g : A -> bool) (l : list A) :
  (forall x, In x l -> f x = g x) -> filter f l = filter g l.
Proof.
  induction l as [| a l IH]; intros Hl; [reflexivity |].
  simpl. rewrite (Hl a (or_introl eq_refl)), IH; [reflexivity |].
  intros x Hx. apply Hl. right. exact Hx.
Qed.

Lemma filter_filter_keep {A : Type} (P f : A -> bool) (l : list A) :
  (forall x, In x l -> P x = true -> f x = true) -> filter P (filter f l) = filter P l.
Proof.
  induction l as [| a l IH]; intros Hl; [reflexivity |].
  assert (IH' : filter P (filter f l) = filter P l)
    by (apply IH; intros x Hx; apply Hl; right; exact Hx).
  simpl. destruct (f a) eqn:Hfa; simpl.
  - rewrite IH'. reflexivity.
  - destruct (P a) eqn:Hpa; [| exact IH'].
    rewrite (Hl a (or_introl eq_refl) Hpa) in Hfa. discriminate.
Qed.

Lemma filter_filter_drop {A : Type} (P f : A -> bool) (l : list A) :
  (forall x, In x l -> P x = true -> f x = false) -> filter P (filter f l) = [].
Proof.
  induction l as [| a l IH]; intros Hl; [reflexivity |].
  assert (IH' : filter P (filter f l) = [])
    by (apply IH; intros x Hx; apply Hl; right; exact Hx).
  simpl. destruct (f a) eqn:Hfa; simpl; [| exact IH'].
  destruct (P a) eqn:Hpa; [| exact IH'].
  rewrite (Hl a (or_introl eq_refl) Hpa) in Hfa. discriminate.
Qed.

(** In a sound store, the Results that go with participant [p] are the rows
    whose id is among the ids collected for the cascade. *)
Lemma cascade_ids (db : database) (p : Participant.t) (r : Result.t) :
  store_ok db ->
  In r (results db) ->
  existsb (Z.eqb (Result.id r))
    (map Result.id (filter (fun r0 => Result.participant r0 =? Participant.id p)
                      (results db)))
  = (Result.participant r =? Participant.id p).
Proof.
  intros Hok Hin. destruct (Result.participant r =? Participant.id p) eqn:Hrp.
  - apply existsb_exists. exists (Result.id r). split; [| apply Z.eqb_refl].
    apply in_map. apply filter_In. auto.
  - destruct (existsb _ _) eqn:Hex; [| reflexivity].
    apply existsb_exists in Hex. destruct Hex as (k & Hk & Hkeq).
    apply Z.eqb_eq in Hkeq. apply in_map_iff in Hk. destruct Hk as (r0 & Hr0 & Hr0in).
    apply filter_In in Hr0in. destruct Hr0in as [Hr0in Hr0p].
    assert (r = r0).
    { apply (nodup_key_inj Result.id (results db)); auto.
      - apply (ok_result_ids db Hok).
      - congruence. }
    subst r0. congruence.
Qed.

(** What deleting [p] leaves of a sound store. *)
Lemma Participant_delete_instance_spec (db : database) (p : Participant.t) :
  store_ok db ->
  In p (participants db) ->
  let db' := Participant_delete_instance db p in
  Participant_get_or_none db' (Participant.regno p) = None
  /\ Result_of_participant db' (Participant.id p) = None
  /\ (forall r, Result_of_participant db (Participant.id p) = Some r ->
                Answers_of_result db' (Result.id r) = [])
  /\ (forall regno, regno <> Participant.regno p ->
                    Participant_get_or_none db' regno = Participant_get_or_none db regno)
  /\ (forall q, q <> Participant.id p ->
                Result_of_participant db' q = Result_of_participant db q
                /\ forall r, Result_of_participant db q = Some r ->
                             Answers_of_result db' (Result.id r)
                             = Answers_of_result db (Result.id r)).
Proof.
  intros Hok Hp db'. unfold db', Participant_delete_instance.
  unfold Participant_get_or_none, Result_of_participant, Answers_of_result.
  cbn [participants results answers].
  split; [| split; [| split; [| split]]].
  - apply find_filter_drop. intros x Hx Hr. apply String.eqb_eq in Hr.
    rewrite (nodup_key_inj Participant.regno (participants db) x p
               (ok_regnos db Hok) Hx Hp Hr).
    rewrite Z.eqb_refl. reflexivity.
  - apply find_filter_drop. intros x Hx Hr. rewrite Hr. reflexivity.
  - intros r Hr. apply find_some in Hr. destruct Hr as [Hrin Hrp].
    apply filter_filter_drop. intros a _ Ha. apply Z.eqb_eq in Ha.
    rewrite Ha, (cascade_ids db p r Hok Hrin), Hrp. reflexivity.
  - intros regno Hne. apply find_filter_keep. intros x Hx Hr. apply String.eqb_eq in Hr.
    apply negb_true_iff. apply Z.eqb_neq. intros Hid.
    rewrite (nodup_key_inj Participant.id (participants db) x p
               (ok_participant_ids db Hok) Hx Hp Hid) in Hr. congruence.
  - intros q Hq. split.
    + apply find_filter_keep. intros x _ Hx. apply Z.eqb_eq in Hx.
      apply negb_true_iff. apply Z.eqb_neq. congruence.
    + intros r Hr. apply find_some in Hr. destruct Hr as [Hrin Hrq]. apply Z.eqb_eq in Hrq.
      apply filter_filter_keep. intros a _ Ha. apply Z.eqb_eq in Ha.
      rewrite Ha, (cascade_ids db p r Hok Hrin).
      apply negb_true_iff. apply Z.eqb_neq. congruence.
Qed.

Lemma delete_request_found (db : database) (regno : string) (p : Participant.t) :
  registered db regno p ->
  admin_api_delete_participant (delete_request regno) db
  = (Return (jsonify [("success", JBool true);
                      ("message", JStr ("Deleted " ++ strip regno))], 200),
     Participant_delete_instance db p).
Proof.
  intros [Hne Hp]. unfold admin_api_delete_participant, delete_request, delete_fields.
  destruct regno as [| c s]; [discriminate Hne |].
  unfold py_or. read_fields. rewrite Hne, Hp. reflexivity.
Qed.

Lemma delete_request_not_found (db : database) (regno : string) :
  nonempty (strip regno) = true ->
  Participant_get_or_none db (strip regno) = None ->
  admin_api_delete_participant (delete_request regno) db
  = (Return (failure "Participant not found", 404), db).
Proof.
  intros Hne Hp. unfold admin_api_delete_participant, delete_request, delete_fields.
  destruct regno as [| c s]; [discriminate Hne |].
  unfold py_or. read_fields. rewrite Hne, Hp. reflexivity.
Qed.

(** X12. In a sound store, deleting a registered participant is answered
    200 and removes the participant, the participant's Result and every
    Answer row of that Result, while every other participant's record,
    Result and Answer rows stay as they were; asking for the same deletion
    again is answered 404 and changes nothing. *)
Theorem delete_participant_cascades (db : database) (regno : string) (p : Participant.t) :
  store_ok db ->
  registered db regno p ->
  exists db' : database,
    admin_api_delete_participant (delete_request regno) db
    = (Return (jsonify [("success", JBool true);
                        ("message", JStr ("Deleted " ++ strip regno))], 200), db')
    /\ Participant_get_or_none db' (strip regno) = None
    /\ Result_of_participant db' (Participant.id p) = None
    /\ (forall r, Result_of_participant db (Participant.id p) = Some r ->
                  Answers_of_result db' (Result.id r) = [])
    /\ (forall other, other <> strip regno ->
                      Participant_get_or_none db' other = Participant_get_or_none db other)
    /\ (forall q, q <> Participant.id p ->
                  Result_of_participant db' q = Result_of_participant db q
                  /\ forall r, Result_of_participant db q = Some r ->
                               Answers_of_result db' (Result.id r)
                               = Answers_of_result db (Result.id r))
    /\ admin_api_delete_participant (delete_request regno) db'
       = (Return (failure "Participant not found", 404), db').
Proof.
  intros Hok Hreg. destruct (registered_in db regno p Hreg) as [Hin Hregno].
  exists (Participant_delete_instance db p).
  split; [apply delete_request_found; exact Hreg |].
  destruct (Participant_delete_instance_spec db p Hok Hin)
    as (Hgone & Hres & Hans & Hothers & Hframe).
  rewrite Hregno in Hgone, Hothers.
  repeat split; auto; try (apply Hframe; assumption).
  apply delete_request_not_found; [apply Hreg | exact Hgone].
Qed.

(** X13. A deletion is all or nothing and never adds a row: for any request
    body, [admin_api_delete_participant] either answers 200 or leaves the
    store exactly as it was (no regno: 400, unknown regno: 404, a body that
    is no object: an exception), and every row of the store afterwards was a
    row of the store before. *)
Theorem delete_participant_all_or_nothing (payload : json) (db : database) :
  ((exists msg : string,
      fst (admin_api_delete_participant payload db)
      = Return (jsonify [("success", JBool true); ("message", JStr msg)], 200))
   \/ snd (admin_api_delete_participant payload db) = db)
  /\ incl (participants (snd (admin_api_delete_participant payload db))) (participants db)
  /\ incl (results (snd (admin_api_delete_participant payload db))) (results db)
  /\ incl (answers (snd (admin_api_delete_participant payload db))) (answers db).
Proof.
  unfold admin_api_delete_participant.
  destruct (delete_fields payload) as [regno | e];
    [| cbn [fst snd]; repeat split; auto using incl_refl].
  destruct (nonempty regno); cbn [negb];
    [| cbn [fst snd]; repeat split; auto using incl_refl].
  destruct (Participant_get_or_none db regno) as [p |];
    [| cbn [fst snd]; repeat split; auto using incl_refl].
  cbn [fst snd]. split; [left; eexists; reflexivity |].
  unfold Participant_delete_instance. cbn [participants results answers].
  repeat split; apply incl_filter.
Qed.

(** *** The leaderboard after a deletion *)

Lemma insert_row_head (x : Result.t * Participant.t) (rows : list (Result.t * Participant.t)) :
  Forall (ranked x) rows -> insert_row x rows = x :: rows.
Proof.
  intros H. destruct rows as [| y rest]; [reflexivity |].
  cbn [insert_row]. inversion H as [| ? ? Hy _]; subst.
  unfold ranked in Hy. rewrite Hy. reflexivity.
Qed.

Lemma filter_insert_row (f : Result.t * Participant.t -> bool)
  (x : Result.t * Participant.t) (rows : list (Result.t * Participant.t)) :
  StronglySorted ranked rows ->
  filter f (insert_row x rows)
  = if f x then insert_row x (filter f rows) else filter f rows.
Proof.
  induction 1 as [| y rest Hs IH Hy]; cbn [insert_row filter].
  - destruct (f x); reflexivity.
  - destruct (precedes x y) eqn:Hxy.
    + cbn [filter]. destruct (f x) eqn:Hfx; [| reflexivity].
      symmetry. apply insert_row_head.
      assert (Hall : Forall (ranked x) (y :: rest)).
      { constructor; [exact Hxy |].
        apply Forall_forall. intros z Hz. apply (ranked_trans x y z); [exact Hxy |].
        apply (proj1 (Forall_forall _ _) Hy z Hz). }
      apply Forall_forall. intros z Hz.
      apply (proj1 (Forall_forall _ _) Hall z).
      change (In z (filter f (y :: rest))) in Hz.
      apply filter_In in Hz. apply Hz.
    + cbn [filter]. rewrite IH. destruct (f y) eqn:Hfy; destruct (f x) eqn:Hfx;
        try reflexivity.
      cbn [insert_row]. rewrite Hxy. reflexivity.
Qed.

Lemma filter_order_by (f : Result.t * Participant.t -> bool)
  (rows : list (Result.t * Participant.t)) :
  filter f (order_by rows) = order_by (filter f rows).
Proof.
  unfold order_by. induction rows as [| x rows IH]; [reflexivity |].
  cbn [fold_right filter].
  rewrite filter_insert_row by apply order_by_sorted.
  fold (order_by rows) in IH |- *. rewrite IH.
  destruct (f x); reflexivity.
Qed.

Lemma Participant_by_id_spec (db : database) (pid : Z) (p : Participant.t) :
  Participant_by_id db pid = Some p -> In p (participants db) /\ Participant.id p = pid.
Proof.
  intros H. apply find_some in H. destruct H as [Hin Heq].
  split; [exact Hin | apply Z.eqb_eq; exact Heq].
Qed.

Lemma select_join_deleted (db : database) (p : Participant.t) :
  select_join (Participant_delete_instance db p)
  = filter (fun rp => negb (Participant.id (snd rp) =? Participant.id p)) (select_join db).
Proof.
  unfold select_join, Participant_delete_instance, Participant_by_id.
  cbn [participants results].
  induction (results db) as [| r rs IH]; [reflexivity |].
  cbn [filter flat_map]. rewrite filter_app, <- IH.
  destruct (Result.participant r =? Participant.id p) eqn:Hr; cbn [negb].
  - destruct (find (fun x => Participant.id x =? Result.participant r) (participants db))
      as [x |] eqn:Hx; [| reflexivity].
    apply find_some in Hx. destruct Hx as [_ Hx]. apply Z.eqb_eq in Hx.
    cbn [filter snd]. rewrite Hx, Hr. reflexivity.
  - cbn [flat_map]. f_equal.
    rewrite find_filter_keep.
    + destruct (find (fun x => Participant.id x =? Result.participant r) (participants db))
        as [x |] eqn:Hx; [| reflexivity].
      apply find_some in Hx. destruct Hx as [_ Hx]. apply Z.eqb_eq in Hx.
      cbn [filter snd]. rewrite Hx, Hr. reflexivity.
    + intros x _ Hx. apply Z.eqb_eq in Hx. rewrite Hx, Hr. reflexivity.
Qed.

Lemma select_join_participant (db : database) (rp : Result.t * Participant.t) :
  In rp (select_join db) ->
  In (fst rp) (results db) /\ In (snd rp) (participants db)
  /\ Participant.id (snd rp) = Result.participant (fst rp).
Proof.
  unfold select_join. intros H. apply in_flat_map in H. destruct H as (r & Hr & H).
  destruct (Participant_by_id db (Result.participant r)) as [x |] eqn:Hx; [| destruct H].
  destruct H as [<- | []]. apply Participant_by_id_spec in Hx.
  cbn [fst snd]. split; [exact Hr | exact Hx].
Qed.

Lemma filter_map_comm {A B : Type} (f : B -> bool) (g : A -> B) (l : list A) :
  filter f (map g l) = map g (filter (fun x => f (g x)) l).
Proof.
  induction l as [| x l IH]; [reflexivity |].
  cbn [map filter]. rewrite IH. destruct (f (g x)); reflexivity.
Qed.

Lemma ranked_rows_deleted (db : database) (p : Participant.t) :
  order_by (select_join (Participant_delete_instance db p))
  = filter (fun rp => negb (Participant.id (snd rp) =? Participant.id p))
      (order_by (select_join db)).
Proof. rewrite select_join_deleted, filter_order_by. reflexivity. Qed.

Lemma same_participant (db : database) (p : Participant.t) (rp : Result.t * Participant.t) :
  store_ok db ->
  In p (participants db) ->
  In rp (order_by (select_join db)) ->
  String.eqb (Participant.regno (snd rp)) (Participant.regno p)
  = (Participant.id (snd rp) =? Participant.id p).
Proof.
  intros Hok Hp Hrp.
  apply (Permutation_in _ (order_by_perm _)) in Hrp.
  apply select_join_participant in Hrp. destruct Hrp as (_ & Hin & _).
  destruct (Participant.id (snd rp) =? Participant.id p) eqn:Hid.
  - apply Z.eqb_eq in Hid.
    rewrite (nodup_key_inj Participant.id _ _ _ (ok_participant_ids db Hok) Hin Hp Hid).
    apply String.eqb_refl.
  - apply String.eqb_neq. intros Hregno. apply Z.eqb_neq in Hid. apply Hid.
    rewrite (nodup_key_inj Participant.regno _ _ _ (ok_regnos db Hok) Hin Hp Hregno).
    reflexivity.
Qed.

(** X14. Deleting a participant of a sound store removes exactly that
    participant's line from the leaderboard: what [leaderboard_api] answers
    afterwards is what it answered before without the entries of the deleted
    regno, every other entry unchanged and in the same order. *)
Theorem leaderboard_after_delete (db : database) (regno : string) (p : Participant.t) :
  store_ok db ->
  registered db regno p ->
  leaderboard_api (snd (admin_api_delete_participant (delete_request regno) db))
  = filter (fun e => negb (String.eqb (Entry.regno e) (strip regno))) (leaderboard_api db).
Proof.
  intros Hok Hreg. rewrite (delete_request_found db regno p Hreg). cbn [snd].
  destruct (registered_in db regno p Hreg) as [Hin Hregno].
  unfold leaderboard_api. rewrite ranked_rows_deleted, filter_map_comm.
  f_equal. apply filter_same. intros rp Hrp. cbn [Entry.regno].
  rewrite <- Hregno, (same_participant db p rp Hok Hin Hrp). reflexivity.
Qed.

(** *** Registration undone by a deletion *)

Lemma filter_snoc_drop {A : Type} (f : A -> bool) (l : list A) (a : A) :
  (forall x, In x l -> f x = true) -> f a = false -> filter f (l ++ [a]) = l.
Proof.
  intros Hl Ha. rewrite filter_app, (filter_all f l Hl). cbn [filter]. rewrite Ha.
  apply app_nil_r.
Qed.

(** X15. An unused registration can be undone: in a sound store, a
    well-formed registration under a new regno followed by the deletion of
    that regno (both answered 200) gives back the store as it was before,
    row for row. *)
Theorem register_then_delete_restores (db : database)
  (name regno college department : string) (year : json) (y : Z) :
  store_ok db ->
  nonempty (strip name) = true ->
  nonempty (strip regno) = true ->
  nonempty (strip college) = true ->
  nonempty (strip department) = true ->
  int_of_string (strip (py_str year)) = Some y ->
  Participant_get_or_none db (strip regno) = None ->
  let registration := register (register_request name regno college department year) db in
  snd (fst registration) = 200
  /\ admin_api_delete_participant (delete_request regno) (snd registration)
     = (Return (jsonify [("success", JBool true);
                         ("message", JStr ("Deleted " ++ strip regno))], 200), db).
Proof.
  intros Hok Hn Hr Hc Hd Hy Hnone registration. subst registration.
  pose proof (register_new db name regno college department year y Hok Hn Hr Hc Hd Hy Hnone)
    as Hrun. cbv zeta in Hrun. rewrite Hrun. clear Hrun. cbn [fst snd].
  split; [reflexivity |].
  set (p := Participant.mk (next_id (map Participant.id (participants db)))
              (strip name) (strip regno) (strip college) (strip department) y).
  set (r0 := Result.mk (next_id (map Result.id (results db))) (Participant.id p) 0 0 0).
  rewrite (delete_request_found _ regno p).
  2:{ split; [exact Hr |]. unfold Participant_get_or_none. cbn [participants].
      apply (find_regno_snoc (participants db) p). exact Hnone. }
  f_equal. unfold Participant_delete_instance. cbn [participants results answers].
  assert (Hfresh : forall x, In x (participants db) -> Participant.id x <> Participant.id p).
  { intros x Hx Heq. apply (next_id_fresh (map Participant.id (participants db))).
    change (next_id (map Participant.id (participants db))) with (Participant.id p).
    rewrite <- Heq. apply in_map. exact Hx. }
  assert (Hown : forall r, In r (results db) -> Result.participant r <> Participant.id p).
  { intros r Hin Heq. pose proof (ok_result_owner db Hok r Hin) as H. rewrite Heq in H.
    exact (next_id_fresh _ H). }
  rewrite (filter_snoc_drop _ (participants db) p).
  2:{ intros x Hx. apply negb_true_iff, Z.eqb_neq. exact (Hfresh x Hx). }
  2:{ rewrite Z.eqb_refl. reflexivity. }
  rewrite (filter_snoc_drop _ (results db) r0).
  2:{ intros r Hin. apply negb_true_iff, Z.eqb_neq. exact (Hown r Hin). }
  2:{ cbn [r0 Result.participant]. rewrite Z.eqb_refl. reflexivity. }
  rewrite filter_app.
  assert (Hrids : filter (fun r => Result.participant r =? Participant.id p) (results db) = []).
  { induction (results db) as [| r rs IH]; [reflexivity |].
    cbn [filter]. destruct (Result.participant r =? Participant.id p) eqn:E.
    - apply Z.eqb_eq in E. exfalso. apply (Hown r); [left; reflexivity | exact E].
    - apply IH. intros r' Hr'. apply Hown. right. exact Hr'. }
  rewrite Hrids. cbn [filter app map existsb r0 Result.participant Result.id].
  rewrite Z.eqb_refl. cbn [map existsb].
  rewrite filter_all.
  - destruct db; reflexivity.
  - intros a Ha. apply negb_true_iff. rewrite orb_false_r. apply Z.eqb_neq.
    intros Heq. pose proof (ok_answer_owner db Hok a Ha) as H. rewrite Heq in H.
    exact (next_id_fresh _ H).
Qed.

(** *** The credential check *)

Lemma configured_spec (v : option string) :
  configured v = true -> exists s : string, v = Some s /\ s <> "".
Proof.
  destruct v as [s |]; [| discriminate]. cbn [configured]. unfold nonempty.
  intros H. exists s. split; [reflexivity |].
  apply negb_true_iff in H. apply String.eqb_neq. exact H.
Qed.

Lemma option_string_eqb_spec (a b : option string) :
  option_string_eqb a b = true -> a = b.
Proof.
  destruct a as [x |], b as [y |]; cbn [option_string_eqb]; try discriminate.
  - intros H. apply String.eqb_eq in H. rewrite H. reflexivity.
  - reflexivity.
Qed.

(** X16. [require_admin] runs the handler only behind both checks: whatever
    the handler and the state, a reply is either served, and then both
    credentials are configured and non-empty, the request carries exactly
    that user name and password, and the reply and the new state are the
    handler's; or it is refused with status 500 or 401, and then the state
    is untouched. In particular, with a credential unset or empty every
    request is refused with 500, whatever it carries. *)
Theorem require_admin_guards {St A : Type} (ADMIN_USERNAME ADMIN_PASSWORD : option string)
  (auth : option authorization) (fn : St -> A * St) (s : St) :
  match fst (require_admin ADMIN_USERNAME ADMIN_PASSWORD auth fn s) with
  | Served r =>
      (exists u pw : string,
          ADMIN_USERNAME = Some u /\ ADMIN_PASSWORD = Some pw /\ u <> "" /\ pw <> ""
          /\ auth = Some (mk_authorization (Some u) (Some pw)))
      /\ (r, snd (require_admin ADMIN_USERNAME ADMIN_PASSWORD auth fn s)) = fn s
  | Refused body status =>
      snd (require_admin ADMIN_USERNAME ADMIN_PASSWORD auth fn s) = s
      /\ (status = 500 /\ configured ADMIN_USERNAME && configured ADMIN_PASSWORD = false
          \/ status = 401 /\ configured ADMIN_USERNAME && configured ADMIN_PASSWORD = true)
  end.
Proof.
  unfold require_admin.
  destruct (configured ADMIN_USERNAME && configured ADMIN_PASSWORD) eqn:Hconf; cbn [negb].
  2:{ cbn [fst snd]. split; [reflexivity | left; split; reflexivity]. }
  destruct auth as [a |].
  2:{ cbn [fst snd unauthorized]. split; [reflexivity | right; split; reflexivity]. }
  destruct (option_string_eqb (username a) ADMIN_USERNAME
            && option_string_eqb (password a) ADMIN_PASSWORD) eqn:Hauth; cbn [negb].
  2:{ cbn [fst snd unauthorized]. split; [reflexivity | right; split; reflexivity]. }
  destruct (fn s) as [r s'] eqn:Hfn. cbn [fst snd]. split; [| reflexivity].
  apply andb_true_iff in Hconf. destruct Hconf as [Hu Hp].
  apply configured_spec in Hu. apply configured_spec in Hp.
  destruct Hu as (u & -> & Hu). destruct Hp as (pw & -> & Hp).
  apply andb_true_iff in Hauth. destruct Hauth as [Ha Hb].
  apply option_string_eqb_spec in Ha. apply option_string_eqb_spec in Hb.
  exists u, pw. repeat split; auto.
  destruct a as [au ap]. cbn [username password] in Ha, Hb. rewrite Ha, Hb. reflexivity.
Qed.

(** *** From the question list to the grader *)

Lemma py_eq_as_int (u v : json) (a b : Z) :
  py_as_int u = Some a -> py_as_int v = Some b -> py_eq u v = true -> a = b.
Proof.
  intros Hu Hv H.
  assert (Hnum : py_number v = Some (inject_Z b)).
  { destruct v; try discriminate; cbn in Hv |- *; congruence. }
  assert (Hq : Qeq_bool (inject_Z a) (inject_Z b) = true).
  { destruct u; try discriminate; cbn [py_as_int] in Hu; injection Hu as <-;
      cbn [py_eq] in H; rewrite Hnum in H; exact H. }
  apply Qeq_bool_iff in Hq. unfold Qeq in Hq. cbn in Hq. lia.
Qed.

Lemma bank_ok_answer (qs : list Question.t) (j : nat) (x : Question.t) :
  bank_ok qs ->
  nth_error qs j = Some x ->
  exists a : Z,
    py_as_int (Question.answer x) = Some a
    /\ 0 <= a < Z.of_nat (List.length (Question.options x)).
Proof.
  intros Hok Hx. apply nth_error_In in Hx.
  pose proof (proj1 (Forall_forall _ _) Hok x Hx) as (_ & _ & Hv).
  unfold valid_index in Hv.
  destruct (py_as_int (Question.answer x)) as [a |]; [| discriminate].
  exists a. split; [reflexivity |].
  apply andb_true_iff in Hv. destruct Hv as [H0 H1].
  apply Z.leb_le in H0. apply Z.ltb_lt in H1. lia.
Qed.

Lemma answer_to_graded (qs : list Question.t) (item : Safe.t) (j : nat) (x : Question.t)
  (a : Z) :
  Safe.id item = Z.of_nat j ->
  nth_error qs j = Some x ->
  py_as_int (Question.answer x) = Some a ->
  key_of qs item = a
  /\ forall (i : nat) (s : Z), answered_correctly qs i (answer_to item s) = (s =? a).
Proof.
  intros Hid Hx Ha. split.
  - unfold key_of. rewrite Hid, Nat2Z.id, Hx, Ha. reflexivity.
  - intros i s. unfold answered_correctly, item_question, item_selected, question_id,
      field, answer_to.
    cbn [assoc_get String.eqb Ascii.eqb Bool.eqb py_int]. rewrite Hid.
    assert (H0 : (0 <=? Z.of_nat j) = true) by (apply Z.leb_le; lia).
    rewrite H0, Nat2Z.id, Hx, Ha. reflexivity.
Qed.

Lemma item_of_graded (qs : list Question.t) (q : Question.t) (item : Safe.t) :
  bank_ok qs ->
  In q qs ->
  item_of qs q item ->
  exists a : Z,
    py_as_int (Question.answer q) = Some a
    /\ 0 <= a < Z.of_nat (List.length (Safe.options item))
    /\ key_of qs item = a
    /\ forall (i : nat) (s : Z), answered_correctly qs i (answer_to item s) = (s =? a).
Proof.
  intros Hok Hq (j & x & Hid & Hshown & Hx & Heq & _).
  destruct (In_nth_error _ _ Hq) as [k Hk].
  destruct (bank_ok_answer qs k q Hok Hk) as (a & Ha & Hrange).
  destruct (bank_ok_answer qs j x Hok Hx) as (a' & Ha' & _).
  assert (Hsame : a' = a).
  { unfold question_eq in Heq. apply andb_true_iff in Heq. destruct Heq as [_ Heq].
    exact (py_eq_as_int _ _ _ _ Ha' Ha Heq). }
  subst a'. exists a. split; [exact Ha |].
  split.
  { unfold shown_item, shown in Hshown. injection Hshown as _ Hopts. rewrite Hopts.
    exact Hrange. }
  exact (answer_to_graded qs item j x a Hid Hx Ha').
Qed.

Lemma chosen_set_in (qs : list Question.t) (pick : bool) (q : Question.t) :
  In q (chosen_set qs pick) -> In q qs.
Proof.
  unfold chosen_set. destruct pick; intros H.
  - rewrite <- (firstn_skipn 15 qs). apply in_or_app. right. exact H.
  - rewrite <- (firstn_skipn 15 qs). apply in_or_app. left. exact H.
Qed.

(** X17. The question list and the grader agree: for a bank whose every
    question has an integer answer index into at least two options (what
    [admin_api_add_question] writes), each item [get_questions] returns
    carries an id under which [submit_quiz]'s scoring counts exactly the
    stored answer of that question as correct and every other option as
    wrong, also when the bank holds equal questions and the id is that of an
    earlier copy; so a registered participant who answers every returned
    question with its stored answer is recorded with [correct] equal to the
    number of questions returned and twice that many points. *)
Theorem get_questions_round_trip (db : database) (qs : list Question.t) (pick : bool)
  (name regno : string) (p : Participant.t) :
  bank_ok qs ->
  registered db regno p ->
  exists items : list Safe.t,
    get_questions (Some qs) pick = Return items
    /\ (forall (k : nat) (item : Safe.t),
          nth_error items k = Some item ->
          exists (q : Question.t) (a : Z),
            nth_error (chosen_set qs pick) k = Some q
            /\ shown_item item = shown q
            /\ py_as_int (Question.answer q) = Some a
            /\ 0 <= a < Z.of_nat (List.length (Safe.options item))
            /\ forall (i : nat) (s : Z),
                 answered_correctly qs i (answer_to item s) = (s =? a))
    /\ exists (db' : database) (r : Result.t),
         submit_quiz (Some qs)
           (submit_payload name regno (map (fun item => answer_to item (key_of qs item)) items))
           db
         = (Return submit_ok, db')
         /\ Result_of_participant db' (Participant.id p) = Some r
         /\ Result.correct r = Z.of_nat (List.length items)
         /\ Result.points r = 2 * Z.of_nat (List.length items).
Proof.
  intros Hok Hreg.
  destruct (get_questions_spec qs pick) as (items & Hrun & Hall).
  exists items. split; [exact Hrun |].
  assert (Hitems : forall (k : nat) (item : Safe.t),
             nth_error items k = Some item ->
             exists (q : Question.t) (a : Z),
               nth_error (chosen_set qs pick) k = Some q
               /\ shown_item item = shown q
               /\ py_as_int (Question.answer q) = Some a
               /\ 0 <= a < Z.of_nat (List.length (Safe.options item))
               /\ key_of qs item = a
               /\ forall (i : nat) (s : Z),
                    answered_correctly qs i (answer_to item s) = (s =? a)).
  { intros k item Hk.
    destruct (Forall2_nth_error_right _ _ _ Hall k item Hk) as (q & Hq & Hitem).
    assert (Hin : In q qs) by (apply (chosen_set_in qs pick), (nth_error_In _ _ Hq)).
    destruct (item_of_graded qs q item Hok Hin Hitem) as (a & Ha & Hr & Hkey & Hgrade).
    exists q, a. repeat split; try assumption; try apply Hr.
    destruct Hitem as (j & x & _ & Hshown & _). exact Hshown. }
  split.
  { intros k item Hk. destruct (Hitems k item Hk) as (q & a & H1 & H2 & H3 & H4 & _ & H6).
    exists q, a. repeat split; try assumption; apply H4. }
  destruct (submit_quiz_spec db qs name regno
              (map (fun item => answer_to item (key_of qs item)) items) p Hreg)
    as (db' & rid & Hsub & _ & Hres & _).
  eexists db', _. split; [exact Hsub |]. split; [exact Hres |].
  cbn [Result.correct Result.points].
  assert (Hcount : correct_count qs (map (fun item => answer_to item (key_of qs item)) items)
                   = List.length items).
  { unfold correct_count.
    rewrite (correct_count_from_all qs (map (fun item => answer_to item (key_of qs item)) items)).
    - apply length_map.
    - intros i d Hd. apply in_map_iff in Hd. destruct Hd as (item & <- & Hin).
      destruct (In_nth_error _ _ Hin) as [k Hk].
      destruct (Hitems k item Hk) as (q & a & _ & _ & _ & _ & Hkey & Hgrade).
      rewrite Hgrade, Hkey. apply Z.eqb_refl. }
  rewrite Hcount. split; [reflexivity | lia].
Qed.

(** *** The question bank under requests *)

Lemma add_question_cases (data : json) (questions_file : option (list Question.t)) :
  snd (admin_api_add_question data questions_file) = questions_file
  \/ exists q : Question.t,
       snd (admin_api_add_question data questions_file)
       = Some (bank_of questions_file ++ [q])%list
       /\ bank_ok [q].
Proof.
  unfold admin_api_add_question.
  destruct (add_question_fields (py_or data (JDict []))) as [[[question options] answer] | e];
    [| left; reflexivity].
  destruct (nonempty question) eqn:Hq; cbn [negb]; [| left; reflexivity].
  destruct options as [| | | | | opts |]; try (left; reflexivity).
  destruct (List.length opts <? 2)%nat eqn:Hlen; [left; reflexivity |].
  destruct (valid_index answer opts) eqn:Hv; cbn [negb]; [| left; reflexivity].
  right. exists (Question.mk question opts answer). split; [reflexivity |].
  constructor; [| constructor]. cbn [Question.question Question.options Question.answer].
  split; [exact Hq |]. split; [| exact Hv].
  apply Nat.ltb_ge in Hlen. exact Hlen.
Qed.

Lemma step_bank (s : app_state) (rq : request) :
  bank_file (step s rq) = bank_file s
  \/ exists q : Question.t,
       bank_file (step s rq) = Some (bank_of (bank_file s) ++ [q])%list /\ bank_ok [q].
Proof.
  destruct rq as [data | payload | data | payload]; cbn [step bank_file];
    try (left; reflexivity).
  apply add_question_cases.
Qed.

Lemma run_bank (rqs : list request) :
  forall s : app_state,
    exists added : list Question.t,
      bank_of (bank_file (run s rqs)) = (bank_of (bank_file s) ++ added)%list
      /\ bank_ok added
      /\ (List.length added <= List.length rqs)%nat.
Proof.
  induction rqs as [| rq rqs IH]; intros s.
  - exists []. cbn [run fold_left]. rewrite app_nil_r.
    split; [reflexivity |]. split; [constructor | apply le_n].
  - cbn [run fold_left]. destruct (IH (step s rq)) as (added & Heq & Hok & Hlen).
    fold (run (step s rq) rqs). rewrite Heq.
    destruct (step_bank s rq) as [Hsame | (q & Hnew & Hq)].
    + exists added. rewrite Hsame. split; [reflexivity |]. split; [exact Hok |].
      cbn [List.length]. lia.
    + exists (q :: added). rewrite Hnew. cbn [bank_of]. rewrite <- app_assoc.
      split; [reflexivity |]. split.
      * inversion Hq; subst. constructor; assumption.
      * cbn [List.length]. lia.
Qed.

(** X18. The bank only grows, and only by well-formed questions: after any
    sequence of requests, with any bodies, the bank is the bank before
    followed by the questions added since, at most one per request; every
    bank position keeps its question, so an id handed out earlier still names
    the same question; and a bank whose every question has a text, at least
    two options and an integer answer index into them stays such a bank. *)
Theorem bank_only_grows (s : app_state) (rqs : list request) :
  bank_ok (bank_of (bank_file s)) ->
  bank_ok (bank_of (bank_file (run s rqs)))
  /\ (List.length (bank_of (bank_file s)) <= List.length (bank_of (bank_file (run s rqs)))
      <= List.length (bank_of (bank_file s)) + List.length rqs)%nat
  /\ forall (j : nat) (q : Question.t),
       nth_error (bank_of (bank_file s)) j = Some q ->
       nth_error (bank_of (bank_file (run s rqs))) j = Some q.
Proof.
  intros Hok. destruct (run_bank rqs s) as (added & Heq & Hadded & Hlen).
  rewrite Heq. split; [apply Forall_app; split; assumption |].
  split; [rewrite length_app; lia |].
  intros j q Hj. rewrite nth_error_app1; [exact Hj |].
  apply nth_error_Some. rewrite Hj. discriminate.
Qed.

(** *** Who is on the leaderboard *)

Lemma Answer_insert_many_results (rows : list new_answer) :
  forall db : database,
    results (Answer_insert_many db rows) = results db
    /\ participants (Answer_insert_many db rows) = participants db.
Proof.
  induction rows as [| [[[rid qid] sel] tm] rows IH]; intros db; [split; reflexivity |].
  cbn [Answer_insert_many]. destruct (IH (mk_database (participants db) (results db)
    (answers db ++ [Answer.mk (next_id (map Answer.id (answers db))) rid qid sel tm])%list))
    as [Hr Hp].
  rewrite Hr, Hp. split; reflexivity.
Qed.

Lemma Result_save_participants (db : database) (r r' : Result.t) :
  store_ok db ->
  In r (results db) ->
  Result.id r' = Result.id r ->
  Result.participant r' = Result.participant r ->
  map Result.participant (results (Result_save db r')) = map Result.participant (results db).
Proof.
  intros Hok Hin Hid Hpart. unfold Result_save. cbn [results]. rewrite map_map.
  apply map_ext_in. intros x Hx.
  destruct (Result.id x =? Result.id r') eqn:Hxe; [| reflexivity].
  apply Z.eqb_eq in Hxe. rewrite Hid in Hxe.
  rewrite (nodup_key_inj Result.id (results db) x r (ok_result_ids db Hok) Hx Hin Hxe).
  exact Hpart.
Qed.

Lemma submission_writes_ranked (db : database) (p : Participant.t) (t : tally)
  (items : list dict) :
  store_ok db ->
  In p (participants db) ->
  every_participant_ranked db ->
  every_participant_ranked (submission_writes db p t items).
Proof.
  intros Hok Hp Hall. unfold submission_writes.
  destruct (Result_get_or_create db p (correct t) (points_of t) (avg_time_of t))
    as [[r created] db1] eqn:Hgoc.
  destruct (Result_get_or_create_ok db p _ _ _ Hok (in_map _ _ _ Hp) r created db1 Hgoc)
    as (Hok1 & Hin & Hpart & Hps & _ & Hold & Hnew).
  pose proof (Result_save_participants db1 r
                (Result.mk (Result.id r) (Result.participant r) (correct t) (points_of t)
                   (avg_time_of t)) Hok1 Hin eq_refl eq_refl) as Hsave.
  intros x Hx.
  destruct (Answer_insert_many_results
              (rows_of_items
                 (Result.id (Result.mk (Result.id r) (Result.participant r) (correct t)
                               (points_of t) (avg_time_of t))) items)
              (Answer_delete_where_result
                 (Result_save db1
                    (Result.mk (Result.id r) (Result.participant r) (correct t)
                       (points_of t) (avg_time_of t)))
                 (Result.id (Result.mk (Result.id r) (Result.participant r) (correct t)
                               (points_of t) (avg_time_of t))))) as [Hr Hpp].
  rewrite Hr. rewrite Hpp in Hx.
  cbn [Answer_delete_where_result results participants Result_save] in Hx |- *.
  change (In (Participant.id x)
            (map Result.participant
               (results (Result_save db1
                           (Result.mk (Result.id r) (Result.participant r) (correct t)
                              (points_of t) (avg_time_of t)))))).
  rewrite Hsave. rewrite Hps in Hx.
  destruct created.
  - destruct (Hnew eq_refl) as (Hres & _). rewrite Hres, map_app.
    apply in_or_app. left. apply Hall. exact Hx.
  - rewrite (Hold eq_refl). apply Hall. exact Hx.
Qed.

Lemma step_ranked (s : app_state) (rq : request) :
  store_ok (store s) ->
  every_participant_ranked (store s) ->
  every_participant_ranked (store (step s rq)).
Proof.
  intros Hok Hall. destruct rq as [data | payload | data | payload]; cbn [step store].
  - unfold register.
    destruct (register_fields data) as [[[[[name regno] college] department] year_raw] | e];
      [| exact Hall].
    destruct (negb _); [exact Hall |].
    destruct (int_of_string year_raw) as [year |]; [| exact Hall].
    destruct (Participant_get_or_none (store s) regno) eqn:Hex; [exact Hall |].
    destruct (Participant_create (store s) name regno college department year)
      as [[p | e] db1] eqn:Hcreate.
    + destruct (Participant_create_ok _ _ _ _ _ _ Hok p db1 Hcreate) as (Hok1 & Hdb1 & _).
      destruct (Result_get_or_create db1 p 0 0 0%Q) as [[r created] db2] eqn:Hgoc.
      cbn [snd].
      assert (Hpin : In (Participant.id p) (map Participant.id (participants db1))).
      { rewrite Hdb1. cbn [participants]. rewrite map_app. apply in_or_app. right. left.
        reflexivity. }
      destruct (Result_get_or_create_ok db1 p _ _ _ Hok1 Hpin r created db2 Hgoc)
        as (_ & Hin & Hpart & Hps & _ & Hold & Hnew).
      intros x Hx. rewrite Hps, Hdb1 in Hx. cbn [participants] in Hx.
      apply in_app_or in Hx. destruct Hx as [Hx | [<- | []]].
      * pose proof (Hall x Hx) as Hr.
        destruct created.
        -- destruct (Hnew eq_refl) as (Hres & _). rewrite Hres, Hdb1. cbn [results].
           rewrite map_app. apply in_or_app. left. exact Hr.
        -- rewrite (Hold eq_refl), Hdb1. cbn [results]. exact Hr.
      * rewrite <- Hpart. apply in_map. exact Hin.
    + unfold Participant_create in Hcreate. rewrite Hex in Hcreate. discriminate.
  - destruct (submit_quiz_cases (bank_file s) payload (store s))
      as [(o & -> & _) | (questions & regno & p & items & t & _ & _ & Hp & _ & ->)];
      [exact Hall |].
    cbn [snd]. apply submission_writes_ranked; [exact Hok | | exact Hall].
    unfold Participant_get_or_none in Hp. apply find_regno_some in Hp. tauto.
  - exact Hall.
  - unfold admin_api_delete_participant.
    destruct (delete_fields payload) as [regno | e]; [| exact Hall].
    destruct (negb (nonempty regno)); [exact Hall |].
    destruct (Participant_get_or_none (store s) regno) as [p |]; [| exact Hall].
    cbn [snd]. unfold Participant_delete_instance. intros x Hx.
    cbn [participants results] in Hx |- *.
    apply filter_In in Hx. destruct Hx as [Hx Hne].
    pose proof (Hall x Hx) as Hr. apply in_map_iff in Hr. destruct Hr as (r & Hr & Hrin).
    rewrite <- Hr. apply in_map. apply filter_In. split; [exact Hrin |].
    rewrite Hr. exact Hne.
Qed.

Lemma run_ranked (rqs : list request) :
  forall s : app_state,
    store_ok (store s) ->
    every_participant_ranked (store s) ->
    store_ok (store (run s rqs)) /\ every_participant_ranked (store (run s rqs)).
Proof.
  induction rqs as [| rq rqs IH]; intros s Hok Hall; [split; assumption |].
  cbn [run fold_left]. apply (IH (step s rq)).
  - apply step_store_ok. exact Hok.
  - apply step_ranked; assumption.
Qed.

Lemma select_join_complete (db : database) (r : Result.t) (p : Participant.t) :
  store_ok db ->
  In r (results db) ->
  In p (participants db) ->
  Result.participant r = Participant.id p ->
  In (r, p) (select_join db).
Proof.
  intros Hok Hr Hp Hrp. unfold select_join. apply in_flat_map. exists r.
  split; [exact Hr |]. unfold Participant_by_id.
  rewrite (find_key_some Participant.id (participants db) (Result.participant r) p
             (ok_participant_ids db Hok) Hp (eq_sym Hrp)).
  left. reflexivity.
Qed.

Lemma select_join_nodup (db : database) :
  store_ok db -> NoDup (map (fun rp => Participant.regno (snd rp)) (select_join db)).
Proof.
  intros Hok.
  assert (Hsub : forall rs : list Result.t,
             (forall r, In r rs -> In r (results db)) ->
             NoDup (map Result.participant rs) ->
             NoDup (map (fun rp => Participant.regno (snd rp))
                      (flat_map (fun r => match Participant_by_id db (Result.participant r) with
                                          | Some p => [(r, p)]
                                          | None => []
                                          end) rs))).
  { induction rs as [| r rs IH]; intros Hin Hnd; [constructor |].
    cbn [flat_map]. inversion Hnd as [| ? ? Hnotin Hnd']; subst.
    assert (IH' := IH (fun x Hx => Hin x (or_intror Hx)) Hnd').
    destruct (Participant_by_id db (Result.participant r)) as [p |] eqn:Hp; [| exact IH'].
    cbn [app map snd]. constructor; [| exact IH'].
    intros Hdup. apply in_map_iff in Hdup. destruct Hdup as ([r' p'] & Hregno & Hin').
    cbn [snd] in Hregno. apply in_flat_map in Hin'. destruct Hin' as (r'' & Hr'' & Hin').
    destruct (Participant_by_id db (Result.participant r'')) as [p'' |] eqn:Hp'';
      [| destruct Hin'].
    destruct Hin' as [[= <- <-] | []].
    apply Participant_by_id_spec in Hp. apply Participant_by_id_spec in Hp''.
    destruct Hp as [Hpin Hpid]. destruct Hp'' as [Hpin'' Hpid''].
    pose proof (nodup_key_inj Participant.regno _ _ _ (ok_regnos db Hok) Hpin'' Hpin Hregno)
      as Hsame. subst p''.
    apply Hnotin. rewrite <- Hpid, Hpid''. apply in_map. exact Hr''. }
  apply Hsub; [auto | apply (ok_one_result db Hok)].
Qed.

Lemma leaderboard_regnos (db : database) :
  Permutation (map Entry.regno (leaderboard_api db))
    (map (fun rp => Participant.regno (snd rp)) (select_join db)).
Proof.
  unfold leaderboard_api. rewrite map_map. cbn [Entry.regno].
  apply Permutation_map. apply order_by_perm.
Qed.

(** X19. The leaderboard lists exactly the registered participants, each
    once: from a sound store in which every participant has a Result (as the
    empty store trivially is), after any sequence of registrations,
    submissions, question additions and deletions with any bodies, the
    regnos of [leaderboard_api]'s entries are the regnos of the participants
    table, without repetition, and every participant still has a Result. *)
Theorem leaderboard_lists_registered (s : app_state) (rqs : list request) :
  store_ok (store s) ->
  every_participant_ranked (store s) ->
  every_participant_ranked (store (run s rqs))
  /\ NoDup (map Entry.regno (leaderboard_api (store (run s rqs))))
  /\ Permutation (map Entry.regno (leaderboard_api (store (run s rqs))))
       (map Participant.regno (participants (store (run s rqs))))
  /\ List.length (leaderboard_api (store (run s rqs)))
     = List.length (participants (store (run s rqs))).
Proof.
  intros Hok0 Hall0. destruct (run_ranked rqs s Hok0 Hall0) as [Hok Hall].
  set (db := store (run s rqs)) in *.
  assert (Hnd : NoDup (map Entry.regno (leaderboard_api db))).
  { apply (Permutation_NoDup (Permutation_sym (leaderboard_regnos db))).
    apply select_join_nodup. exact Hok. }
  assert (Hperm : Permutation (map Entry.regno (leaderboard_api db))
                    (map Participant.regno (participants db))).
  { apply NoDup_Permutation; [exact Hnd | apply (ok_regnos db Hok) |].
    intros regno. split; intros Hin.
    - apply (Permutation_in _ (leaderboard_regnos db)) in Hin.
      apply in_map_iff in Hin. destruct Hin as (rp & <- & Hrp).
      apply select_join_participant in Hrp. apply in_map. apply Hrp.
    - apply (Permutation_in _ (Permutation_sym (leaderboard_regnos db))).
      apply in_map_iff in Hin. destruct Hin as (p & <- & Hp).
      pose proof (Hall p Hp) as Hr. apply in_map_iff in Hr. destruct Hr as (r & Hr & Hrin).
      apply in_map_iff. exists (r, p). split; [reflexivity |].
      apply select_join_complete; assumption. }
  split; [exact Hall |]. split; [exact Hnd |]. split; [exact Hperm |].
  rewrite <- (length_map Entry.regno), <- (length_map Participant.regno).
  apply Permutation_length. exact Hperm.
Qed.

(** *** The export, the leaderboard and the top ten *)

Lemma export_rows_top (rows : list (Result.t * Participant.t)) :
  forall i : nat,
    export_rows i rows = map (fun t => row_of (Top.rank t) (Top.entry t)) (top_rows i rows).
Proof.
  induction rows as [| rp rows IH]; intros i; [reflexivity |].
  cbn [export_rows top_rows map]. rewrite IH. reflexivity.
Qed.

Lemma top_rows_firstn (rows : list (Result.t * Participant.t)) :
  forall (n i : nat), firstn n (top_rows i rows) = top_rows i (firstn n rows).
Proof.
  induction rows as [| rp rows IH]; intros [| n] i; try reflexivity.
  cbn [top_rows firstn]. rewrite IH. reflexivity.
Qed.

Lemma nth_error_map_inv {X Y : Type} (f : X -> Y) (l : list X) :
  forall (k : nat) (y : Y),
    nth_error (map f l) k = Some y -> exists x : X, nth_error l k = Some x /\ f x = y.
Proof.
  induction l as [| a l IH]; intros [| k] y H; try discriminate.
  - injection H as <-. exists a. split; reflexivity.
  - apply IH. exact H.
Qed.

(** X20. The export, the leaderboard and the top ten show one ranking: the
    table [admin_api_export_leaderboard] writes is the header followed by
    one row per entry of [leaderboard_api], in the same order, carrying the
    entry's position counted from 1 and its values; and its first ten data
    rows are the entries of [admin_api_top] with the same ranks. *)
Theorem export_matches_leaderboard (db : database) :
  List.length (admin_api_export_leaderboard db) = S (List.length (leaderboard_api db))
  /\ (forall (k : nat) (e : Entry.t),
        nth_error (leaderboard_api db) k = Some e ->
        nth_error (admin_api_export_leaderboard db) (S k)
        = Some (row_of (Z.of_nat k + 1) e))
  /\ firstn 10 (tl (admin_api_export_leaderboard db))
     = map (fun t => row_of (Top.rank t) (Top.entry t)) (admin_api_top db)
  /\ (List.length (admin_api_top db) <= 10)%nat.
Proof.
  unfold admin_api_export_leaderboard, admin_api_top.
  pose proof (top_rows_entries (order_by (select_join db)) 0) as Hentries.
  fold (leaderboard_api db) in Hentries.
  cbn [List.length nth_error tl]. rewrite export_rows_top.
  split; [| split; [| split]].
  - rewrite length_map, <- (length_map Top.entry), Hentries. reflexivity.
  - intros k e Hk. rewrite <- Hentries in Hk.
    destruct (nth_error_map_inv _ _ k e Hk) as (t & Ht & <-).
    rewrite (map_nth_error _ _ _ Ht).
    rewrite (top_rows_rank _ 0 k t Ht). reflexivity.
  - rewrite firstn_map, top_rows_firstn. reflexivity.
  - rewrite <- top_rows_firstn. rewrite length_firstn. apply Nat.le_min_l.
Qed.


(** *** The text of an integer, read back *)

Lemma rstrip_fixed (space : ascii -> bool) (s : string) :
  Forall (fun c => space c = false) (list_ascii_of_string s) -> rstrip space s = s.
Proof.
  induction s as [| c s IH]; [reflexivity |].
  cbn [list_ascii_of_string rstrip]. intros H. inversion H as [| ? ? Hc Hs]; subst.
  rewrite (IH Hs). destruct s; [rewrite Hc |]; reflexivity.
Qed.

Lemma uint_chars (d : Decimal.uint) :
  Forall (fun c => is_space c = false /\ is_blank c = false)
    (list_ascii_of_string (NilEmpty.string_of_uint d)).
Proof.
  induction d; cbn [NilEmpty.string_of_uint list_ascii_of_string]; constructor;
    try assumption; split; reflexivity.
Qed.

Lemma parse_digits_acc (d : Decimal.uint) :
  forall acc : positive,
    parse_digits (NilEmpty.string_of_uint d) (Zpos acc) = Some (Zpos (Pos.of_uint_acc d acc)).
Proof.
  induction d; intros acc; cbn [NilEmpty.string_of_uint Pos.of_uint_acc];
    [reflexivity | ..];
    (cbn [parse_digits]; 
     match goal with
     | |- context [digit_of ?c] =>
         let v := eval vm_compute in (digit_of c) in change (digit_of c) with v
     end;
     cbv iota beta; rewrite <- IHd; f_equal; lia).
Qed.

Lemma parse_digits_zero (d : Decimal.uint) :
  parse_digits (NilEmpty.string_of_uint d) 0 = Some (Z.of_N (Pos.of_uint d)).
Proof.
  induction d; cbn [NilEmpty.string_of_uint Pos.of_uint];
    [reflexivity | ..];
    (cbn [parse_digits];
     match goal with
     | |- context [digit_of ?c] =>
         let v := eval vm_compute in (digit_of c) in change (digit_of c) with v
     end;
     cbv iota beta; first [exact IHd | apply parse_digits_acc]).
Qed.

Lemma parse_unsigned_uint (d : Decimal.uint) :
  d <> Decimal.Nil ->
  parse_unsigned (NilEmpty.string_of_uint d) = Some (Z.of_N (Pos.of_uint d)).
Proof.
  intros Hd. destruct d; [contradiction | ..];
    cbn [NilEmpty.string_of_uint parse_unsigned Pos.of_uint];
    match goal with
    | |- context [digit_of ?c] =>
        let v := eval vm_compute in (digit_of c) in change (digit_of c) with v
    end;
    cbv iota beta; first [apply parse_digits_zero | apply parse_digits_acc].
Qed.

Lemma parse_unsigned_pos (p : positive) :
  parse_unsigned (NilEmpty.string_of_uint (Pos.to_uint p)) = Some (Zpos p).
Proof.
  rewrite parse_unsigned_uint by apply DecimalPos.Unsigned.to_uint_nonnil.
  rewrite DecimalPos.Unsigned.of_to. reflexivity.
Qed.

Lemma string_of_uint_pos (p : positive) :
  NilZero.string_of_uint (Pos.to_uint p) = NilEmpty.string_of_uint (Pos.to_uint p)
  /\ exists (c : ascii) (rest : string),
       NilEmpty.string_of_uint (Pos.to_uint p) = String c rest
       /\ is_space c = false /\ is_blank c = false
       /\ Ascii.eqb c "+" = false /\ Ascii.eqb c "-" = false.
Proof.
  pose proof (DecimalPos.Unsigned.to_uint_nonnil p) as Hnil.
  destruct (Pos.to_uint p); [contradiction | ..];
    (split; [reflexivity |]); cbn [NilEmpty.string_of_uint];
    eexists _, _; (split; [reflexivity |]); repeat split; reflexivity.
Qed.

(** X22. The text of an integer reads back as that integer: for every
    integer [z], [str(z)] is not empty, [strip] leaves it as it is, and
    [int] of it is [z] again (the path a JSON integer [year] takes through
    [register]); the same text sent as a [qId] or a [selected] is coerced
    to [z]. *)
Theorem int_of_str_round_trip (z : Z) :
  nonempty (py_str (JInt z)) = true
  /\ strip (py_str (JInt z)) = py_str (JInt z)
  /\ int_of_string (strip (py_str (JInt z))) = Some z
  /\ py_int (JStr (py_str (JInt z))) = Return z.
Proof.
  assert (Hfix : strip (py_str (JInt z)) = py_str (JInt z)
                 /\ int_of_string (py_str (JInt z)) = Some z).
  { unfold py_str, strip, int_of_string. destruct z as [| p | p];
      cbn [Z.to_int NilZero.string_of_int]; [split; reflexivity | |].
    - destruct (string_of_uint_pos p) as (-> & c & rest & Heq & Hs & Hb & Hplus & Hminus).
      pose proof (uint_chars (Pos.to_uint p)) as Hall.
      pose proof (parse_unsigned_pos p) as Hparse.
      rewrite Heq in Hall, Hparse |- *.
      cbn [lstrip]. rewrite Hs, Hb.
      rewrite !rstrip_fixed;
        [| eapply Forall_impl; [| exact Hall]; cbn beta; tauto
         | eapply Forall_impl; [| exact Hall]; cbn beta; tauto].
      split; [reflexivity |]. rewrite Hplus, Hminus. exact Hparse.
    - destruct (string_of_uint_pos p) as (-> & _).
      pose proof (uint_chars (Pos.to_uint p)) as Hall.
      cbn [lstrip]. change (is_space "-") with false. change (is_blank "-") with false.
      cbv iota.
      rewrite !rstrip_fixed;
        [| constructor; [reflexivity |]; eapply Forall_impl; [| exact Hall]; cbn beta; tauto
         | constructor; [reflexivity |]; eapply Forall_impl; [| exact Hall]; cbn beta; tauto].
      split; [reflexivity |].
      change (Ascii.eqb "-" "+") with false. change (Ascii.eqb "-" "-") with true.
      cbv iota. rewrite parse_unsigned_pos. reflexivity. }
  destruct Hfix as [Hstrip Hint].
  split; [exact (int_of_string_nonempty _ _ Hint) |].
  split; [exact Hstrip |].
  split; [rewrite Hstrip; exact Hint |].
  cbn [py_int]. rewrite Hint. reflexivity.
Qed.

(** ** The further properties on the test data *)

Ltac keys_by_computation :=
  solve [repeat constructor; cbn; intuition (try discriminate; try lia)].

Ltac owner_by_computation :=
  let x := fresh "x" in
  let Hin := fresh "Hin" in
  intros x Hin; cbn in Hin;
  repeat (destruct Hin as [<- | Hin]; [cbn; auto 10 |]);
  destruct Hin.

Ltac store_ok_by_computation :=
  constructor; cbn; first [keys_by_computation | owner_by_computation].

Lemma test_db_ok : store_ok test_db.
Proof. store_ok_by_computation. Qed.

Lemma ranking_db_ok : store_ok ranking_db.
Proof. store_ok_by_computation. Qed.

Lemma test_db_registered : registered test_db "TEST001" test_participant.
Proof. split; reflexivity. Qed.

Lemma test_db_ranked : every_participant_ranked test_db.
Proof. intros p [<- | []]. left. reflexivity. Qed.

Lemma test_questions_ok : bank_ok test_questions.
Proof.
  repeat constructor; cbn [Question.options List.length]; lia.
Qed.

Ltac storable_by_computation :=
  repeat constructor; cbn; lia.

Lemma test_answers_storable : Forall storable_item test_answers.
Proof. storable_by_computation. Qed.

Lemma float_answers_storable : Forall storable_item float_answers.
Proof. storable_by_computation. Qed.

(** X1 on the test store: the batch with times 0.1 and 0.2 is recorded. *)
Lemma submit_quiz_all_or_nothing_witness :
  storable_request (submit_payload "Test User" "TEST001" float_answers)
  /\ fst (submit_quiz (Some test_questions)
            (submit_payload "Test User" "TEST001" float_answers) test_db)
     = Return submit_ok
  /\ participants
       (snd (submit_quiz (Some test_questions)
               (submit_payload "Test User" "TEST001" float_answers) test_db))
     = participants test_db.
Proof.
  assert (Hst : storable_request (submit_payload "Test User" "TEST001" float_answers)).
  { intros answers items d Hget Hiter Hin. cbn in Hget. injection Hget as <-.
    cbn in Hiter. injection Hiter as <-.
    apply (proj1 (Forall_forall _ _) float_answers_storable).
    cbn in Hin. destruct Hin as [[= <-] | [[= <-] | []]]; [left | right; left]; reflexivity. }
  split; [exact Hst |]. split; [reflexivity |].
  exact (proj2 (submit_quiz_all_or_nothing (Some test_questions) _ test_db Hst)).
Defined.

(** X2 on the test store: a registration, a submission, a deletion and a
    submission by the deleted participant. *)
Lemma store_ok_preserved_witness :
  store_ok test_db
  /\ store_ok
       (store (run (mk_app test_db (Some test_questions))
                 [Register (register_request "New User" "NEW001" "College" "CS" (JStr "2024"));
                  SubmitQuiz (submit_payload "Test User" "TEST001" test_answers);
                  DeleteParticipant (delete_request "TEST001");
                  SubmitQuiz (submit_payload "Test User" "TEST001" test_answers)])).
Proof.
  split; [exact test_db_ok |].
  exact (proj1 (store_ok_preserved (mk_app test_db (Some test_questions)) _ test_db_ok)).
Defined.

(** X3 on the ranking store: a submission by R1 leaves the Result of
    participant 2 as it was. *)
Lemma submit_quiz_other_participants_untouched_witness :
  store_ok ranking_db
  /\ registered ranking_db "R1" (Participant.mk 1 "Ann" "R1" "C" "D" 2023)
  /\ 2 <> Participant.id (Participant.mk 1 "Ann" "R1" "C" "D" 2023)
  /\ Result_of_participant
       (snd (submit_quiz (Some test_questions) (submit_payload "Ann" "R1" test_answers)
               ranking_db)) 2
     = Result_of_participant ranking_db 2.
Proof.
  assert (Hreg : registered ranking_db "R1" (Participant.mk 1 "Ann" "R1" "C" "D" 2023))
    by (split; reflexivity).
  assert (Hne : 2 <> Participant.id (Participant.mk 1 "Ann" "R1" "C" "D" 2023))
    by (cbn; lia).
  split; [exact ranking_db_ok |]. split; [exact Hreg |]. split; [exact Hne |].
  exact (proj1 (submit_quiz_other_participants_untouched ranking_db test_questions
                  "Ann" "R1" test_answers _ ranking_db_ok Hreg 2 Hne)).
Defined.




(** X7 on the test store and the batch with times 0.1 and 0.2. *)
Lemma stored_aggregates_in_range_witness :
  registered test_db "TEST001" test_participant
  /\ Forall storable_item float_answers
  /\ exists (db' : database) (r : Result.t),
       submit_quiz (Some test_questions) (submit_payload "Test User" "TEST001" float_answers)
         test_db = (Return submit_ok, db')
       /\ Result_of_participant db' (Participant.id test_participant) = Some r
       /\ 0 <= Result.correct r <= Z.of_nat (List.length float_answers)
       /\ Result.points r = 2 * Result.correct r
       /\ (0 <= Result.avg_time r)%Q.
Proof.
  split; [exact test_db_registered |]. split; [exact float_answers_storable |].
  destruct (stored_aggregates_in_range test_db test_questions "Test User" "TEST001"
              float_answers test_participant test_db_registered float_answers_storable)
    as (db' & r & Hrun & Hres & Hcorrect & Hpoints & _ & Havg).
  exists db', r. repeat split; try assumption; try apply Hcorrect.
  apply Havg. intros x Hx. vm_compute in Hx.
  destruct Hx as [<- | [<- | []]]; discriminate.
Defined.

(** X8 on the test store: a new participant under "NEW001", the text
    fields padded with blanks. *)
Lemma register_creates_participant_and_result_witness :
  store_ok test_db
  /\ nonempty (strip " New User ") = true
  /\ nonempty (strip " NEW001 ") = true
  /\ nonempty (strip "College") = true
  /\ nonempty (strip "CS") = true
  /\ int_of_string (strip (py_str (JStr " 2024 "))) = Some 2024
  /\ Participant_get_or_none test_db (strip " NEW001 ") = None
  /\ exists (p : Participant.t) (r : Result.t) (db' : database),
       register (register_request " New User " " NEW001 " "College" "CS" (JStr " 2024 "))
         test_db
       = ((jsonify [("success", JBool true); ("message", JStr "Registration successful");
                    ("name", JStr (strip " New User ")); ("regno", JStr (strip " NEW001 "))],
           200), db')
       /\ p = Participant.mk (Participant.id p) (strip " New User ") (strip " NEW001 ")
                (strip "College") (strip "CS") 2024
       /\ r = Result.mk (Result.id r) (Participant.id p) 0 0 0
       /\ participants db' = (participants test_db ++ [p])%list
       /\ results db' = (results test_db ++ [r])%list
       /\ answers db' = answers test_db
       /\ Result_of_participant db' (Participant.id p) = Some r
       /\ registered db' " NEW001 " p
       /\ registered db' (Participant.regno p) p.
Proof.
  repeat (split; [first [exact test_db_ok | reflexivity] |]).
  exact (register_creates_participant_and_result test_db " New User " " NEW001 " "College"
           "CS" (JStr " 2024 ") 2024 test_db_ok eq_refl eq_refl eq_refl eq_refl eq_refl
           eq_refl).
Defined.

(** X10 on the test store: the same registration sent twice. *)
Lemma register_twice_conflicts_witness :
  store_ok test_db
  /\ int_of_string (strip (py_str (JInt 2024))) = Some 2024
  /\ Participant_get_or_none test_db (strip "NEW001") = None
  /\ exists db1 : database,
       snd (fst (register (register_request "New User" "NEW001" "College" "CS" (JInt 2024))
                   test_db)) = 200
       /\ snd (register (register_request "New User" "NEW001" "College" "CS" (JInt 2024))
                 test_db) = db1
       /\ register (register_request "New User" "NEW001" "College" "CS" (JInt 2024)) db1
          = ((failure "Registration already exists for this regno", 409), db1).
Proof.
  repeat (split; [first [exact test_db_ok | reflexivity] |]).
  exact (register_twice_conflicts test_db "New User" "NEW001" "College" "CS" (JInt 2024) 2024
           test_db_ok eq_refl eq_refl eq_refl eq_refl eq_refl eq_refl).
Defined.


(** X12 on the ranking store: Bob ("R2") is deleted. *)
Lemma delete_participant_cascades_witness :
  store_ok ranking_db
  /\ registered ranking_db " R2 " (Participant.mk 2 "Bob" "R2" "C" "D" 2023)
  /\ exists db' : database,
       admin_api_delete_participant (delete_request " R2 ") ranking_db
       = (Return (jsonify [("success", JBool true);
                           ("message", JStr ("Deleted " ++ strip " R2 "))], 200), db')
       /\ Participant_get_or_none db' (strip " R2 ") = None
       /\ Result_of_participant db' 2 = None
       /\ Participant_get_or_none db' "R3" = Participant_get_or_none ranking_db "R3"
       /\ Result_of_participant db' 3 = Result_of_participant ranking_db 3
       /\ admin_api_delete_participant (delete_request " R2 ") db'
          = (Return (failure "Participant not found", 404), db').
Proof.
  assert (Hreg : registered ranking_db " R2 " (Participant.mk 2 "Bob" "R2" "C" "D" 2023))
    by (split; reflexivity).
  split; [exact ranking_db_ok |]. split; [exact Hreg |].
  destruct (delete_participant_cascades ranking_db " R2 " _ ranking_db_ok Hreg)
    as (db' & Hrun & Hgone & Hres & _ & Hothers & Hframe & Hagain).
  exists db'. split; [exact Hrun |]. split; [exact Hgone |]. split; [exact Hres |].
  split; [apply Hothers; discriminate |].
  split; [apply (Hframe 3); discriminate | exact Hagain].
Defined.

(** X14 on the ranking store: without Bob the leaderboard keeps R3, R4, R1
    in that order. *)
Lemma leaderboard_after_delete_witness :
  store_ok ranking_db
  /\ registered ranking_db "R2" (Participant.mk 2 "Bob" "R2" "C" "D" 2023)
  /\ leaderboard_api (snd (admin_api_delete_participant (delete_request "R2") ranking_db))
     = filter (fun e => negb (String.eqb (Entry.regno e) (strip "R2")))
         (leaderboard_api ranking_db)
  /\ map Entry.regno (leaderboard_api ranking_db) = ["R2"; "R3"; "R4"; "R1"]
  /\ map Entry.regno
       (leaderboard_api (snd (admin_api_delete_participant (delete_request "R2") ranking_db)))
     = ["R3"; "R4"; "R1"].
Proof.
  assert (Hreg : registered ranking_db "R2" (Participant.mk 2 "Bob" "R2" "C" "D" 2023))
    by (split; reflexivity).
  split; [exact ranking_db_ok |]. split; [exact Hreg |].
  split; [| split; reflexivity].
  exact (leaderboard_after_delete ranking_db "R2" _ ranking_db_ok Hreg).
Defined.

(** X15 on the test store: "NEW001" registers and is deleted. *)
Lemma register_then_delete_restores_witness :
  store_ok test_db
  /\ int_of_string (strip (py_str (JStr "2024"))) = Some 2024
  /\ Participant_get_or_none test_db (strip "NEW001") = None
  /\ snd (fst (register (register_request "New User" "NEW001" "College" "CS" (JStr "2024"))
                 test_db)) = 200
  /\ admin_api_delete_participant (delete_request "NEW001")
       (snd (register (register_request "New User" "NEW001" "College" "CS" (JStr "2024"))
               test_db))
     = (Return (jsonify [("success", JBool true);
                         ("message", JStr ("Deleted " ++ strip "NEW001"))], 200), test_db).
Proof.
  repeat (split; [first [exact test_db_ok | reflexivity] |]).
  exact (proj2 (register_then_delete_restores test_db "New User" "NEW001" "College" "CS"
                  (JStr "2024") 2024
                  test_db_ok eq_refl eq_refl eq_refl eq_refl eq_refl eq_refl)).
Defined.

(** X17 on the test bank and the test store. *)
Lemma get_questions_round_trip_witness :
  bank_ok test_questions
  /\ registered test_db "TEST001" test_participant
  /\ exists items : list Safe.t,
       get_questions (Some test_questions) false = Return items
       /\ exists (db' : database) (r : Result.t),
            submit_quiz (Some test_questions)
              (submit_payload "Test User" "TEST001"
                 (map (fun item => answer_to item (key_of test_questions item)) items))
              test_db
            = (Return submit_ok, db')
            /\ Result_of_participant db' (Participant.id test_participant) = Some r
            /\ Result.correct r = Z.of_nat (List.length items)
            /\ Result.points r = 2 * Z.of_nat (List.length items).
Proof.
  split; [exact test_questions_ok |]. split; [exact test_db_registered |].
  destruct (get_questions_round_trip test_db test_questions false "Test User" "TEST001"
              test_participant test_questions_ok test_db_registered)
    as (items & Hrun & _ & Hsubmit).
  exists items. split; [exact Hrun | exact Hsubmit].
Defined.

(** X18 on the test bank: one well-formed addition, one rejected. *)
Lemma bank_only_grows_witness :
  bank_ok (bank_of (bank_file (mk_app test_db (Some test_questions))))
  /\ bank_ok
       (bank_of
          (bank_file
             (run (mk_app test_db (Some test_questions))
                [AddQuestion (JDict [("question", JStr "What is 3+3?");
                                     ("options", JList [JStr "5"; JStr "6"]);
                                     ("answer", JInt 1)]);
                 AddQuestion (JDict [("question", JStr "What is 1+1?");
                                     ("options", JList [JStr "2"]);
                                     ("answer", JInt 0)])])))
  /\ List.length
       (bank_of
          (bank_file
             (run (mk_app test_db (Some test_questions))
                [AddQuestion (JDict [("question", JStr "What is 3+3?");
                                     ("options", JList [JStr "5"; JStr "6"]);
                                     ("answer", JInt 1)]);
                 AddQuestion (JDict [("question", JStr "What is 1+1?");
                                     ("options", JList [JStr "2"]);
                                     ("answer", JInt 0)])]))) = 3%nat.
Proof.
  split; [exact test_questions_ok |]. split; [| reflexivity].
  exact (proj1 (bank_only_grows (mk_app test_db (Some test_questions)) _ test_questions_ok)).
Defined.

(** X19 on the test store: after a registration, a submission and the
    deletion of "TEST001" the leaderboard lists "NEW001" alone. *)
Lemma leaderboard_lists_registered_witness :
  store_ok test_db
  /\ every_participant_ranked test_db
  /\ Permutation
       (map Entry.regno
          (leaderboard_api
             (store (run (mk_app test_db (Some test_questions))
                       [Register (register_request "New User" "NEW001" "College" "CS"
                                    (JStr "2024"));
                        SubmitQuiz (submit_payload "Test User" "TEST001" test_answers);
                        DeleteParticipant (delete_request "TEST001")]))))
       (map Participant.regno
          (participants
             (store (run (mk_app test_db (Some test_questions))
                       [Register (register_request "New User" "NEW001" "College" "CS"
                                    (JStr "2024"));
                        SubmitQuiz (submit_payload "Test User" "TEST001" test_answers);
                        DeleteParticipant (delete_request "TEST001")]))))
  /\ map Participant.regno
       (participants
          (store (run (mk_app test_db (Some test_questions))
                    [Register (register_request "New User" "NEW001" "College" "CS"
                                 (JStr "2024"));
                     SubmitQuiz (submit_payload "Test User" "TEST001" test_answers);
                     DeleteParticipant (delete_request "TEST001")])))
     = ["NEW001"].
Proof.
  split; [exact test_db_ok |]. split; [exact test_db_ranked |]. split; [| reflexivity].
  exact (proj1 (proj2 (proj2 (leaderboard_lists_registered
                                (mk_app test_db (Some test_questions)) _
                                test_db_ok test_db_ranked)))).
Defined.


(** *** The ids of a bank without duplicates *)

Lemma nth_error_ext_eq {X : Type} (l m : list X) :
  (forall k, nth_error l k = nth_error m k) -> l = m.
Proof.
  revert m. induction l as [| a l IH]; intros [| b m] H.
  - reflexivity.
  - specialize (H 0%nat). discriminate.
  - specialize (H 0%nat). discriminate.
  - pose proof (H 0%nat) as H0. injection H0 as <-. f_equal.
    apply IH. intros k. exact (H (S k)).
Qed.

(** X23. In a bank that holds no two equal questions, the ids
    [get_questions] returns are the positions of the questions in the bank
    file: 0, 1, 2, ... for the first part and 15, 16, 17, ... for the second,
    so no id is handed out twice, and each returned item shows the text and
    options of the bank question at its id. *)
Theorem get_questions_ids_are_positions (qs : list Question.t) (pick : bool) :
  duplicate_free qs ->
  exists items : list Safe.t,
    get_questions (Some qs) pick = Return items
    /\ map Safe.id items
       = map Z.of_nat (seq (if pick then 15 else 0) (List.length items))
    /\ NoDup (map Safe.id items)
    /\ forall item : Safe.t,
         In item items ->
         exists q : Question.t,
           nth_error qs (Z.to_nat (Safe.id item)) = Some q /\ shown_item item = shown q.
Proof.
  intros Hfree.
  destruct (get_questions_ids_duplicate_free qs pick Hfree) as (items & Hrun & Hids).
  exists items. split; [exact Hrun |].
  assert (Hmap : map Safe.id items
                 = map Z.of_nat (seq (if pick then 15 else 0) (List.length items))).
  { apply nth_error_ext_eq. intros k.
    destruct (nth_error items k) as [item |] eqn:Hk.
    - destruct (Hids k item Hk) as (q & _ & Hid & _).
      rewrite (map_nth_error Safe.id _ _ Hk).
      assert (Hlt : (k < List.length items)%nat)
        by (apply nth_error_Some; rewrite Hk; discriminate).
      assert (Hseq : nth_error (seq (if pick then 15 else 0) (List.length items)) k
                     = Some ((if pick then 15 else 0) + k)%nat).
      { rewrite nth_error_nth' with (d := 0%nat) by (rewrite length_seq; exact Hlt).
        rewrite seq_nth by exact Hlt. reflexivity. }
      rewrite (map_nth_error Z.of_nat _ _ Hseq), Hid. reflexivity.
    - apply nth_error_None in Hk.
      transitivity (@None Z); [| symmetry]; apply nth_error_None.
      + rewrite length_map. exact Hk.
      + rewrite length_map, length_seq. exact Hk. }
  split; [exact Hmap |]. split.
  - rewrite Hmap. apply Finite.Injective_map_NoDup; [| apply seq_NoDup].
    intros a b Hab. apply Nat2Z.inj. exact Hab.
  - intros item Hin. destruct (In_nth_error _ _ Hin) as [k Hk].
    destruct (Hids k item Hk) as (q & Hq & Hid & Hshown).
    exists q. rewrite Hid, Nat2Z.id. split; [exact Hq | exact Hshown].
Qed.

Lemma test_questions_duplicate_free : duplicate_free test_questions.
Proof.
  intros i j x y Hlt Hi Hj.
  destruct i as [| [| i]]; destruct j as [| [| j]]; cbn in Hi, Hj; try lia;
    try (destruct j; discriminate); try (destruct i; discriminate).
  injection Hi as <-. injection Hj as <-. reflexivity.
Qed.

(** X23 on the test bank. *)
Lemma get_questions_ids_are_positions_witness :
  duplicate_free test_questions
  /\ exists items : list Safe.t,
       get_questions (Some test_questions) false = Return items
       /\ map Safe.id items = map Z.of_nat (seq 0 (List.length items))
       /\ NoDup (map Safe.id items).
Proof.
  split; [exact test_questions_duplicate_free |].
  destruct (get_questions_ids_are_positions test_questions false
              test_questions_duplicate_free) as (items & Hrun & Hids & Hnd & _).
  exists items. split; [exact Hrun |]. split; [exact Hids | exact Hnd].
Defined.

(** *** The order of the items *)

Lemma scored_by_qid (questions : list Question.t) (i j : nat) (d : dict) :
  has_qid d ->
  answered_correctly questions i d = answered_correctly questions j d
  /\ counted_time questions i d = counted_time questions j d.
Proof.
  unfold has_qid, answered_correctly, counted_time, item_question, question_id.
  destruct (assoc_get "qId" d); [split; reflexivity | contradiction].
Qed.

Lemma correct_count_from_qid (questions : list Question.t) (items : list dict) :
  Forall has_qid items ->
  forall i : nat,
    correct_count_from questions i items
    = List.length (filter (answered_correctly questions 0) items).
Proof.
  induction 1 as [| d items Hd _ IH]; intros i; [reflexivity |].
  unfold correct_count_from in *. cbn [enumerate_from filter fst snd].
  rewrite (proj1 (scored_by_qid questions i 0 d Hd)).
  destruct (answered_correctly questions 0 d); cbn [List.length]; rewrite IH; reflexivity.
Qed.

Lemma counted_times_from_qid (questions : list Question.t) (items : list dict) :
  Forall has_qid items ->
  forall i : nat,
    counted_times_from questions i items
    = flat_map (fun d => match counted_time questions 0 d with
                         | Some x => [x]
                         | None => []
                         end) items.
Proof.
  induction 1 as [| d items Hd _ IH]; intros i; [reflexivity |].
  unfold counted_times_from in *. cbn [enumerate_from flat_map fst snd].
  rewrite (proj2 (scored_by_qid questions i 0 d Hd)), IH. reflexivity.
Qed.

Lemma filter_length_perm {X : Type} (f : X -> bool) (l m : list X) :
  Permutation l m -> List.length (filter f l) = List.length (filter f m).
Proof.
  induction 1 as [| x l m _ IH | x y l | l m n _ IH1 _ IH2]; cbn [filter].
  - reflexivity.
  - destruct (f x); cbn [List.length]; rewrite IH; reflexivity.
  - destruct (f x), (f y); reflexivity.
  - rewrite IH1. exact IH2.
Qed.

Lemma flat_map_perm {X Y : Type} (g : X -> list Y) (l m : list X) :
  Permutation l m -> Permutation (flat_map g l) (flat_map g m).
Proof.
  induction 1 as [| x l m _ IH | x y l | l m n _ IH1 _ IH2]; cbn [flat_map].
  - constructor.
  - apply Permutation_app_head. exact IH.
  - rewrite !app_assoc. apply Permutation_app_tail. apply Permutation_app_comm.
  - exact (Permutation_trans IH1 IH2).
Qed.

Lemma sum_perm (zs zs' : list Z) : Permutation zs zs' -> sum_of zs = sum_of zs'.
Proof.
  unfold sum_of.
  induction 1 as [| x l m _ IH | x y l | l m n _ IH1 _ IH2]; cbn [fold_right]; lia.
Qed.

Lemma integers_list (xs : list number) :
  (forall x, In x xs -> exists z : Z, x = NInt z) -> exists zs : list Z, xs = map NInt zs.
Proof.
  induction xs as [| x xs IH]; intros Hall; [exists []; reflexivity |].
  destruct (Hall x (or_introl eq_refl)) as [z ->].
  destruct (IH (fun y Hy => Hall y (or_intror Hy))) as [zs ->].
  exists (z :: zs). reflexivity.
Qed.

(** The mean of integers does not depend on their order. *)
Lemma mean_integers_perm (xs ys : list number) :
  (forall x, In x xs -> exists z : Z, x = NInt z) ->
  Permutation xs ys ->
  mean xs = mean ys.
Proof.
  intros Hall Hperm. destruct (integers_list xs Hall) as [zs ->].
  apply Permutation_sym, Permutation_map_inv in Hperm.
  destruct Hperm as (zs' & -> & Hzs).
  destruct zs as [| z zs].
  - apply Permutation_nil in Hzs. subst zs'. reflexivity.
  - assert (Hne : zs' <> []).
    { intros ->. apply Permutation_sym, Permutation_nil in Hzs. discriminate. }
    rewrite !mean_integers by (assumption || discriminate).
    rewrite (sum_perm _ _ Hzs), (Permutation_length Hzs). reflexivity.
Qed.

(** X24. When every item names its question id, the integer part of the
    grade does not depend on the order of the items: two batches of storable
    items that are permutations of one another give a registered participant
    the same [correct] and [points]; and when every counted time is an
    integer they give the same [avg_time] as well (a sum of floats is
    rounded at every step, so it may depend on the order). *)
Theorem score_independent_of_order (db : database) (questions : list Question.t)
  (name regno : string) (items items' : list dict) (p : Participant.t) :
  registered db regno p ->
  Forall has_qid items ->
  Forall storable_item items ->
  Permutation items items' ->
  exists (db1 db2 : database) (r1 r2 : Result.t),
    submit_quiz (Some questions) (submit_payload name regno items) db = (Return submit_ok, db1)
    /\ submit_quiz (Some questions) (submit_payload name regno items') db
       = (Return submit_ok, db2)
    /\ Result_of_participant db1 (Participant.id p) = Some r1
    /\ Result_of_participant db2 (Participant.id p) = Some r2
    /\ Result.correct r1 = Result.correct r2
    /\ Result.points r1 = Result.points r2
    /\ ((forall x, In x (counted_times questions items) -> exists z : Z, x = NInt z) ->
        Result.avg_time r1 = Result.avg_time r2).
Proof.
  intros Hreg Hqid _ Hperm.
  assert (Hqid' : Forall has_qid items').
  { apply Forall_forall. intros d Hd.
    apply (proj1 (Forall_forall _ _) Hqid d).
    apply (Permutation_in _ (Permutation_sym Hperm)). exact Hd. }
  destruct (submit_quiz_spec db questions name regno items p Hreg)
    as (db1 & rid1 & Hrun1 & _ & Hres1 & _).
  destruct (submit_quiz_spec db questions name regno items' p Hreg)
    as (db2 & rid2 & Hrun2 & _ & Hres2 & _).
  eexists db1, db2, _, _.
  split; [exact Hrun1 |]. split; [exact Hrun2 |].
  split; [exact Hres1 |]. split; [exact Hres2 |].
  cbn [Result.correct Result.points Result.avg_time].
  assert (Hcount : correct_count questions items = correct_count questions items').
  { unfold correct_count.
    rewrite (correct_count_from_qid questions items Hqid),
      (correct_count_from_qid questions items' Hqid').
    apply filter_length_perm. exact Hperm. }
  rewrite Hcount. split; [reflexivity |]. split; [reflexivity |].
  intros Hints. apply mean_integers_perm; [exact Hints |]. unfold counted_times.
  rewrite (counted_times_from_qid questions items Hqid),
    (counted_times_from_qid questions items' Hqid').
  apply flat_map_perm. exact Hperm.
Qed.

(** X24 on the test store: the test batch in reverse. *)
Lemma score_independent_of_order_witness :
  registered test_db "TEST001" test_participant
  /\ Forall has_qid test_answers
  /\ Forall storable_item test_answers
  /\ Permutation test_answers (rev test_answers)
  /\ (forall x, In x (counted_times test_questions test_answers) -> exists z : Z, x = NInt z)
  /\ exists (db1 db2 : database) (r1 r2 : Result.t),
       submit_quiz (Some test_questions) (submit_payload "Test User" "TEST001" test_answers)
         test_db = (Return submit_ok, db1)
       /\ submit_quiz (Some test_questions)
            (submit_payload "Test User" "TEST001" (rev test_answers)) test_db
          = (Return submit_ok, db2)
       /\ Result_of_participant db1 (Participant.id test_participant) = Some r1
       /\ Result_of_participant db2 (Participant.id test_participant) = Some r2
       /\ Result.correct r1 = Result.correct r2
       /\ Result.points r1 = Result.points r2
       /\ Result.avg_time r1 = Result.avg_time r2.
Proof.
  assert (Hqid : Forall has_qid test_answers) by (repeat constructor; discriminate).
  assert (Hperm : Permutation test_answers (rev test_answers)) by apply Permutation_rev.
  assert (Hints : forall x, In x (counted_times test_questions test_answers) ->
                            exists z : Z, x = NInt z).
  { intros x Hx. vm_compute in Hx. destruct Hx as [<- | [<- | []]]; eexists; reflexivity. }
  split; [exact test_db_registered |]. split; [exact Hqid |].
  split; [exact test_answers_storable |]. split; [exact Hperm |]. split; [exact Hints |].
  destruct (score_independent_of_order test_db test_questions "Test User" "TEST001"
              test_answers _ test_participant test_db_registered Hqid
              test_answers_storable Hperm)
    as (db1 & db2 & r1 & r2 & H1 & H2 & H3 & H4 & H5 & H6 & H7).
  exists db1, db2, r1, r2. repeat split; try assumption. exact (H7 Hints).
Defined.

(** *** The year of a registration *)

Lemma uint_dot_chars (d : Decimal.uint) :
  Forall (fun c => is_space c = false /\ is_blank c = false)
    (list_ascii_of_string (NilEmpty.string_of_uint d ++ ".0")).
Proof.
  induction d; cbn [NilEmpty.string_of_uint list_ascii_of_string String.append];
    repeat (constructor; [split; reflexivity |]); first [assumption | constructor].
Qed.

Lemma parse_digits_dot (d : Decimal.uint) :
  forall acc : Z, parse_digits (NilEmpty.string_of_uint d ++ ".0") acc = None.
Proof.
  induction d; intros acc; cbn [NilEmpty.string_of_uint String.append];
    [reflexivity | ..];
    (cbn [parse_digits];
     match goal with
     | |- context [digit_of ?c] =>
         let v := eval vm_compute in (digit_of c) in change (digit_of c) with v
     end;
     cbv iota beta; apply IHd).
Qed.

Lemma parse_unsigned_dot (d : Decimal.uint) :
  parse_unsigned (NilEmpty.string_of_uint d ++ ".0") = None.
Proof.
  destruct d; cbn [NilEmpty.string_of_uint String.append]; [reflexivity | ..];
    (cbn [parse_unsigned];
     match goal with
     | |- context [digit_of ?c] =>
         let v := eval vm_compute in (digit_of c) in change (digit_of c) with v
     end;
     cbv iota beta; apply parse_digits_dot).
Qed.

Lemma float_text_not_int (z : Z) :
  nonempty (strip (NilZero.string_of_int (Z.to_int z) ++ ".0")) = true
  /\ int_of_string (strip (NilZero.string_of_int (Z.to_int z) ++ ".0")) = None.
Proof.
  unfold strip, int_of_string. destruct z as [| p | p];
    cbn [Z.to_int NilZero.string_of_int]; [split; reflexivity | |].
  - destruct (string_of_uint_pos p) as (-> & c & rest & Heq & Hs & Hb & Hplus & Hminus).
    pose proof (uint_dot_chars (Pos.to_uint p)) as Hall.
    pose proof (parse_unsigned_dot (Pos.to_uint p)) as Hparse.
    rewrite Heq in Hall, Hparse |- *. cbn [String.append] in Hall, Hparse |- *.
    cbn [lstrip]. rewrite Hs.
    rewrite (rstrip_fixed is_space)
      by (eapply Forall_impl; [| exact Hall]; cbn beta; tauto).
    cbn [lstrip]. rewrite Hb.
    rewrite (rstrip_fixed is_blank)
      by (eapply Forall_impl; [| exact Hall]; cbn beta; tauto).
    split; [reflexivity |]. rewrite Hplus, Hminus. exact Hparse.
  - destruct (string_of_uint_pos p) as (-> & _).
    pose proof (uint_dot_chars (Pos.to_uint p)) as Hall.
    cbn [String.append lstrip]. change (is_space "-") with false. cbv iota.
    rewrite (rstrip_fixed is_space)
      by (constructor; [reflexivity |]; eapply Forall_impl; [| exact Hall]; cbn beta; tauto).
    cbn [lstrip]. change (is_blank "-") with false. cbv iota.
    rewrite (rstrip_fixed is_blank)
      by (constructor; [reflexivity |]; eapply Forall_impl; [| exact Hall]; cbn beta; tauto).
    split; [reflexivity |].
    change (Ascii.eqb "-" "+") with false. change (Ascii.eqb "-" "-") with true.
    cbv iota. rewrite parse_unsigned_dot. reflexivity.
Qed.

Lemma year_text_not_int (year : json) :
  neither_int_nor_str year ->
  nonempty (strip (py_str year)) = true /\ int_of_string (strip (py_str year)) = None.
Proof.
  destruct year as [| b | z | q | s | l | d]; cbn [neither_int_nor_str]; intros H;
    try contradiction; try (split; reflexivity).
  - destruct b; split; reflexivity.
  - cbn [py_str]. apply float_text_not_int.
Qed.

(** X25. The year of a registration must be an integer or its text: when
    the four text fields are not blank and [year] is JSON null, a boolean, a
    float, a list or an object, [register]
    answers 400 "Year must be a number" and writes nothing, whether or not
    the regno is taken. *)
Theorem register_year_must_be_integer (db : database)
  (name regno college department : string) (year : json) :
  nonempty (strip name) = true ->
  nonempty (strip regno) = true ->
  nonempty (strip college) = true ->
  nonempty (strip department) = true ->
  neither_int_nor_str year ->
  register (register_request name regno college department year) db
  = ((failure "Year must be a number", 400), db).
Proof.
  intros Hn Hr Hc Hd Hyear. destruct (year_text_not_int year Hyear) as [Hne Hint].
  unfold register, register_request, register_fields. read_fields.
  rewrite Hn, Hr, Hc, Hd, Hne. cbn [andb negb]. rewrite Hint. reflexivity.
Qed.

(** X25 on the test store: the year 2023.0 under the regno of the test
    participant. *)
Lemma register_year_must_be_integer_witness :
  neither_int_nor_str (JFloat 2023)
  /\ register (register_request "Test User" "TEST001" "College" "CS" (JFloat 2023)) test_db
     = ((failure "Year must be a number", 400), test_db).
Proof.
  split; [exact I |].
  exact (register_year_must_be_integer test_db "Test User" "TEST001" "College" "CS"
           (JFloat 2023) eq_refl eq_refl eq_refl eq_refl I).
Defined.

(** *** The rounding of the float operations *)

